(** * Camera/view controller and texture registry of the CS-330 scene viewer

    A shallow embedding of [Source/ViewManager.cpp] and of
    [Source/SceneManager.cpp]: the texture registry, the material table,
    the shader setters, and the set-up and the draw sequence of the scene.

    Numbers.  The C++ [float] and [double] values are modelled as exact
    rationals ([Q]): every arithmetic expression of the source is kept as it
    is written, but rounding, overflow, infinities and NaN of IEEE arithmetic
    are outside the model.  C++ [int] values are modelled as [Z]; the only
    [int] that is ever incremented is the texture count, and it is guarded
    by the array capacity long before it could wrap.

    External code.  [cos], [sin] and [sqrt] come from the C library and are
    taken as an interface ([Libm]).  The GLM functions used by the source
    ([radians], [cross], [dot], [normalize]) follow GLM's own definitions.
    Matrices are represented by the GLM call that builds them. *)

From Stdlib Require Import QArith Qminmax Lqa ZArith Lia Bool.
From stdpp Require Import base list strings pretty.

Local Open Scope Q_scope.

(** ** Comparisons of the source, as boolean functions *)

Definition Qltb (a b : Q) : bool :=
  match a ?= b with Lt => true | _ => false end.

Definition Qgtb (a b : Q) : bool := Qltb b a.

(** ** The C library functions the camera calls *)

Class Libm := {
  cos : Q -> Q;
  sin : Q -> Q;
  sqrt : Q -> Q
}.

(** ** GLM three-component vectors *)

Module Vec3.

Record vec3 := mk { x : Q; y : Q; z : Q }.

(** [a + b] *)
Definition add (a b : vec3) : vec3 :=
  mk (x a + x b) (y a + y b) (z a + z b).

(** [a - b] *)
Definition sub (a b : vec3) : vec3 :=
  mk (x a - x b) (y a - y b) (z a - z b).

(** [s * v], scalar on the left *)
Definition smul (s : Q) (v : vec3) : vec3 :=
  mk (s * x v) (s * y v) (s * z v).

(** [v * s], scalar on the right *)
Definition muls (v : vec3) (s : Q) : vec3 :=
  mk (x v * s) (y v * s) (z v * s).

(** [glm::dot] *)
Definition dot (a b : vec3) : Q :=
  x a * x b + y a * y b + z a * z b.

(** [glm::cross] *)
Definition cross (a b : vec3) : vec3 :=
  mk (y a * z b - y b * z a)
     (z a * x b - z b * x a)
     (x a * y b - x b * y a).

(** [glm::inversesqrt] and [glm::normalize] *)
Definition inversesqrt `{Libm} (q : Q) : Q := 1 / sqrt q.

Definition normalize `{Libm} (v : vec3) : vec3 :=
  muls v (inversesqrt (dot v v)).

(** Componentwise equality of values. *)
Definition equiv (a b : vec3) : Prop :=
  x a == x b /\ y a == y b /\ z a == z b.

End Vec3.

Import Vec3.

Declare Scope vec3_scope.
Delimit Scope vec3_scope with V.
Bind Scope vec3_scope with vec3.
Infix "+" := Vec3.add : vec3_scope.
Infix "-" := Vec3.sub : vec3_scope.
Infix "*~" := Vec3.smul (at level 40, left associativity) : vec3_scope.
Infix "~*" := Vec3.muls (at level 40, left associativity) : vec3_scope.
Infix "≡v" := Vec3.equiv (at level 70, no associativity).

(** [glm::radians]: degrees times GLM's literal for pi / 180. *)
Definition radians (degrees : Q) : Q :=
  degrees * 0.01745329251994329576923690768489.

(** ** What the program does to the outside world *)

(** A matrix, named by the GLM call that builds it. *)
Inductive mat4 :=
| lookAt (eye center up : vec3)
| ortho (left right bottom top zNear zFar : Q)
| perspective (fovy aspect zNear zFar : Q).

(** The OpenGL constants the texture code passes. *)
Inductive GLenum :=
| GL_TEXTURE_2D | GL_TEXTURE_WRAP_S | GL_TEXTURE_WRAP_T
| GL_TEXTURE_MIN_FILTER | GL_TEXTURE_MAG_FILTER
| GL_REPEAT | GL_LINEAR
| GL_RGB8 | GL_RGB | GL_RGBA8 | GL_RGBA | GL_UNSIGNED_BYTE
| GL_TEXTURE0_plus (i : Z).

Inductive effect :=
| Stdout (line : string)                      (* std::cout << line << std::endl *)
| SetWindowShouldClose (value : bool)         (* glfwSetWindowShouldClose *)
| setMat4Value (name : string) (m : mat4)     (* ShaderManager::setMat4Value *)
| setVec3Value (name : string) (v : vec3)     (* ShaderManager::setVec3Value *)
| setFloatValue (name : string) (v : Q)       (* ShaderManager::setFloatValue *)
| setIntValue (name : string) (v : Z)         (* ShaderManager::setIntValue *)
| setSampler2DValue (name : string) (v : Z)   (* ShaderManager::setSampler2DValue *)
| stbi_set_flip_vertically_on_load (flag : bool)
| stbi_image_free
| glGenTextures (name : Z)                    (* the name OpenGL handed out *)
| glBindTexture (target : GLenum) (texture : Z)
| glTexParameteri (target pname param : GLenum)
| glTexImage2D (target : GLenum) (level : Z) (internalformat : GLenum)
               (width height border : Z) (format type : GLenum)
| glGenerateMipmap (target : GLenum)
| glActiveTexture (texture : GLenum).

(** ** ViewManager.cpp *)

Module ViewManager.

(** The keys [ProcessKeyboardEvents] polls with [glfwGetKey]. *)
Inductive Key :=
| KEY_ESCAPE | KEY_W | KEY_S | KEY_A | KEY_D | KEY_Q | KEY_E | KEY_P | KEY_O.

(** [glfwGetKey k == GLFW_PRESS] for the keyboard snapshot of one frame. *)
Definition KeyStates := Key -> bool.

Definition WINDOW_WIDTH : Z := 1000.
Definition WINDOW_HEIGHT : Z := 800.
Definition g_ViewName : string := "view".
Definition g_ProjectionName : string := "projection".

(** The variables of the anonymous namespace. *)
Record ViewState := {
  cameraPos : vec3;
  cameraFront : vec3;
  cameraUp : vec3;
  lastX : Q;
  lastY : Q;
  firstMouse : bool;
  yaw : Q;
  pitch : Q;
  fov : Q;
  deltaTime : Q;
  lastFrame : Q;
  movementSpeed : Q;
  orthographicProjection : bool;
  pKeyPressed : bool;
  oKeyPressed : bool
}.

Definition initial : ViewState := {|
  cameraPos := Vec3.mk 0.0 3.0 12.0;
  cameraFront := Vec3.mk 0.0 (-0.2) (-1.0);
  cameraUp := Vec3.mk 0.0 1.0 0.0;
  lastX := inject_Z WINDOW_WIDTH / 2.0;
  lastY := inject_Z WINDOW_HEIGHT / 2.0;
  firstMouse := true;
  yaw := -90.0;
  pitch := 0.0;
  fov := 45.0;
  deltaTime := 0.0;
  lastFrame := 0.0;
  movementSpeed := 2.5;
  orthographicProjection := false;
  pKeyPressed := false;
  oKeyPressed := false
|}.

(** Assignments to one variable. *)
Definition set_cameraPos (v : vec3) (s : ViewState) : ViewState :=
  {| cameraPos := v; cameraFront := cameraFront s; cameraUp := cameraUp s;
     lastX := lastX s; lastY := lastY s; firstMouse := firstMouse s;
     yaw := yaw s; pitch := pitch s; fov := fov s;
     deltaTime := deltaTime s; lastFrame := lastFrame s;
     movementSpeed := movementSpeed s;
     orthographicProjection := orthographicProjection s;
     pKeyPressed := pKeyPressed s; oKeyPressed := oKeyPressed s |}.

Definition set_cameraFront (v : vec3) (s : ViewState) : ViewState :=
  {| cameraPos := cameraPos s; cameraFront := v; cameraUp := cameraUp s;
     lastX := lastX s; lastY := lastY s; firstMouse := firstMouse s;
     yaw := yaw s; pitch := pitch s; fov := fov s;
     deltaTime := deltaTime s; lastFrame := lastFrame s;
     movementSpeed := movementSpeed s;
     orthographicProjection := orthographicProjection s;
     pKeyPressed := pKeyPressed s; oKeyPressed := oKeyPressed s |}.

Definition set_lastX (v : Q) (s : ViewState) : ViewState :=
  {| cameraPos := cameraPos s; cameraFront := cameraFront s;
     cameraUp := cameraUp s;
     lastX := v; lastY := lastY s; firstMouse := firstMouse s;
     yaw := yaw s; pitch := pitch s; fov := fov s;
     deltaTime := deltaTime s; lastFrame := lastFrame s;
     movementSpeed := movementSpeed s;
     orthographicProjection := orthographicProjection s;
     pKeyPressed := pKeyPressed s; oKeyPressed := oKeyPressed s |}.

Definition set_lastY (v : Q) (s : ViewState) : ViewState :=
  {| cameraPos := cameraPos s; cameraFront := cameraFront s;
     cameraUp := cameraUp s;
     lastX := lastX s; lastY := v; firstMouse := firstMouse s;
     yaw := yaw s; pitch := pitch s; fov := fov s;
     deltaTime := deltaTime s; lastFrame := lastFrame s;
     movementSpeed := movementSpeed s;
     orthographicProjection := orthographicProjection s;
     pKeyPressed := pKeyPressed s; oKeyPressed := oKeyPressed s |}.

Definition set_firstMouse (v : bool) (s : ViewState) : ViewState :=
  {| cameraPos := cameraPos s; cameraFront := cameraFront s;
     cameraUp := cameraUp s;
     lastX := lastX s; lastY := lastY s; firstMouse := v;
     yaw := yaw s; pitch := pitch s; fov := fov s;
     deltaTime := deltaTime s; lastFrame := lastFrame s;
     movementSpeed := movementSpeed s;
     orthographicProjection := orthographicProjection s;
     pKeyPressed := pKeyPressed s; oKeyPressed := oKeyPressed s |}.

Definition set_yaw (v : Q) (s : ViewState) : ViewState :=
  {| cameraPos := cameraPos s; cameraFront := cameraFront s;
     cameraUp := cameraUp s;
     lastX := lastX s; lastY := lastY s; firstMouse := firstMouse s;
     yaw := v; pitch := pitch s; fov := fov s;
     deltaTime := deltaTime s; lastFrame := lastFrame s;
     movementSpeed := movementSpeed s;
     orthographicProjection := orthographicProjection s;
     pKeyPressed := pKeyPressed s; oKeyPressed := oKeyPressed s |}.

Definition set_pitch (v : Q) (s : ViewState) : ViewState :=
  {| cameraPos := cameraPos s; cameraFront := cameraFront s;
     cameraUp := cameraUp s;
     lastX := lastX s; lastY := lastY s; firstMouse := firstMouse s;
     yaw := yaw s; pitch := v; fov := fov s;
     deltaTime := deltaTime s; lastFrame := lastFrame s;
     movementSpeed := movementSpeed s;
     orthographicProjection := orthographicProjection s;
     pKeyPressed := pKeyPressed s; oKeyPressed := oKeyPressed s |}.

Definition set_deltaTime (v : Q) (s : ViewState) : ViewState :=
  {| cameraPos := cameraPos s; cameraFront := cameraFront s;
     cameraUp := cameraUp s;
     lastX := lastX s; lastY := lastY s; firstMouse := firstMouse s;
     yaw := yaw s; pitch := pitch s; fov := fov s;
     deltaTime := v; lastFrame := lastFrame s;
     movementSpeed := movementSpeed s;
     orthographicProjection := orthographicProjection s;
     pKeyPressed := pKeyPressed s; oKeyPressed := oKeyPressed s |}.

Definition set_lastFrame (v : Q) (s : ViewState) : ViewState :=
  {| cameraPos := cameraPos s; cameraFront := cameraFront s;
     cameraUp := cameraUp s;
     lastX := lastX s; lastY := lastY s; firstMouse := firstMouse s;
     yaw := yaw s; pitch := pitch s; fov := fov s;
     deltaTime := deltaTime s; lastFrame := v;
     movementSpeed := movementSpeed s;
     orthographicProjection := orthographicProjection s;
     pKeyPressed := pKeyPressed s; oKeyPressed := oKeyPressed s |}.

Definition set_movementSpeed (v : Q) (s : ViewState) : ViewState :=
  {| cameraPos := cameraPos s; cameraFront := cameraFront s;
     cameraUp := cameraUp s;
     lastX := lastX s; lastY := lastY s; firstMouse := firstMouse s;
     yaw := yaw s; pitch := pitch s; fov := fov s;
     deltaTime := deltaTime s; lastFrame := lastFrame s;
     movementSpeed := v;
     orthographicProjection := orthographicProjection s;
     pKeyPressed := pKeyPressed s; oKeyPressed := oKeyPressed s |}.

Definition set_orthographicProjection (v : bool) (s : ViewState)
  : ViewState :=
  {| cameraPos := cameraPos s; cameraFront := cameraFront s;
     cameraUp := cameraUp s;
     lastX := lastX s; lastY := lastY s; firstMouse := firstMouse s;
     yaw := yaw s; pitch := pitch s; fov := fov s;
     deltaTime := deltaTime s; lastFrame := lastFrame s;
     movementSpeed := movementSpeed s;
     orthographicProjection := v;
     pKeyPressed := pKeyPressed s; oKeyPressed := oKeyPressed s |}.

Definition set_pKeyPressed (v : bool) (s : ViewState) : ViewState :=
  {| cameraPos := cameraPos s; cameraFront := cameraFront s;
     cameraUp := cameraUp s;
     lastX := lastX s; lastY := lastY s; firstMouse := firstMouse s;
     yaw := yaw s; pitch := pitch s; fov := fov s;
     deltaTime := deltaTime s; lastFrame := lastFrame s;
     movementSpeed := movementSpeed s;
     orthographicProjection := orthographicProjection s;
     pKeyPressed := v; oKeyPressed := oKeyPressed s |}.

Definition set_oKeyPressed (v : bool) (s : ViewState) : ViewState :=
  {| cameraPos := cameraPos s; cameraFront := cameraFront s;
     cameraUp := cameraUp s;
     lastX := lastX s; lastY := lastY s; firstMouse := firstMouse s;
     yaw := yaw s; pitch := pitch s; fov := fov s;
     deltaTime := deltaTime s; lastFrame := lastFrame s;
     movementSpeed := movementSpeed s;
     orthographicProjection := orthographicProjection s;
     pKeyPressed := pKeyPressed s; oKeyPressed := v |}.

Section Callbacks.
Context `{Libm}.

(** [ViewManager::Mouse_Position_Callback] *)
Definition Mouse_Position_Callback (xpos ypos : Q) (s : ViewState)
  : ViewState :=
  let s := if firstMouse s
           then set_firstMouse false (set_lastY ypos (set_lastX xpos s))
           else s in
  let xoffset := xpos - lastX s in
  let yoffset := lastY s - ypos in
  let s := set_lastX xpos s in
  let s := set_lastY ypos s in
  let sensitivity := 0.1 in
  let xoffset := xoffset * sensitivity in
  let yoffset := yoffset * sensitivity in
  let s := set_yaw (yaw s + xoffset) s in
  let s := set_pitch (pitch s + yoffset) s in
  let s := if Qgtb (pitch s) 89.0 then set_pitch 89.0 s else s in
  let s := if Qltb (pitch s) (-89.0) then set_pitch (-89.0) s else s in
  let direction :=
    Vec3.mk (cos (radians (yaw s)) * cos (radians (pitch s)))
            (sin (radians (pitch s)))
            (sin (radians (yaw s)) * cos (radians (pitch s))) in
  set_cameraFront (normalize direction) s.

(** [ViewManager::Mouse_Scroll_Callback] *)
Definition Mouse_Scroll_Callback (xoffset yoffset : Q) (s : ViewState)
  : ViewState :=
  let s := set_movementSpeed (movementSpeed s + yoffset * 0.5) s in
  let s := if Qltb (movementSpeed s) 0.1
           then set_movementSpeed 0.1 s else s in
  let s := if Qgtb (movementSpeed s) 10.0
           then set_movementSpeed 10.0 s else s in
  s.

(** The movement block of [ProcessKeyboardEvents] (W, S, A, D, Q, E). *)
Definition movement_keys (glfwGetKey : KeyStates) (s : ViewState)
  : ViewState :=
  let cameraSpeed := movementSpeed s * deltaTime s in
  let s := if glfwGetKey KEY_W
           then set_cameraPos
                  (cameraPos s + cameraSpeed *~ cameraFront s)%V s
           else s in
  let s := if glfwGetKey KEY_S
           then set_cameraPos
                  (cameraPos s - cameraSpeed *~ cameraFront s)%V s
           else s in
  let s := if glfwGetKey KEY_A
           then set_cameraPos
                  (cameraPos s -
                   normalize (cross (cameraFront s) (cameraUp s))
                     ~* cameraSpeed)%V s
           else s in
  let s := if glfwGetKey KEY_D
           then set_cameraPos
                  (cameraPos s +
                   normalize (cross (cameraFront s) (cameraUp s))
                     ~* cameraSpeed)%V s
           else s in
  let s := if glfwGetKey KEY_Q
           then set_cameraPos
                  (cameraPos s + cameraSpeed *~ cameraUp s)%V s
           else s in
  let s := if glfwGetKey KEY_E
           then set_cameraPos
                  (cameraPos s - cameraSpeed *~ cameraUp s)%V s
           else s in
  s.

(** The projection-mode block of [ProcessKeyboardEvents] (P, then O),
    with the lines it prints. *)
Definition projection_keys (glfwGetKey : KeyStates) (s : ViewState)
  : ViewState * list effect :=
  let out := [] in
  let '(s, out) :=
    if glfwGetKey KEY_P then
      if negb (pKeyPressed s)
      then (set_pKeyPressed true (set_orthographicProjection false s),
            out ++ [Stdout "Switched to Perspective Projection"])
      else (s, out)
    else (set_pKeyPressed false s, out) in
  let '(s, out) :=
    if glfwGetKey KEY_O then
      if negb (oKeyPressed s)
      then (set_oKeyPressed true (set_orthographicProjection true s),
            out ++ [Stdout "Switched to Orthographic Projection"])
      else (s, out)
    else (set_oKeyPressed false s, out) in
  (s, out).

(** [ViewManager::ProcessKeyboardEvents]: the escape key, the movement
    block, the projection-mode block; the effects are returned in the
    order they happen. *)
Definition ProcessKeyboardEvents (glfwGetKey : KeyStates) (s : ViewState)
  : ViewState * list effect :=
  let out := if glfwGetKey KEY_ESCAPE
             then [SetWindowShouldClose true] else [] in
  let s := movement_keys glfwGetKey s in
  let '(s, printed) := projection_keys glfwGetKey s in
  (s, out ++ printed).

(** The projection block of [PrepareSceneView]. *)
Definition projection_matrix (s : ViewState) : mat4 :=
  if orthographicProjection s then
    let orthoSize := 15.0 in
    let aspectRatio := inject_Z WINDOW_WIDTH / inject_Z WINDOW_HEIGHT in
    ortho (- orthoSize * aspectRatio / 2.0)
          (orthoSize * aspectRatio / 2.0)
          (- orthoSize / 2.0)
          (orthoSize / 2.0)
          0.1
          100.0
  else
    perspective (radians (fov s))
                (inject_Z WINDOW_WIDTH / inject_Z WINDOW_HEIGHT)
                0.1 100.0.

(** [ViewManager::PrepareSceneView]; [glfwGetTime] is the clock reading
    of this frame and [m_pShaderManager] tells whether the pointer is
    non-null. *)
Definition PrepareSceneView (glfwGetTime : Q) (glfwGetKey : KeyStates)
    (m_pShaderManager : bool) (s : ViewState)
  : ViewState * list effect :=
  let currentFrame := glfwGetTime in
  let s := set_deltaTime (currentFrame - lastFrame s) s in
  let s := set_lastFrame currentFrame s in
  let '(s, out) := ProcessKeyboardEvents glfwGetKey s in
  let view :=
    lookAt (cameraPos s) (cameraPos s + cameraFront s)%V (cameraUp s) in
  let projection := projection_matrix s in
  let out :=
    if m_pShaderManager
    then out ++ [setMat4Value g_ViewName view;
                 setMat4Value g_ProjectionName projection;
                 setVec3Value "viewPosition" (cameraPos s)]
    else out in
  (s, out).

(** The direction of given angles, by the formula of the cursor
    callback. *)
Definition direction_of (yaw pitch : Q) : vec3 :=
  Vec3.mk (cos (radians yaw) * cos (radians pitch))
          (sin (radians pitch))
          (sin (radians yaw) * cos (radians pitch)).

(** What the window system delivers between and at frames. *)
Inductive Event :=
| CursorPos (xpos ypos : Q)
| Scroll (xoffset yoffset : Q)
| Frame (glfwGetTime : Q) (glfwGetKey : KeyStates)
        (m_pShaderManager : bool).

Definition handle (e : Event) (s : ViewState) : ViewState * list effect :=
  match e with
  | CursorPos xpos ypos => (Mouse_Position_Callback xpos ypos s, [])
  | Scroll xoffset yoffset => (Mouse_Scroll_Callback xoffset yoffset s, [])
  | Frame t keys shader => PrepareSceneView t keys shader s
  end.

(** The state after each event of a run, first event first, paired
    with the effects of that event. *)
Fixpoint run (es : list Event) (s : ViewState)
  : list (ViewState * list effect) :=
  match es with
  | [] => []
  | e :: es => let r := handle e s in r :: run es (fst r)
  end.

(** The state a run ends in. *)
Definition final (es : list Event) (s : ViewState) : ViewState :=
  fold_left (fun s e => fst (handle e s)) es s.

End Callbacks.

(** The keyboard with exactly the keys of [pressed] down. *)
Definition Key_eqb (a b : Key) : bool :=
  match a, b with
  | KEY_ESCAPE, KEY_ESCAPE | KEY_W, KEY_W | KEY_S, KEY_S | KEY_A, KEY_A
  | KEY_D, KEY_D | KEY_Q, KEY_Q | KEY_E, KEY_E | KEY_P, KEY_P
  | KEY_O, KEY_O => true
  | _, _ => false
  end.

Definition keys_down (pressed : list Key) : KeyStates :=
  fun k => existsb (Key_eqb k) pressed.

(** The two lines the projection keys print. *)
Definition perspective_line : string := "Switched to Perspective Projection".
Definition orthographic_line : string :=
  "Switched to Orthographic Projection".

(** How many times [line] is printed in a list of effects. *)
Definition prints (line : string) (e : effect) : bool :=
  match e with Stdout l => String.eqb l line | _ => false end.

Definition printed (line : string) (out : list effect) : nat :=
  length (List.filter (prints line) out).

(** All the effects of a run, in order. *)
Definition effects (rs : list (ViewState * list effect)) : list effect :=
  concat (map snd rs).

(** 1 for a key that is down, 0 for one that is up. *)
Definition down (keys : KeyStates) (k : Key) : Q :=
  if keys k then 1 else 0.

(** The window's aspect ratio, as the projection block computes it. *)
Definition aspect : Q := inject_Z WINDOW_WIDTH / inject_Z WINDOW_HEIGHT.

(** The arguments of an orthographic frustum that is symmetric about the
    view axis, and those of a perspective frustum. *)
Definition symmetric_ortho (m : mat4) (half_width half_height near far : Q)
  : Prop :=
  match m with
  | ortho l r b t n f =>
      l == - half_width /\ r == half_width /\
      b == - half_height /\ t == half_height /\ n == near /\ f == far
  | _ => False
  end.

Definition is_perspective (m : mat4) (fovy a near far : Q) : Prop :=
  match m with
  | perspective fy a' n f => fy == fovy /\ a' == a /\ n == near /\ f == far
  | _ => False
  end.

(** [k] is down at every frame of the events [es]. *)
Definition held (k : Key) (es : list (Event)) : Prop :=
  Forall (fun e => match e with
                   | Frame _ keys _ => keys k = true
                   | _ => True
                   end) es.








End ViewManager.

(** A rational stand-in for the C library (truncated Taylor series, four
    Newton steps), to run the camera on concrete inputs. *)
Definition newton_sqrt (q : Q) : Q :=
  let step r := (r + q / r) / 2 in
  Qred (step (Qred (step (Qred (step (Qred (step ((q + 1) / 2)))))))).

Definition taylor_libm : Libm := {|
  cos a := Qred (1 - a * a / 2 + a * a * a * a / 24);
  sin a := Qred (a - a * a * a / 6 + a * a * a * a * a / 120);
  sqrt := newton_sqrt
|}.

(** ** SceneManager.cpp: texture registry, material table, shader binding *)

(** Behaviour the C++ standard leaves undefined, kept apart from results. *)
Inductive fault :=
| ArrayIndexOutOfBounds (index : Z)
| NullPointerDereference.

Inductive outcome (A : Type) :=
| Returns (a : A)
| Undefined (f : fault).

Arguments Returns {A} a.
Arguments Undefined {A} f.

#[export] Instance outcome_ret : MRet outcome := fun _ a => Returns a.

#[export] Instance outcome_bind : MBind outcome := fun _ _ k m =>
  match m with
  | Returns a => k a
  | Undefined f => Undefined f
  end.

Module SceneManager.

Definition g_TextureValueName : string := "objectTexture".
Definition g_UseTextureName : string := "bUseTexture".

(** What [stbi_load] reports about a decoded file; the pixels themselves
    play no part in the registry. *)
Record Image := { width : Z; height : Z; colorChannels : Z }.

(** [SceneManager.h] is not among the sources; the structures below have
    the members that [SceneManager.cpp] reads and writes. *)
Record TEXTURE_INFO := { ID : Z; tag : string }.

Record OBJECT_MATERIAL := {
  ambientColor : vec3;
  ambientStrength : Q;
  diffuseColor : vec3;
  specularColor : vec3;
  shininess : Q;
  mtag : string                           (* the member [tag] *)
}.

(** The members of the class.  [m_textureIDs] is the fixed array: its
    length is the capacity and never changes.  [m_pShaderManager] tells
    whether the pointer is non-null. *)
Record SceneManager := {
  m_pShaderManager : bool;
  m_textureIDs : list TEXTURE_INFO;
  m_loadedTextures : Z;
  m_objectMaterials : list OBJECT_MATERIAL
}.

(** Modelled from the spec: the header that declares [m_textureIDs] is not
    among the sources; the texture registry is a fixed-capacity array, and
    the comment of [BindGLTextures] gives its size, 16 slots. *)
Definition MAX_TEXTURES : nat := 16.

(** The constructor.  The [ID] of an unused slot is indeterminate in C++
    and is never read; it is 0 here.  A default [std::string] is empty. *)
Definition new (pShaderManager : bool) : SceneManager :=
  {| m_pShaderManager := pShaderManager;
     m_textureIDs := replicate MAX_TEXTURES {| ID := 0; tag := "" |};
     m_loadedTextures := 0;
     m_objectMaterials := [] |}.

(** Array subscripts: an index outside the array is undefined. *)
Definition at_index {A} (a : list A) (index : Z) : outcome A :=
  if (index <? 0)%Z then Undefined (ArrayIndexOutOfBounds index)
  else match a !! Z.to_nat index with
       | Some v => Returns v
       | None => Undefined (ArrayIndexOutOfBounds index)
       end.

Definition store_index {A} (a : list A) (index : Z) (f : A -> A)
  : outcome (list A) :=
  v ← at_index a index; Returns (<[Z.to_nat index := f v]> a).

Definition set_ID (v : Z) (t : TEXTURE_INFO) : TEXTURE_INFO :=
  {| ID := v; tag := tag t |}.

Definition set_tag (v : string) (t : TEXTURE_INFO) : TEXTURE_INFO :=
  {| ID := ID t; tag := v |}.

Definition set_m_textureIDs (v : list TEXTURE_INFO) (s : SceneManager)
  : SceneManager :=
  {| m_pShaderManager := m_pShaderManager s; m_textureIDs := v;
     m_loadedTextures := m_loadedTextures s;
     m_objectMaterials := m_objectMaterials s |}.

Definition set_m_loadedTextures (v : Z) (s : SceneManager) : SceneManager :=
  {| m_pShaderManager := m_pShaderManager s;
     m_textureIDs := m_textureIDs s;
     m_loadedTextures := v;
     m_objectMaterials := m_objectMaterials s |}.

(** [GLuint] to [int], as [FindTextureID] converts the name it returns. *)
Definition int_of_GLuint (u : Z) : Z :=
  ((u + 2 ^ 31) mod 2 ^ 32 - 2 ^ 31)%Z.

(** [SceneManager::CreateGLTexture].  [stbi_load] is the answer of the
    decoder for [filename] ([None] for a null pointer) and [textureID]
    the name [glGenTextures] hands out when it is called. *)
Definition CreateGLTexture (stbi_load : string -> option Image)
    (textureID : Z) (filename : string) (tag : string) (s : SceneManager)
  : outcome (bool * SceneManager * list effect) :=
  let out := [stbi_set_flip_vertically_on_load true] in
  match stbi_load filename with
  | Some image =>
      let out := out ++
        [Stdout ("Successfully loaded image:" +:+ filename +:+
                 ", width:" +:+ pretty (width image) +:+
                 ", height:" +:+ pretty (height image) +:+
                 ", channels:" +:+ pretty (colorChannels image));
         glGenTextures textureID;
         glBindTexture GL_TEXTURE_2D textureID;
         glTexParameteri GL_TEXTURE_2D GL_TEXTURE_WRAP_S GL_REPEAT;
         glTexParameteri GL_TEXTURE_2D GL_TEXTURE_WRAP_T GL_REPEAT;
         glTexParameteri GL_TEXTURE_2D GL_TEXTURE_MIN_FILTER GL_LINEAR;
         glTexParameteri GL_TEXTURE_2D GL_TEXTURE_MAG_FILTER GL_LINEAR] in
      let upload :=
        if (colorChannels image =? 3)%Z then
          Some [glTexImage2D GL_TEXTURE_2D 0 GL_RGB8 (width image)
                  (height image) 0 GL_RGB GL_UNSIGNED_BYTE]
        else if (colorChannels image =? 4)%Z then
          Some [glTexImage2D GL_TEXTURE_2D 0 GL_RGBA8 (width image)
                  (height image) 0 GL_RGBA GL_UNSIGNED_BYTE]
        else None in
      match upload with
      | None =>
          Returns (false, s,
                   out ++ [Stdout ("Not implemented to handle image with "
                                   +:+ pretty (colorChannels image)
                                   +:+ " channels")])
      | Some teximage =>
          let out := out ++ teximage ++
            [glGenerateMipmap GL_TEXTURE_2D;
             stbi_image_free;
             glBindTexture GL_TEXTURE_2D 0] in
          a ← store_index (m_textureIDs s) (m_loadedTextures s)
                (set_ID textureID);
          let s := set_m_textureIDs a s in
          a ← store_index (m_textureIDs s) (m_loadedTextures s)
                (set_tag tag);
          let s := set_m_textureIDs a s in
          let s := set_m_loadedTextures (m_loadedTextures s + 1)%Z s in
          Returns (true, s, out)
      end
  | None =>
      Returns (false, s, out ++ [Stdout ("Could not load image:" +:+ filename)])
  end.

(** [SceneManager::BindGLTextures]: the loop, counted by the iterations
    to do, [m_loadedTextures - i]. *)
Fixpoint BindGLTextures_loop (todo : nat) (i : Z) (s : SceneManager)
  : outcome (list effect) :=
  match todo with
  | O => Returns []
  | S todo =>
      t ← at_index (m_textureIDs s) i;
      rest ← BindGLTextures_loop todo (i + 1)%Z s;
      Returns (glActiveTexture (GL_TEXTURE0_plus i)
               :: glBindTexture GL_TEXTURE_2D (ID t) :: rest)
  end.

Definition BindGLTextures (s : SceneManager) : outcome (list effect) :=
  BindGLTextures_loop (Z.to_nat (m_loadedTextures s)) 0 s.

(** [SceneManager::FindTextureID]: the [while] loop, counted by the
    iterations to do, [m_loadedTextures - index]; it stops at the first
    match ([bFound]) or when none is left. *)
Fixpoint FindTextureID_loop (todo : nat) (index : Z) (textureID : Z)
    (tag0 : string) (s : SceneManager) : outcome Z :=
  match todo with
  | O => Returns textureID
  | S todo =>
      t ← at_index (m_textureIDs s) index;
      if String.eqb (tag t) tag0
      then Returns (int_of_GLuint (ID t))
      else FindTextureID_loop todo (index + 1)%Z textureID tag0 s
  end.

Definition FindTextureID (tag : string) (s : SceneManager) : outcome Z :=
  FindTextureID_loop (Z.to_nat (m_loadedTextures s)) 0 (-1) tag s.

(** [SceneManager::FindTextureSlot] *)
Fixpoint FindTextureSlot_loop (todo : nat) (index : Z) (textureSlot : Z)
    (tag0 : string) (s : SceneManager) : outcome Z :=
  match todo with
  | O => Returns textureSlot
  | S todo =>
      t ← at_index (m_textureIDs s) index;
      if String.eqb (tag t) tag0
      then Returns index
      else FindTextureSlot_loop todo (index + 1)%Z textureSlot tag0 s
  end.

Definition FindTextureSlot (tag : string) (s : SceneManager) : outcome Z :=
  FindTextureSlot_loop (Z.to_nat (m_loadedTextures s)) 0 (-1) tag s.

(** [SceneManager::FindMaterial]: returns [bFound] and the caller's
    [material], overwritten only on a match (its [tag] member is not
    copied).  The loop walks the vector from the front. *)
Fixpoint FindMaterial_loop (rest : list OBJECT_MATERIAL) (tag0 : string)
    (material : OBJECT_MATERIAL) : bool * OBJECT_MATERIAL :=
  match rest with
  | [] => (false, material)
  | m :: rest =>
      if String.eqb (mtag m) tag0
      then (true,
            {| ambientColor := ambientColor m;
               ambientStrength := ambientStrength m;
               diffuseColor := diffuseColor m;
               specularColor := specularColor m;
               shininess := shininess m;
               mtag := mtag material |})
      else FindMaterial_loop rest tag0 material
  end.

Definition FindMaterial (tag : string) (material : OBJECT_MATERIAL)
    (s : SceneManager) : bool * OBJECT_MATERIAL :=
  if (length (m_objectMaterials s) =? 0)%nat then (false, material)
  else FindMaterial_loop (m_objectMaterials s) tag material.

(** [SceneManager::SetShaderTexture] *)
Definition SetShaderTexture (textureTag : string) (s : SceneManager)
  : outcome (list effect) :=
  if m_pShaderManager s then
    let out := [setIntValue g_UseTextureName 1] in
    textureID ← FindTextureSlot textureTag s;
    Returns (out ++ [setSampler2DValue g_TextureValueName textureID])
  else Returns [].

(** [SceneManager::SetShaderMaterial]; [material] is the uninitialised
    local the lookup fills. *)
Definition SetShaderMaterial (materialTag : string)
    (material : OBJECT_MATERIAL) (s : SceneManager)
  : outcome (list effect) :=
  if (0 <? length (m_objectMaterials s))%nat then
    let '(bReturn, material) := FindMaterial materialTag material s in
    if bReturn then
      if m_pShaderManager s then
        Returns
          [setVec3Value "material.ambientColor" (ambientColor material);
           setFloatValue "material.ambientStrength"
             (ambientStrength material);
           setVec3Value "material.diffuseColor" (diffuseColor material);
           setVec3Value "material.specularColor" (specularColor material);
           setFloatValue "material.shininess" (shininess material)]
      else Undefined NullPointerDereference
    else Returns []
  else Returns [].

(** The texture loads of [SceneManager::PrepareScene], in order. *)
Definition scene_textures : list (string * string) :=
  [("textures/blueberry_v1.1.jpg", "blueberry");
   ("textures/whipped_cream2.jpg", "whipped_cream");
   ("textures/strawberry1.jpg", "strawberry");
   ("textures/carrot_cake.jpg", "carrot_cake");
   ("textures/frosting1.jpg", "frosting");
   ("textures/plate.jpg", "plate");
   ("textures/tablecloth.jpg", "tablecloth");
   ("textures/caramel.jpg", "caramel")].

(** A sequence of [CreateGLTexture] calls, as [PrepareScene] makes them:
    each result flag is dropped.  [names] are the names [glGenTextures]
    hands out, call by call. *)
Fixpoint load_all (stbi_load : string -> option Image)
    (loads : list (Z * (string * string))) (s : SceneManager)
  : outcome SceneManager :=
  match loads with
  | [] => Returns s
  | (textureID, (filename, tag)) :: loads =>
      r ← CreateGLTexture stbi_load textureID filename tag s;
      load_all stbi_load loads (snd (fst r))
  end.

(** The entries of the table: the first [m_loadedTextures] slots. *)
Definition registered (s : SceneManager) : list TEXTURE_INFO :=
  take (Z.to_nat (m_loadedTextures s)) (m_textureIDs s).

(** The count never exceeds the array. *)
Definition well_formed (s : SceneManager) : Prop :=
  (0 <= m_loadedTextures s <= Z.of_nat (length (m_textureIDs s)))%Z.

(** The two ways [CreateGLTexture] fails: the decoder returns no image,
    or an image whose channel count is neither 3 nor 4. *)
Definition load_fails (stbi_load : string -> option Image)
    (filename : string) : Prop :=
  match stbi_load filename with
  | None => True
  | Some image => colorChannels image <> 3%Z /\ colorChannels image <> 4%Z
  end.

Definition load_succeeds (stbi_load : string -> option Image)
    (filename : string) : Prop :=
  match stbi_load filename with
  | None => False
  | Some image => colorChannels image = 3%Z \/ colorChannels image = 4%Z
  end.

(** What a load that decodes a supported image does to the manager: the
    slot at index [m_loadedTextures] receives the name and the tag, and
    the count grows by one. *)
Definition register (textureID : Z) (tag : string) (s : SceneManager)
  : SceneManager :=
  set_m_loadedTextures (m_loadedTextures s + 1)%Z
    (set_m_textureIDs
       (<[Z.to_nat (m_loadedTextures s) :=
            {| ID := textureID; tag := tag |}]> (m_textureIDs s)) s).

(** A decoder to run the registry on: one RGB file, one grey-scale
    file, nothing else. *)
Definition example_decoder (filename : string) : option Image :=
  if String.eqb filename "textures/plate.jpg"
  then Some {| width := 1024; height := 1024; colorChannels := 3 |}
  else if String.eqb filename "textures/grey.png"
  then Some {| width := 64; height := 64; colorChannels := 1 |}
  else None.

(** ** SceneManager.cpp: the scene *)

(** The meshes of the [ShapeMeshes] helper the scene loads and draws. *)
Inductive Mesh := PlaneMesh | PrismMesh | BoxMesh | CylinderMesh | SphereMesh.

(** A model matrix, named by the GLM calls that build it. *)
Inductive transform :=
| glm_scale (v : vec3)
| glm_rotate (angle : Q) (axis : vec3)
| glm_translate (v : vec3)
| glm_mul (a b : transform).

(** What the scene code does to the outside world: the calls above, and
    the ones only the scene code makes. *)
Inductive scene_effect :=
| Call (e : effect)
| glDeleteTextures (n : Z) (texture : Z)
| setModelValue (name : string) (m : transform)  (* ShaderManager::setMat4Value *)
| setVec2Value (name : string) (u v : Q)         (* ShaderManager::setVec2Value *)
| setVec4Value (name : string) (r g b a : Q)     (* ShaderManager::setVec4Value *)
| setBoolValue (name : string) (value : bool)    (* ShaderManager::setBoolValue *)
| LoadMesh (m : Mesh)                            (* m_basicMeshes->Load...Mesh *)
| DrawMesh (m : Mesh).                           (* m_basicMeshes->Draw...Mesh *)

Definition g_ModelName : string := "model".
Definition g_ColorValueName : string := "objectColor".
Definition g_UseLightingName : string := "bUseLighting".

(** One call after another: the effects of both, or the first undefined
    behaviour met. *)
Definition and_then (a b : outcome (list scene_effect))
  : outcome (list scene_effect) :=
  x ← a; y ← b; Returns (x ++ y).

Definition lift (a : outcome (list effect)) : outcome (list scene_effect) :=
  x ← a; Returns (map Call x).

Notation "a ;; b" := (and_then a b) (at level 100, right associativity).

Definition set_m_objectMaterials (v : list OBJECT_MATERIAL)
    (s : SceneManager) : SceneManager :=
  {| m_pShaderManager := m_pShaderManager s;
     m_textureIDs := m_textureIDs s;
     m_loadedTextures := m_loadedTextures s;
     m_objectMaterials := v |}.

(** [m_objectMaterials.push_back] *)
Definition push_back (m : OBJECT_MATERIAL) (s : SceneManager)
  : SceneManager :=
  set_m_objectMaterials (m_objectMaterials s ++ [m]) s.

(** [SceneManager::DestroyGLTextures]: the loop, counted by the iterations
    to do. *)
Fixpoint DestroyGLTextures_loop (todo : nat) (i : Z) (s : SceneManager)
  : outcome (list scene_effect) :=
  match todo with
  | O => Returns []
  | S todo =>
      t ← at_index (m_textureIDs s) i;
      rest ← DestroyGLTextures_loop todo (i + 1)%Z s;
      Returns (glDeleteTextures 1 (ID t) :: rest)
  end.

Definition DestroyGLTextures (s : SceneManager)
  : outcome (list scene_effect) :=
  DestroyGLTextures_loop (Z.to_nat (m_loadedTextures s)) 0 s.

(** [SceneManager::SetTransformations] *)
Definition SetTransformations (scaleXYZ : vec3)
    (XrotationDegrees YrotationDegrees ZrotationDegrees : Q)
    (positionXYZ : vec3) (s : SceneManager) : outcome (list scene_effect) :=
  let scale := glm_scale scaleXYZ in
  let rotationX :=
    glm_rotate (radians XrotationDegrees) (Vec3.mk 1.0 0.0 0.0) in
  let rotationY :=
    glm_rotate (radians YrotationDegrees) (Vec3.mk 0.0 1.0 0.0) in
  let rotationZ :=
    glm_rotate (radians ZrotationDegrees) (Vec3.mk 0.0 0.0 1.0) in
  let translation := glm_translate positionXYZ in
  let modelView :=
    glm_mul (glm_mul (glm_mul (glm_mul translation rotationX) rotationY)
                     rotationZ) scale in
  if m_pShaderManager s
  then Returns [setModelValue g_ModelName modelView]
  else Returns [].

(** [SceneManager::SetShaderColor] *)
Definition SetShaderColor
    (redColorValue greenColorValue blueColorValue alphaValue : Q)
    (s : SceneManager) : outcome (list scene_effect) :=
  if m_pShaderManager s
  then Returns [Call (setIntValue g_UseTextureName 0);
                setVec4Value g_ColorValueName redColorValue greenColorValue
                             blueColorValue alphaValue]
  else Returns [].

(** [SceneManager::SetTextureUVScale] *)
Definition SetTextureUVScale (u v : Q) (s : SceneManager)
  : outcome (list scene_effect) :=
  if m_pShaderManager s
  then Returns [setVec2Value "UVscale" u v]
  else Returns [].

(** [SceneManager::DefineObjectMaterials] *)
Definition DefineObjectMaterials (s : SceneManager) : SceneManager :=
  (* CAKE MATERIAL - Slightly glossy *)
  let cakeMaterial :=
    {| ambientColor := Vec3.mk 0.1 0.05 0.02;
       ambientStrength := 0.2;
       diffuseColor := Vec3.mk 0.8 0.6 0.4;
       specularColor := Vec3.mk 0.2 0.2 0.2;
       shininess := 4.0;
       mtag := "cake" |} in
  let s := push_back cakeMaterial s in
  (* FROSTING MATERIAL - Smooth, more reflective than cake *)
  let frostingMaterial :=
    {| ambientColor := Vec3.mk 0.15 0.15 0.12;
       ambientStrength := 0.3;
       diffuseColor := Vec3.mk 0.9 0.9 0.8;
       specularColor := Vec3.mk 0.4 0.4 0.4;
       shininess := 16.0;
       mtag := "frosting" |} in
  let s := push_back frostingMaterial s in
  (* BERRY MATERIAL - For blueberries and strawberries *)
  let berryMaterial :=
    {| ambientColor := Vec3.mk 0.08 0.02 0.08;
       ambientStrength := 0.25;
       diffuseColor := Vec3.mk 0.6 0.3 0.7;
       specularColor := Vec3.mk 0.5 0.5 0.5;
       shininess := 32.0;
       mtag := "berry" |} in
  let s := push_back berryMaterial s in
  (* CREAM MATERIAL - For whipped cream (very smooth and reflective) *)
  let creamMaterial :=
    {| ambientColor := Vec3.mk 0.2 0.2 0.18;
       ambientStrength := 0.3;
       diffuseColor := Vec3.mk 0.95 0.95 0.9;
       specularColor := Vec3.mk 0.6 0.6 0.6;
       shininess := 64.0;
       mtag := "cream" |} in
  let s := push_back creamMaterial s in
  (* PLATE MATERIAL - Ceramic with moderate reflectivity *)
  let plateMaterial :=
    {| ambientColor := Vec3.mk 0.1 0.1 0.1;
       ambientStrength := 0.2;
       diffuseColor := Vec3.mk 0.8 0.8 0.8;
       specularColor := Vec3.mk 0.3 0.3 0.3;
       shininess := 24.0;
       mtag := "plate" |} in
  let s := push_back plateMaterial s in
  (* TABLE MATERIAL - Fabric tablecloth (low reflectivity) *)
  let tableMaterial :=
    {| ambientColor := Vec3.mk 0.05 0.05 0.05;
       ambientStrength := 0.15;
       diffuseColor := Vec3.mk 0.4 0.4 0.4;
       specularColor := Vec3.mk 0.1 0.1 0.1;
       shininess := 2.0;
       mtag := "table" |} in
  let s := push_back tableMaterial s in
  (* LEAF MATERIAL - For strawberry leaves (matte green) *)
  let leafMaterial :=
    {| ambientColor := Vec3.mk 0.02 0.08 0.02;
       ambientStrength := 0.2;
       diffuseColor := Vec3.mk 0.2 0.6 0.2;
       specularColor := Vec3.mk 0.1 0.2 0.1;
       shininess := 4.0;
       mtag := "leaf" |} in
  let s := push_back leafMaterial s in
  (* CARAMEL MATERIAL - Glossy, golden *)
  let caramelMaterial :=
    {| ambientColor := Vec3.mk 0.15 0.1 0.05;
       ambientStrength := 0.3;
       diffuseColor := Vec3.mk 0.9 0.6 0.2;
       specularColor := Vec3.mk 0.8 0.7 0.6;
       shininess := 64.0;
       mtag := "caramel" |} in
  let s := push_back caramelMaterial s in
  s.

(** [SceneManager::SetupSceneLights]; the shader manager is used without
    a null check.  The loop that switches the remaining point lights off
    is counted by the iterations to do, [5 - i]. *)
Fixpoint SetupSceneLights_loop (todo : nat) (i : Z) : list scene_effect :=
  match todo with
  | O => []
  | S todo =>
      setBoolValue ("pointLights[" +:+ pretty i +:+ "].bActive") false
      :: SetupSceneLights_loop todo (i + 1)%Z
  end.

Definition SetupSceneLights (s : SceneManager)
  : outcome (list scene_effect) :=
  if m_pShaderManager s then
    Returns
      ([(* Enable lighting *)
        setBoolValue g_UseLightingName true;
        (* MAIN LIGHT - Warm kitchen lighting from above-right *)
        Call (setVec3Value "pointLights[0].position" (Vec3.mk 6.0 12.0 4.0));
        Call (setVec3Value "pointLights[0].ambient" (Vec3.mk 0.15 0.12 0.1));
        Call (setVec3Value "pointLights[0].diffuse" (Vec3.mk 0.9 0.8 0.7));
        Call (setVec3Value "pointLights[0].specular" (Vec3.mk 0.6 0.6 0.5));
        setBoolValue "pointLights[0].bActive" true;
        (* ACCENT LIGHT - Soft blue light from the left *)
        Call (setVec3Value "pointLights[1].position"
                (Vec3.mk (-8.0) 8.0 2.0));
        Call (setVec3Value "pointLights[1].ambient" (Vec3.mk 0.05 0.08 0.12));
        Call (setVec3Value "pointLights[1].diffuse" (Vec3.mk 0.3 0.4 0.6));
        Call (setVec3Value "pointLights[1].specular" (Vec3.mk 0.2 0.3 0.4));
        setBoolValue "pointLights[1].bActive" true;
        (* FILL LIGHT - fill light from front-right *)
        Call (setVec3Value "pointLights[2].position" (Vec3.mk 4.0 6.0 8.0));
        Call (setVec3Value "pointLights[2].ambient" (Vec3.mk 0.08 0.08 0.08));
        Call (setVec3Value "pointLights[2].diffuse" (Vec3.mk 0.4 0.4 0.4));
        Call (setVec3Value "pointLights[2].specular" (Vec3.mk 0.2 0.2 0.2));
        setBoolValue "pointLights[2].bActive" true]
       (* Disable remaining lights *)
       ++ SetupSceneLights_loop (Z.to_nat (5 - 3)) 3
       (* Disable directional and spot lights *)
       ++ [setBoolValue "directionalLight.bActive" false;
           setBoolValue "spotLight.bActive" false])
  else Undefined NullPointerDereference.

(** [SceneManager::PrepareScene].  [glGenTextures k] is the name OpenGL
    hands out in the [k]-th call of [CreateGLTexture]; the result flag of
    each load is overwritten and never read. *)
Definition PrepareScene (stbi_load : string -> option Image)
    (glGenTextures : nat -> Z) (s : SceneManager)
  : outcome (SceneManager * list scene_effect) :=
  (* Load blueberry texture *)
  r1 ← CreateGLTexture stbi_load (glGenTextures 0%nat)
         "textures/blueberry_v1.1.jpg" "blueberry" s;
  let s := snd (fst r1) in
  (* Load whipped cream texture *)
  r2 ← CreateGLTexture stbi_load (glGenTextures 1%nat)
         "textures/whipped_cream2.jpg" "whipped_cream" s;
  let s := snd (fst r2) in
  (* Load strawberry texture *)
  r3 ← CreateGLTexture stbi_load (glGenTextures 2%nat)
         "textures/strawberry1.jpg" "strawberry" s;
  let s := snd (fst r3) in
  (* Load carrot cake texture *)
  r4 ← CreateGLTexture stbi_load (glGenTextures 3%nat)
         "textures/carrot_cake.jpg" "carrot_cake" s;
  let s := snd (fst r4) in
  (* Load frosting layer texture *)
  r5 ← CreateGLTexture stbi_load (glGenTextures 4%nat)
         "textures/frosting1.jpg" "frosting" s;
  let s := snd (fst r5) in
  (* Load plate texture *)
  r6 ← CreateGLTexture stbi_load (glGenTextures 5%nat)
         "textures/plate.jpg" "plate" s;
  let s := snd (fst r6) in
  (* Load tablecloth texture *)
  r7 ← CreateGLTexture stbi_load (glGenTextures 6%nat)
         "textures/tablecloth.jpg" "tablecloth" s;
  let s := snd (fst r7) in
  (* Load caramel texture *)
  r8 ← CreateGLTexture stbi_load (glGenTextures 7%nat)
         "textures/caramel.jpg" "caramel" s;
  let s := snd (fst r8) in
  bound ← BindGLTextures s;
  let s := DefineObjectMaterials s in
  lights ← SetupSceneLights s;
  Returns
    (s,
     map Call (snd r1 ++ snd r2 ++ snd r3 ++ snd r4 ++ snd r5 ++ snd r6
               ++ snd r7 ++ snd r8 ++ bound)
     ++ lights
     ++ [LoadMesh PlaneMesh; LoadMesh PrismMesh; LoadMesh BoxMesh;
         LoadMesh CylinderMesh; LoadMesh SphereMesh]).

(** The loads of [PrepareScene] as a list, with the names they are
    given. *)
Definition scene_loads (glGenTextures : nat -> Z)
  : list (Z * (string * string)) :=
  imap (fun k load => (glGenTextures k, load)) scene_textures.

(** [SceneManager::RenderScene]; [material] is the uninitialised local of
    [SetShaderMaterial]. *)
Definition RenderScene (material : OBJECT_MATERIAL) (s : SceneManager)
  : outcome (list scene_effect) :=
  (* Declare variables for transformations *)
  let XrotationDegrees := 0.0 in
  let YrotationDegrees := 0.0 in
  let ZrotationDegrees := 0.0 in
  (* RENDER TABLE SURFACE (Ground Plane) *)
  let scaleXYZ := Vec3.mk 20.0 1.0 15.0 in
  let XrotationDegrees := 0.0 in
  let YrotationDegrees := 0.0 in
  let ZrotationDegrees := 0.0 in
  let positionXYZ := Vec3.mk 0.0 0.0 0.0 in
  SetTransformations scaleXYZ XrotationDegrees
    YrotationDegrees ZrotationDegrees positionXYZ s ;;
  lift (SetShaderTexture "tablecloth" s) ;;
  lift (SetShaderMaterial "table" material s) ;;
  SetTextureUVScale 3.0 3.0 s ;;
  Returns [DrawMesh PlaneMesh] ;;
  (* RENDER DESSERT PLATE *)
  let scaleXYZ := Vec3.mk 4.2 0.1 4.0 in
  let XrotationDegrees := 0.0 in
  let YrotationDegrees := 0.0 in
  let ZrotationDegrees := 0.0 in
  let positionXYZ := Vec3.mk 0.0 0.1 0.0 in
  SetTransformations scaleXYZ XrotationDegrees
    YrotationDegrees ZrotationDegrees positionXYZ s ;;
  lift (SetShaderTexture "plate" s) ;;
  lift (SetShaderMaterial "plate" material s) ;;
  SetTextureUVScale 1.0 1.0 s ;;
  Returns [DrawMesh CylinderMesh] ;;
  (* CAKE BASE LAYER *)
  let scaleXYZ := Vec3.mk 1.5 0.8 4.0 in
  let XrotationDegrees := 0.0 in
  let YrotationDegrees := (-10.0) in
  let ZrotationDegrees := (-90.0) in
  let positionXYZ := Vec3.mk (-2.55) 0.35 0.09 in
  SetTransformations scaleXYZ XrotationDegrees
    YrotationDegrees ZrotationDegrees positionXYZ s ;;
  lift (SetShaderTexture "carrot_cake" s) ;;
  lift (SetShaderMaterial "cake" material s) ;;
  SetTextureUVScale 2.0 2.0 s ;;
  Returns [DrawMesh PrismMesh] ;;
  (* FROSTING LAYER 1 *)
  let scaleXYZ := Vec3.mk 1.45 0.095 4.0 in
  let XrotationDegrees := 0.0 in
  let YrotationDegrees := (-10.0) in
  let ZrotationDegrees := (-90.0) in
  let positionXYZ := Vec3.mk (-2.10) 0.35 0.09 in
  SetTransformations scaleXYZ XrotationDegrees
    YrotationDegrees ZrotationDegrees positionXYZ s ;;
  lift (SetShaderTexture "frosting" s) ;;
  lift (SetShaderMaterial "frosting" material s) ;;
  SetTextureUVScale 1.0 1.0 s ;;
  Returns [DrawMesh PrismMesh] ;;
  (* CAKE MIDDLE LAYER *)
  let scaleXYZ := Vec3.mk 1.5 0.7 4.0 in
  let XrotationDegrees := 0.0 in
  let YrotationDegrees := (-10.0) in
  let ZrotationDegrees := (-90.0) in
  let positionXYZ := Vec3.mk (-1.70) 0.35 0.09 in
  SetTransformations scaleXYZ XrotationDegrees
    YrotationDegrees ZrotationDegrees positionXYZ s ;;
  lift (SetShaderTexture "carrot_cake" s) ;;
  lift (SetShaderMaterial "cake" material s) ;;
  SetTextureUVScale 2.0 2.0 s ;;
  Returns [DrawMesh PrismMesh] ;;
  (* FROSTING LAYER 2 *)
  let scaleXYZ := Vec3.mk 1.45 0.095 4.0 in
  let XrotationDegrees := 0.0 in
  let YrotationDegrees := (-10.0) in
  let ZrotationDegrees := (-90.0) in
  let positionXYZ := Vec3.mk (-1.30) 0.35 0.09 in
  SetTransformations scaleXYZ XrotationDegrees
    YrotationDegrees ZrotationDegrees positionXYZ s ;;
  lift (SetShaderTexture "frosting" s) ;;
  lift (SetShaderMaterial "frosting" material s) ;;
  SetTextureUVScale 1.0 1.0 s ;;
  Returns [DrawMesh PrismMesh] ;;
  (* CAKE TOP LAYER *)
  let scaleXYZ := Vec3.mk 1.5 0.6 4.0 in
  let XrotationDegrees := 0.0 in
  let YrotationDegrees := (-10.0) in
  let ZrotationDegrees := (-90.0) in
  let positionXYZ := Vec3.mk (-0.95) 0.35 0.09 in
  SetTransformations scaleXYZ XrotationDegrees
    YrotationDegrees ZrotationDegrees positionXYZ s ;;
  lift (SetShaderTexture "carrot_cake" s) ;;
  lift (SetShaderMaterial "cake" material s) ;;
  SetTextureUVScale 2.0 2.0 s ;;
  Returns [DrawMesh PrismMesh] ;;
  (* FROSTING LAYER TOP CAP on left side *)
  let scaleXYZ := Vec3.mk 1.45 0.10 4.0 in
  let XrotationDegrees := 0.0 in
  let YrotationDegrees := (-10.0) in
  let ZrotationDegrees := (-90.0) in
  let positionXYZ := Vec3.mk (-3.00) 0.36 0.09 in
  SetTransformations scaleXYZ XrotationDegrees
    YrotationDegrees ZrotationDegrees positionXYZ s ;;
  lift (SetShaderTexture "frosting" s) ;;
  lift (SetShaderMaterial "frosting" material s) ;;
  SetTextureUVScale 1.0 1.0 s ;;
  Returns [DrawMesh PrismMesh] ;;
  (* FROSTING BACK SIDE thin rectangle *)
  let scaleXYZ := Vec3.mk 2.40 1.60 0.4 in
  let XrotationDegrees := 0.0 in
  let YrotationDegrees := (-1.0) in
  let ZrotationDegrees := 0.0 in
  let positionXYZ := Vec3.mk (-1.5) 0.35 (-1.93) in
  SetTransformations scaleXYZ XrotationDegrees
    YrotationDegrees ZrotationDegrees positionXYZ s ;;
  lift (SetShaderTexture "frosting" s) ;;
  lift (SetShaderMaterial "frosting" material s) ;;
  SetTextureUVScale 1.0 1.0 s ;;
  Returns [DrawMesh BoxMesh] ;;
  (* whipped cream *)
  (* BASE WHIPPED CREAM *)
  let scaleXYZ := Vec3.mk 0.8 0.25 0.7 in
  let XrotationDegrees := 0.0 in
  let YrotationDegrees := 0.0 in
  let ZrotationDegrees := 0.0 in
  let positionXYZ := Vec3.mk (-0.85) 0.28 2.8 in
  SetTransformations scaleXYZ XrotationDegrees
    YrotationDegrees ZrotationDegrees positionXYZ s ;;
  lift (SetShaderTexture "whipped_cream" s) ;;
  lift (SetShaderMaterial "cream" material s) ;;
  SetTextureUVScale 3.0 3.0 s ;;
  Returns [DrawMesh SphereMesh] ;;
  (* MIDDLE LAYER *)
  let scaleXYZ := Vec3.mk 0.6 0.3 0.55 in
  let XrotationDegrees := 0.0 in
  let YrotationDegrees := 15.0 in
  let ZrotationDegrees := 0.0 in
  let positionXYZ := Vec3.mk (-1.0) 0.4 2.75 in
  SetTransformations scaleXYZ XrotationDegrees
    YrotationDegrees ZrotationDegrees positionXYZ s ;;
  lift (SetShaderTexture "whipped_cream" s) ;;
  lift (SetShaderMaterial "cream" material s) ;;
  SetTextureUVScale 3.0 3.0 s ;;
  Returns [DrawMesh SphereMesh] ;;
  (* TOP PEAK - small peak *)
  let scaleXYZ := Vec3.mk 0.35 0.4 0.3 in
  let XrotationDegrees := 10.0 in
  let YrotationDegrees := (-20.0) in
  let ZrotationDegrees := 5.0 in
  let positionXYZ := Vec3.mk (-1.0) 0.55 2.7 in
  SetTransformations scaleXYZ XrotationDegrees
    YrotationDegrees ZrotationDegrees positionXYZ s ;;
  lift (SetShaderTexture "whipped_cream" s) ;;
  lift (SetShaderMaterial "cream" material s) ;;
  SetTextureUVScale 3.0 3.0 s ;;
  Returns [DrawMesh SphereMesh] ;;
  (* Strawberry *)
  let scaleXYZ := Vec3.mk 0.5 0.45 0.30 in
  let XrotationDegrees := (-5.0) in
  let YrotationDegrees := (-45.0) in
  let ZrotationDegrees := 0.0 in
  let positionXYZ := Vec3.mk 0.02 0.35 (-0.8) in
  SetTransformations scaleXYZ XrotationDegrees
    YrotationDegrees ZrotationDegrees positionXYZ s ;;
  lift (SetShaderTexture "strawberry" s) ;;
  lift (SetShaderMaterial "berry" material s) ;;
  SetTextureUVScale 2.0 3.3 s ;;
  Returns [DrawMesh SphereMesh] ;;
  (* Blueberry 1 - Top left touching pair (first berry) *)
  let scaleXYZ := Vec3.mk 0.18 0.18 0.18 in
  let XrotationDegrees := 0.0 in
  let YrotationDegrees := 0.0 in
  let ZrotationDegrees := 0.0 in
  let positionXYZ := Vec3.mk (-3.35) 0.35 0.2 in
  SetTransformations scaleXYZ XrotationDegrees
    YrotationDegrees ZrotationDegrees positionXYZ s ;;
  lift (SetShaderTexture "blueberry" s) ;;
  lift (SetShaderMaterial "berry" material s) ;;
  SetTextureUVScale 0.6 0.6 s ;;
  Returns [DrawMesh SphereMesh] ;;
  (* Blueberry 2 - Top left touching pair (second berry, touching the first)
     *)
  let scaleXYZ := Vec3.mk 0.17 0.17 0.17 in
  let positionXYZ := Vec3.mk (-3.35) 0.35 0.7 in
  SetTransformations scaleXYZ XrotationDegrees
    YrotationDegrees ZrotationDegrees positionXYZ s ;;
  lift (SetShaderTexture "blueberry" s) ;;
  lift (SetShaderMaterial "berry" material s) ;;
  SetTextureUVScale 0.8 0.8 s ;;
  Returns [DrawMesh SphereMesh] ;;
  (* Blueberry 3 - In front of cake(left-side) *)
  let scaleXYZ := Vec3.mk 0.2 0.2 0.2 in
  let positionXYZ := Vec3.mk (-2.8) 0.3 2.5 in
  SetTransformations scaleXYZ XrotationDegrees
    YrotationDegrees ZrotationDegrees positionXYZ s ;;
  lift (SetShaderTexture "blueberry" s) ;;
  lift (SetShaderMaterial "berry" material s) ;;
  SetTextureUVScale 0.9 0.9 s ;;
  Returns [DrawMesh SphereMesh] ;;
  (* Blueberry 4 - center plate below number 5 *)
  let scaleXYZ := Vec3.mk 0.18 0.18 0.18 in
  let positionXYZ := Vec3.mk 0.5 0.3 1.0 in
  SetTransformations scaleXYZ XrotationDegrees
    YrotationDegrees ZrotationDegrees positionXYZ s ;;
  lift (SetShaderTexture "blueberry" s) ;;
  lift (SetShaderMaterial "berry" material s) ;;
  SetTextureUVScale 1.0 1.0 s ;;
  Returns [DrawMesh SphereMesh] ;;
  (* Blueberry 5 - center plate above number 4 *)
  let scaleXYZ := Vec3.mk 0.17 0.17 0.17 in
  let positionXYZ := Vec3.mk 0.6 0.3 1.45 in
  SetTransformations scaleXYZ XrotationDegrees
    YrotationDegrees ZrotationDegrees positionXYZ s ;;
  lift (SetShaderTexture "blueberry" s) ;;
  lift (SetShaderMaterial "berry" material s) ;;
  SetTextureUVScale 1.2 1.2 s ;;
  Returns [DrawMesh SphereMesh] ;;
  (* Blueberry 6 - bottom berry in the triangle formation top right *)
  let scaleXYZ := Vec3.mk 0.16 0.16 0.16 in
  let positionXYZ := Vec3.mk 1.8 0.3 (-0.4) in
  SetTransformations scaleXYZ XrotationDegrees
    YrotationDegrees ZrotationDegrees positionXYZ s ;;
  lift (SetShaderTexture "blueberry" s) ;;
  lift (SetShaderMaterial "berry" material s) ;;
  SetTextureUVScale 1.1 1.1 s ;;
  Returns [DrawMesh SphereMesh] ;;
  (* Blueberry 7 - left berry in the triangle formation top right *)
  let scaleXYZ := Vec3.mk 0.19 0.19 0.19 in
  let positionXYZ := Vec3.mk 1.5 0.3 (-1.2) in
  SetTransformations scaleXYZ XrotationDegrees
    YrotationDegrees ZrotationDegrees positionXYZ s ;;
  lift (SetShaderTexture "blueberry" s) ;;
  lift (SetShaderMaterial "berry" material s) ;;
  SetTextureUVScale 1.25 1.25 s ;;
  Returns [DrawMesh SphereMesh] ;;
  (* Blueberry 8 - right berry in the triangle formation top right *)
  let scaleXYZ := Vec3.mk 0.15 0.15 0.15 in
  let positionXYZ := Vec3.mk 2.2 0.3 (-1.1) in
  SetTransformations scaleXYZ XrotationDegrees
    YrotationDegrees ZrotationDegrees positionXYZ s ;;
  lift (SetShaderTexture "blueberry" s) ;;
  lift (SetShaderMaterial "berry" material s) ;;
  SetTextureUVScale 0.3 0.3 s ;;
  Returns [DrawMesh SphereMesh] ;;
  (* Blueberry 9 - right behind whipped cream(barely visible) *)
  let scaleXYZ := Vec3.mk 0.15 0.15 0.15 in
  let positionXYZ := Vec3.mk (-0.5) 0.3 2.0 in
  SetTransformations scaleXYZ XrotationDegrees
    YrotationDegrees ZrotationDegrees positionXYZ s ;;
  lift (SetShaderTexture "blueberry" s) ;;
  lift (SetShaderMaterial "berry" material s) ;;
  SetTextureUVScale 0.3 0.3 s ;;
  Returns [DrawMesh SphereMesh] ;;
  (* Caramel Drizzle lines *)
  (* Drizzle line 1 *)
  let scaleXYZ := Vec3.mk 5.6 0.065 0.085 in
  let XrotationDegrees := 0.0 in
  let YrotationDegrees := 0.0 in
  let ZrotationDegrees := 0.8 in
  let positionXYZ := Vec3.mk 0.1 0.18 1.4 in
  SetTransformations scaleXYZ XrotationDegrees
    YrotationDegrees ZrotationDegrees positionXYZ s ;;
  lift (SetShaderTexture "caramel" s) ;;
  lift (SetShaderMaterial "caramel" material s) ;;
  SetTextureUVScale 1.0 7.8 s ;;
  Returns [DrawMesh BoxMesh] ;;
  (* End caps for line 1 *)
  let scaleXYZ := Vec3.mk 0.120 0.100 0.120 in
  let positionXYZ := Vec3.mk (-2.7) 0.21 1.37 in
  SetTransformations scaleXYZ 0.0 0.0 0.0 positionXYZ s ;;
  lift (SetShaderTexture "caramel" s) ;;
  lift (SetShaderMaterial "caramel" material s) ;;
  Returns [DrawMesh SphereMesh] ;;
  let scaleXYZ := Vec3.mk 0.120 0.100 0.120 in
  let positionXYZ := Vec3.mk 2.9 0.21 1.43 in
  SetTransformations scaleXYZ 0.0 0.0 0.0 positionXYZ s ;;
  lift (SetShaderTexture "caramel" s) ;;
  lift (SetShaderMaterial "caramel" material s) ;;
  Returns [DrawMesh SphereMesh] ;;
  (* Drizzle line 2 *)
  let scaleXYZ := Vec3.mk 5.4 0.065 0.085 in
  let ZrotationDegrees := (-0.6) in
  let positionXYZ := Vec3.mk 0.2 0.18 0.9 in
  SetTransformations scaleXYZ XrotationDegrees
    YrotationDegrees ZrotationDegrees positionXYZ s ;;
  lift (SetShaderTexture "caramel" s) ;;
  lift (SetShaderMaterial "caramel" material s) ;;
  SetTextureUVScale 1.0 7.6 s ;;
  Returns [DrawMesh BoxMesh] ;;
  (* End caps for line 2 *)
  let scaleXYZ := Vec3.mk 0.115 0.100 0.115 in
  let positionXYZ := Vec3.mk (-2.5) 0.21 0.92 in
  SetTransformations scaleXYZ 0.0 0.0 0.0 positionXYZ s ;;
  lift (SetShaderTexture "caramel" s) ;;
  lift (SetShaderMaterial "caramel" material s) ;;
  Returns [DrawMesh SphereMesh] ;;
  let scaleXYZ := Vec3.mk 0.115 0.100 0.115 in
  let positionXYZ := Vec3.mk 2.9 0.21 0.88 in
  SetTransformations scaleXYZ 0.0 0.0 0.0 positionXYZ s ;;
  lift (SetShaderTexture "caramel" s) ;;
  lift (SetShaderMaterial "caramel" material s) ;;
  Returns [DrawMesh SphereMesh] ;;
  (* Drizzle line 3 *)
  let scaleXYZ := Vec3.mk 5.2 0.065 0.085 in
  let ZrotationDegrees := 0.4 in
  let positionXYZ := Vec3.mk (-0.1) 0.18 0.4 in
  SetTransformations scaleXYZ XrotationDegrees
    YrotationDegrees ZrotationDegrees positionXYZ s ;;
  lift (SetShaderTexture "caramel" s) ;;
  lift (SetShaderMaterial "caramel" material s) ;;
  SetTextureUVScale 1.0 7.4 s ;;
  Returns [DrawMesh BoxMesh] ;;
  (* End caps for line 3 *)
  let scaleXYZ := Vec3.mk 0.112 0.100 0.112 in
  let positionXYZ := Vec3.mk (-2.7) 0.21 0.38 in
  SetTransformations scaleXYZ 0.0 0.0 0.0 positionXYZ s ;;
  lift (SetShaderTexture "caramel" s) ;;
  lift (SetShaderMaterial "caramel" material s) ;;
  Returns [DrawMesh SphereMesh] ;;
  let scaleXYZ := Vec3.mk 0.112 0.100 0.112 in
  let positionXYZ := Vec3.mk 2.5 0.21 0.42 in
  SetTransformations scaleXYZ 0.0 0.0 0.0 positionXYZ s ;;
  lift (SetShaderTexture "caramel" s) ;;
  lift (SetShaderMaterial "caramel" material s) ;;
  Returns [DrawMesh SphereMesh] ;;
  (* Drizzle line 4 *)
  let scaleXYZ := Vec3.mk 5.0 0.065 0.085 in
  let ZrotationDegrees := (-0.3) in
  let positionXYZ := Vec3.mk 0.3 0.18 (-0.1) in
  SetTransformations scaleXYZ XrotationDegrees
    YrotationDegrees ZrotationDegrees positionXYZ s ;;
  lift (SetShaderTexture "caramel" s) ;;
  lift (SetShaderMaterial "caramel" material s) ;;
  SetTextureUVScale 1.0 7.0 s ;;
  Returns [DrawMesh BoxMesh] ;;
  (* End caps for line 4 *)
  let scaleXYZ := Vec3.mk 0.110 0.100 0.110 in
  let positionXYZ := Vec3.mk (-2.2) 0.21 (-0.08) in
  SetTransformations scaleXYZ 0.0 0.0 0.0 positionXYZ s ;;
  lift (SetShaderTexture "caramel" s) ;;
  lift (SetShaderMaterial "caramel" material s) ;;
  Returns [DrawMesh SphereMesh] ;;
  let scaleXYZ := Vec3.mk 0.110 0.100 0.110 in
  let positionXYZ := Vec3.mk 2.8 0.21 (-0.12) in
  SetTransformations scaleXYZ 0.0 0.0 0.0 positionXYZ s ;;
  lift (SetShaderTexture "caramel" s) ;;
  lift (SetShaderMaterial "caramel" material s) ;;
  Returns [DrawMesh SphereMesh] ;;
  (* Drizzle line 5 *)
  let scaleXYZ := Vec3.mk 4.8 0.065 0.085 in
  let ZrotationDegrees := 0.7 in
  let positionXYZ := Vec3.mk (-0.3) 0.18 (-0.6) in
  SetTransformations scaleXYZ XrotationDegrees
    YrotationDegrees ZrotationDegrees positionXYZ s ;;
  lift (SetShaderTexture "caramel" s) ;;
  lift (SetShaderMaterial "caramel" material s) ;;
  SetTextureUVScale 1.0 6.8 s ;;
  Returns [DrawMesh BoxMesh] ;;
  (* End caps for line 5 *)
  let scaleXYZ := Vec3.mk 0.108 0.100 0.108 in
  let positionXYZ := Vec3.mk (-2.7) 0.21 (-0.64) in
  SetTransformations scaleXYZ 0.0 0.0 0.0 positionXYZ s ;;
  lift (SetShaderTexture "caramel" s) ;;
  lift (SetShaderMaterial "caramel" material s) ;;
  Returns [DrawMesh SphereMesh] ;;
  let scaleXYZ := Vec3.mk 0.108 0.100 0.108 in
  let positionXYZ := Vec3.mk 2.1 0.21 (-0.56) in
  SetTransformations scaleXYZ 0.0 0.0 0.0 positionXYZ s ;;
  lift (SetShaderTexture "caramel" s) ;;
  lift (SetShaderMaterial "caramel" material s) ;;
  Returns [DrawMesh SphereMesh] ;;
  (* Drizzle line 6 *)
  let scaleXYZ := Vec3.mk 4.6 0.065 0.085 in
  let ZrotationDegrees := (-0.5) in
  let positionXYZ := Vec3.mk 0.4 0.18 (-1.1) in
  SetTransformations scaleXYZ XrotationDegrees
    YrotationDegrees ZrotationDegrees positionXYZ s ;;
  lift (SetShaderTexture "caramel" s) ;;
  lift (SetShaderMaterial "caramel" material s) ;;
  SetTextureUVScale 1.0 6.6 s ;;
  Returns [DrawMesh BoxMesh] ;;
  (* End caps for line 6 *)
  let scaleXYZ := Vec3.mk 0.106 0.100 0.106 in
  let positionXYZ := Vec3.mk (-1.9) 0.21 (-1.08) in
  SetTransformations scaleXYZ 0.0 0.0 0.0 positionXYZ s ;;
  lift (SetShaderTexture "caramel" s) ;;
  lift (SetShaderMaterial "caramel" material s) ;;
  Returns [DrawMesh SphereMesh] ;;
  let scaleXYZ := Vec3.mk 0.106 0.100 0.106 in
  let positionXYZ := Vec3.mk 2.7 0.21 (-1.12) in
  SetTransformations scaleXYZ 0.0 0.0 0.0 positionXYZ s ;;
  lift (SetShaderTexture "caramel" s) ;;
  lift (SetShaderMaterial "caramel" material s) ;;
  Returns [DrawMesh SphereMesh] ;;
  Returns [].

(** The sampler indices and the material uniforms in a list of effects. *)
Definition samplers (out : list scene_effect) : list Z :=
  flat_map (fun e => match e with
                     | Call (setSampler2DValue _ v) => [v]
                     | _ => []
                     end) out.

Definition shininess_values (out : list scene_effect) : list Q :=
  flat_map (fun e => match e with
                     | Call (setFloatValue "material.shininess" v) => [v]
                     | _ => []
                     end) out.

Definition draws (out : list scene_effect) : list Mesh :=
  flat_map (fun e => match e with DrawMesh m => [m] | _ => [] end) out.

(** The tags [RenderScene] passes to [SetShaderTexture], draw by draw:
    table, plate, three cake layers each followed by its frosting, the top
    coat, three dollops of cream, the strawberry, nine blueberries, and
    the six caramel lines of three parts each. *)
Definition texture_uses : list string :=
  ["tablecloth"; "plate";
   "carrot_cake"; "frosting"; "carrot_cake"; "frosting";
   "carrot_cake"; "frosting"; "frosting";
   "whipped_cream"; "whipped_cream"; "whipped_cream";
   "strawberry"]
  ++ replicate 9 "blueberry" ++ replicate 18 "caramel".

(** The first entry of [entries] tagged [tag0], with its index counted
    from [index]: what the lookups are to find. *)
Fixpoint first_match (tag0 : string) (index : Z) (entries : list TEXTURE_INFO)
  : option (Z * TEXTURE_INFO) :=
  match entries with
  | [] => None
  | t :: entries =>
      if String.eqb (tag t) tag0 then Some (index, t)
      else first_match tag0 (index + 1)%Z entries
  end.

(** The slot and the OpenGL name a tag stands for in a list of entries,
    -1 when no entry has the tag. *)
Definition slot_of (tag0 : string) (entries : list TEXTURE_INFO) : Z :=
  match first_match tag0 0 entries with
  | Some (index, _) => index
  | None => (-1)%Z
  end.

Definition name_of (tag0 : string) (entries : list TEXTURE_INFO) : Z :=
  match first_match tag0 0 entries with
  | Some (_, t) => int_of_GLuint (ID t)
  | None => (-1)%Z
  end.

(** The entries that the loads [loads] register, in order: one for each
    file that decodes to 3 or 4 channels. *)
Definition decodes (stbi_load : string -> option Image) (filename : string)
  : bool :=
  match stbi_load filename with
  | Some image => (colorChannels image =? 3)%Z || (colorChannels image =? 4)%Z
  | None => false
  end.

Fixpoint registrations (stbi_load : string -> option Image)
    (loads : list (Z * (string * string))) : list TEXTURE_INFO :=
  match loads with
  | [] => []
  | (textureID, (filename, tag)) :: loads =>
      if decodes stbi_load filename
      then {| ID := textureID; tag := tag |} :: registrations stbi_load loads
      else registrations stbi_load loads
  end.

End SceneManager.

(** * Properties of the camera/view controller *)

Import ViewManager.

Lemma Qltb_true (a b : Q) : Qltb a b = true <-> a < b.
Proof.
  unfold Qltb. rewrite Qlt_alt.
  destruct (a ?= b); split; intros E; (reflexivity || discriminate E).
Qed.

Lemma Qltb_false (a b : Q) : Qltb a b = false <-> b <= a.
Proof.
  split.
  - intros E. apply Qnot_lt_le. intros L. apply Qltb_true in L. congruence.
  - intros L. destruct (Qltb a b) eqn:E; [|reflexivity].
    apply Qltb_true in E. exfalso. exact (Qle_not_lt _ _ L E).
Qed.

Lemma Qmult_zero_l (a k : Q) : a == 0 -> a * k == 0.
Proof. intros E. rewrite E. ring. Qed.

(** Case analysis on every comparison of the goal, with the fact it decides
    left among the hypotheses. *)
Ltac case_Qltb :=
  unfold Qgtb;
  repeat match goal with
  | |- context [Qltb ?a ?b] =>
      lazymatch a with context [Qltb] => fail | _ => idtac end;
      lazymatch b with context [Qltb] => fail | _ => idtac end;
      let E := fresh "E" in
      destruct (Qltb a b) eqn:E;
      [apply Qltb_true in E | apply Qltb_false in E]; cbn
  end.

Section Camera.
Context `{Libm}.

Lemma pitch_clamped (xpos ypos : Q) (s : ViewState) :
  -89.0 <= pitch (Mouse_Position_Callback xpos ypos s) <= 89.0.
Proof.
  unfold Mouse_Position_Callback.
  destruct (firstMouse s); cbn; case_Qltb; lra.
Qed.

(** Destructs every conditional of the goal. *)
Ltac case_ifs :=
  repeat match goal with
         | |- context [if ?b then _ else _] => destruct b; cbn
         end.

(** What the keyboard pass and the frame leave alone. *)
Lemma keyboard_frame (keys : KeyStates) (s : ViewState) :
  let s' := fst (ProcessKeyboardEvents keys s) in
  pitch s' = pitch s /\ yaw s' = yaw s /\ fov s' = fov s /\
  movementSpeed s' = movementSpeed s /\ cameraFront s' = cameraFront s /\
  cameraUp s' = cameraUp s /\ deltaTime s' = deltaTime s.
Proof.
  assert (M : let m := movement_keys keys s in
              pitch m = pitch s /\ yaw m = yaw s /\ fov m = fov s /\
              movementSpeed m = movementSpeed s /\
              cameraFront m = cameraFront s /\
              cameraUp m = cameraUp s /\ deltaTime m = deltaTime s).
  { unfold movement_keys; cbn. case_ifs; repeat split; reflexivity. }
  unfold ProcessKeyboardEvents, projection_keys. cbv zeta in M |- *.
  revert M. generalize (movement_keys keys s); intros m M.
  case_ifs; exact M.
Qed.

Lemma keyboard_position (keys : KeyStates) (s : ViewState) :
  cameraPos (fst (ProcessKeyboardEvents keys s))
  = cameraPos (movement_keys keys s).
Proof.
  unfold ProcessKeyboardEvents, projection_keys.
  generalize (movement_keys keys s); intros m.
  case_ifs; reflexivity.
Qed.

Lemma frame_frame (t : Q) (keys : KeyStates) (sh : bool) (s : ViewState) :
  let s' := fst (PrepareSceneView t keys sh s) in
  pitch s' = pitch s /\ fov s' = fov s /\
  movementSpeed s' = movementSpeed s.
Proof.
  unfold PrepareSceneView. cbn.
  destruct (ProcessKeyboardEvents keys _) as [s1 out] eqn:E.
  pose proof (keyboard_frame keys
                (set_lastFrame t (set_deltaTime (t - lastFrame s) s))) as K.
  rewrite E in K. cbn in K. destruct K as (P & _ & F & M & _).
  destruct sh; cbn; rewrite P, F, M; repeat split; reflexivity.
Qed.

Lemma cursor_frame (xpos ypos : Q) (s : ViewState) :
  let s' := Mouse_Position_Callback xpos ypos s in
  fov s' = fov s /\ movementSpeed s' = movementSpeed s /\
  cameraPos s' = cameraPos s.
Proof.
  unfold Mouse_Position_Callback; cbn.
  destruct (firstMouse s); cbn; case_Qltb; repeat split; reflexivity.
Qed.

Lemma scroll_frame (xoffset yoffset : Q) (s : ViewState) :
  Mouse_Scroll_Callback xoffset yoffset s =
  set_movementSpeed
    (movementSpeed (Mouse_Scroll_Callback xoffset yoffset s)) s.
Proof.
  unfold Mouse_Scroll_Callback; cbn. case_Qltb; reflexivity.
Qed.

Lemma scroll_clamped (xoffset yoffset : Q) (s : ViewState) :
  movementSpeed (Mouse_Scroll_Callback xoffset yoffset s) ==
  Qmin 10.0 (Qmax 0.1 (movementSpeed s + yoffset * 0.5)).
Proof.
  unfold Mouse_Scroll_Callback; cbn.
  destruct (Q.max_spec 0.1 (movementSpeed s + yoffset * 0.5)) as [[L E]|[L E]];
    destruct (Q.min_spec 10.0 (Qmax 0.1 (movementSpeed s + yoffset * 0.5)))
      as [[L' E']|[L' E']];
    rewrite E', ?E; rewrite E in L'; case_Qltb; lra.
Qed.

(** A property of the state that every handler keeps holds along a run. *)
Lemma run_invariant (P : ViewState -> Prop) :
  (forall e s, P s -> P (fst (handle e s))) ->
  forall es s, P s -> Forall (fun r => P (fst r)) (run es s).
Proof.
  intros step es. induction es as [|e es IH]; intros s Ps; cbn.
  - constructor.
  - constructor; [|apply IH]; apply step, Ps.
Qed.

Lemma final_invariant (P : ViewState -> Prop) :
  (forall e s, P s -> P (fst (handle e s))) ->
  forall es s, P s -> P (final es s).
Proof.
  intros step es. unfold final.
  induction es as [|e es IH]; intros s Ps; cbn; [exact Ps|].
  apply IH, step, Ps.
Qed.

(** C1.  Starting from the initial state (pitch 0), after every event of
    every run the pitch lies in [-89, 89], bounds included.  The run may
    mix cursor moves with scroll events and frames; a run of cursor-moved
    events alone, each handled by [Mouse_Position_Callback], is the
    special case the controller's invariant is stated for. *)
Theorem pitch_invariant (es : list Event) :
  Forall (fun r => -89 <= pitch (fst r) <= 89) (run es initial).
Proof.
  apply (run_invariant (fun s => -89 <= pitch s <= 89)).
  - intros [x0 y0|xo yo|t keys sh] s Ps; cbn [handle fst].
    + generalize (pitch_clamped x0 y0 s). lra.
    + rewrite scroll_frame. exact Ps.
    + destruct (frame_frame t keys sh s) as [-> _]. exact Ps.
  - cbn. lra.
Qed.

(** C5.  A scroll event sets [movementSpeed] to the previous value plus
    [yoffset * 0.5], clamped to [0.1, 10.0], and writes no other variable
    (so the field of view keeps its value); hence along every run that
    starts from the initial state (speed 2.5), and in particular along
    every run of scroll events, the speed stays in [0.1, 10.0]. *)
Theorem scroll_sets_clamped_speed :
  (forall xoffset yoffset s,
      let s' := Mouse_Scroll_Callback xoffset yoffset s in
      movementSpeed s' ==
        Qmin 10.0 (Qmax 0.1 (movementSpeed s + yoffset * 0.5)) /\
      s' = set_movementSpeed (movementSpeed s') s /\
      fov s' = fov s) /\
  movementSpeed initial == 2.5 /\
  (forall es : list Event,
      Forall (fun r => 0.1 <= movementSpeed (fst r) <= 10.0)
             (run es initial)).
Proof.
  split; [|split].
  - intros xo yo s s'. split; [apply scroll_clamped|]. split.
    + apply scroll_frame.
    + subst s'. rewrite scroll_frame. reflexivity.
  - reflexivity.
  - intros es.
    apply (run_invariant (fun s => 0.1 <= movementSpeed s <= 10.0)).
    + intros [x0 y0|xo yo|t keys sh] s Ps; cbn [handle fst].
      * destruct (cursor_frame x0 y0 s) as (_ & -> & _). exact Ps.
      * unfold Mouse_Scroll_Callback; cbn. case_Qltb; lra.
      * destruct (frame_frame t keys sh s) as (_ & _ & ->). exact Ps.
    + cbn. lra.
Qed.

(** ** Cursor samples *)

(** What every cursor event does, first or not. *)
Lemma cursor_fields (xpos ypos : Q) (s : ViewState) :
  let s' := Mouse_Position_Callback xpos ypos s in
  lastX s' = xpos /\ lastY s' = ypos /\ firstMouse s' = false /\
  cameraFront s' = normalize (direction_of (yaw s') (pitch s')).
Proof.
  unfold Mouse_Position_Callback, direction_of.
  destruct (firstMouse s) eqn:F; cbn; case_Qltb; rewrite ?F;
    repeat split; reflexivity.
Qed.

Lemma cursor_first_angles (xpos ypos : Q) (s : ViewState) :
  firstMouse s = true -> -89 <= pitch s <= 89 ->
  let s' := Mouse_Position_Callback xpos ypos s in
  yaw s' == yaw s /\ pitch s' == pitch s.
Proof.
  intros F R. unfold Mouse_Position_Callback. rewrite F; cbn.
  case_Qltb; split; try ring; lra.
Qed.

(** C2.  The first cursor event after creation, at any [(xpos, ypos)],
    records the sample as [lastX]/[lastY], clears [firstMouse] and leaves
    yaw and pitch at their values, but it does not return early: it
    recomputes [cameraFront] from yaw -90 and pitch 0.  With a C library
    whose sine of zero is zero the new front has no vertical component,
    so it differs from the initial front (0, -0.2, -1): the first event
    turns the camera. *)
Theorem first_cursor_event_recomputes_front (xpos ypos : Q)
    (sin_0 : forall a, a == 0 -> sin a == 0) :
  let s' := Mouse_Position_Callback xpos ypos initial in
  lastX s' = xpos /\ lastY s' = ypos /\ firstMouse s' = false /\
  yaw s' == yaw initial /\ pitch s' == pitch initial /\
  cameraFront s' = normalize (direction_of (yaw s') (pitch s')) /\
  Vec3.y (cameraFront s') == 0 /\
  Vec3.y (cameraFront initial) == -0.2 /\
  ~ cameraFront s' ≡v cameraFront initial.
Proof.
  destruct (cursor_fields xpos ypos initial) as (LX & LY & FM & CF).
  destruct (cursor_first_angles xpos ypos initial) as (YA & PE);
    [reflexivity|cbn; lra|].
  cbv zeta in *.
  remember (Mouse_Position_Callback xpos ypos initial) as s' eqn:Es'.
  assert (Y : Vec3.y (cameraFront s') == 0).
  { rewrite CF. cbn. apply Qmult_zero_l, sin_0.
    unfold radians. rewrite PE. cbn. ring. }
  repeat (split; [assumption|]).
  split; [reflexivity|].
  intros (_ & E & _). rewrite Y in E. cbn in E. lra.
Qed.

(** C4.  A cursor event that is not the first one adds the offsets
    [xpos - lastX] and [lastY - ypos], each times the sensitivity 0.1, to
    yaw and pitch, clamps the pitch to [-89, 89], recomputes the front as
    the normalised direction of the new angles and stores the sample as
    [lastX]/[lastY].  With yaw -90, an x-offset of 100 and no y-offset the
    yaw grows by exactly 10, to -80, and the front is that of the new
    angles. *)
Theorem cursor_move_turns_camera (xpos ypos : Q) (s : ViewState)
    (not_first : firstMouse s = false) :
  let s' := Mouse_Position_Callback xpos ypos s in
  let offsetX := xpos - lastX s in
  let offsetY := lastY s - ypos in
  yaw s' = yaw s + offsetX * 0.1 /\
  pitch s' == Qmax (-89) (Qmin 89 (pitch s + offsetY * 0.1)) /\
  cameraFront s' = normalize (direction_of (yaw s') (pitch s')) /\
  lastX s' = xpos /\ lastY s' = ypos /\
  (yaw s == -90 -> offsetX == 100 -> offsetY == 0 ->
   yaw s' == yaw s + 10 /\ yaw s' == -80 /\
   cameraFront s'
     = normalize (direction_of (yaw s + offsetX * 0.1) (pitch s'))).
Proof.
  destruct (cursor_fields xpos ypos s) as (LX & LY & _ & CF).
  cbv zeta in *.
  assert (YA : yaw (Mouse_Position_Callback xpos ypos s)
               = yaw s + (xpos - lastX s) * 0.1).
  { unfold Mouse_Position_Callback. rewrite not_first; cbn.
    case_Qltb; reflexivity. }
  split; [exact YA|]. split.
  { unfold Mouse_Position_Callback. rewrite not_first; cbn.
    set (p := pitch s + (lastY s - ypos) * 0.1).
    destruct (Q.min_spec 89 p) as [[L E]|[L E]];
      destruct (Q.max_spec (-89) (Qmin 89 p)) as [[L' E']|[L' E']];
      rewrite E', ?E; rewrite E in L'; case_Qltb; lra. }
  split; [exact CF|]. split; [exact LX|]. split; [exact LY|].
  intros Y0 X100 Y00. rewrite CF, YA.
  split; [|split]; [rewrite X100; ring|rewrite X100, Y0; ring|reflexivity].
Qed.

(** ** Keyboard movement *)

(** The position after a keyboard pass, key by key. *)
Lemma keyboard_displacement (keys : KeyStates) (s : ViewState) :
  cameraPos (fst (ProcessKeyboardEvents keys s)) ≡v
  (cameraPos s
   + (movementSpeed s * deltaTime s * (down keys KEY_W - down keys KEY_S))
       *~ cameraFront s
   + (movementSpeed s * deltaTime s * (down keys KEY_D - down keys KEY_A))
       *~ normalize (cross (cameraFront s) (cameraUp s))
   + (movementSpeed s * deltaTime s * (down keys KEY_Q - down keys KEY_E))
       *~ cameraUp s)%V.
Proof.
  rewrite keyboard_position.
  unfold movement_keys, down, Vec3.equiv.
  destruct (keys KEY_W), (keys KEY_S), (keys KEY_A), (keys KEY_D),
    (keys KEY_Q), (keys KEY_E); cbn; repeat split; ring.
Qed.

(** X25.  The movement keys, as the code has them (the part of C6 that
    holds in every state).  In one keyboard pass every movement key that
    is down displaces the position by [movementSpeed * deltaTime] along
    its direction: W by the stored front and S against it, D by the
    normalised cross product of front and up and A against it, Q by up
    and E against it; front and up themselves are not touched.  With
    [deltaTime] zero the position keeps its value whatever the keys.
    With [deltaTime] 0.5, speed 2.5 and W alone the position moves by
    1.25 times the stored front vector; the pass does not normalise
    it. *)
Theorem keyboard_moves_camera (keys : KeyStates) (s : ViewState) :
  let s' := fst (ProcessKeyboardEvents keys s) in
  let v := movementSpeed s * deltaTime s in
  let strafe := normalize (cross (cameraFront s) (cameraUp s)) in
  cameraPos s' ≡v
    (cameraPos s
     + (v * (down keys KEY_W - down keys KEY_S)) *~ cameraFront s
     + (v * (down keys KEY_D - down keys KEY_A)) *~ strafe
     + (v * (down keys KEY_Q - down keys KEY_E)) *~ cameraUp s)%V /\
  cameraFront s' = cameraFront s /\ cameraUp s' = cameraUp s /\
  (deltaTime s == 0 -> cameraPos s' ≡v cameraPos s) /\
  (keys KEY_W = true -> keys KEY_S = false -> keys KEY_A = false ->
   keys KEY_D = false -> keys KEY_Q = false -> keys KEY_E = false ->
   deltaTime s == 0.5 -> movementSpeed s == 2.5 ->
   cameraPos s' ≡v (cameraPos s + 1.25 *~ cameraFront s)%V).
Proof.
  cbv zeta.
  assert (G : cameraPos (fst (ProcessKeyboardEvents keys s)) ≡v
    (cameraPos s
     + (movementSpeed s * deltaTime s * (down keys KEY_W - down keys KEY_S))
         *~ cameraFront s
     + (movementSpeed s * deltaTime s * (down keys KEY_D - down keys KEY_A))
         *~ normalize (cross (cameraFront s) (cameraUp s))
     + (movementSpeed s * deltaTime s * (down keys KEY_Q - down keys KEY_E))
         *~ cameraUp s)%V).
  { apply keyboard_displacement. }
  split; [exact G|].
  destruct (keyboard_frame keys s) as (_ & _ & _ & _ & F & U & _).
  split; [exact F|]. split; [exact U|].
  destruct G as (Gx & Gy & Gz). cbn in Gx, Gy, Gz. split.
  - intros D0. unfold Vec3.equiv.
    rewrite Gx, Gy, Gz, D0. repeat split; ring.
  - intros W S A D Q E D5 M5. unfold Vec3.equiv, down in *.
    rewrite W, S, A, D, Q, E in Gx, Gy, Gz.
    rewrite Gx, Gy, Gz, D5, M5. cbn. repeat split; ring.
Qed.

(** ** Projection-mode keys *)

(** One keyboard pass: which lines it prints and what it leaves in the
    flags and in the mode. *)
Lemma projection_keys_pass (keys : KeyStates) (s : ViewState) :
  let r := ProcessKeyboardEvents keys s in
  let p_edge := keys KEY_P && negb (pKeyPressed s) in
  let o_edge := keys KEY_O && negb (oKeyPressed s) in
  printed perspective_line (snd r) = (if p_edge then 1 else 0)%nat /\
  printed orthographic_line (snd r) = (if o_edge then 1 else 0)%nat /\
  pKeyPressed (fst r) = keys KEY_P /\
  oKeyPressed (fst r) = keys KEY_O /\
  orthographicProjection (fst r) =
    (if o_edge then true
     else if p_edge then false else orthographicProjection s).
Proof.
  unfold ProcessKeyboardEvents, projection_keys.
  assert (M : pKeyPressed (movement_keys keys s) = pKeyPressed s /\
              oKeyPressed (movement_keys keys s) = oKeyPressed s /\
              orthographicProjection (movement_keys keys s)
              = orthographicProjection s).
  { unfold movement_keys. case_ifs; repeat split; reflexivity. }
  destruct M as (MP & MO & MM). revert MP MO MM.
  generalize (movement_keys keys s); intros m MP MO MM.
  destruct (keys KEY_ESCAPE), (keys KEY_P), (keys KEY_O),
    (pKeyPressed s) eqn:EP, (oKeyPressed s) eqn:EO;
    cbn; rewrite ?MP, ?MO; cbn; rewrite ?MP, ?MO, ?MM; cbn;
    repeat split; first [reflexivity | assumption].
Qed.

(** Cursor and scroll events print nothing and keep the key flags. *)
Lemma pointer_events_keep_flags (e : Event) (s : ViewState) :
  match e with
  | Frame _ _ _ => True
  | _ => snd (handle e s) = [] /\
         pKeyPressed (fst (handle e s)) = pKeyPressed s /\
         oKeyPressed (fst (handle e s)) = oKeyPressed s
  end.
Proof.
  destruct e as [x0 y0|xo yo|t keys sh]; cbn; [| |exact I].
  - unfold Mouse_Position_Callback.
    destruct (firstMouse s); cbn; case_Qltb; repeat split; reflexivity.
  - rewrite scroll_frame. repeat split; reflexivity.
Qed.

(** A frame prints what its keyboard pass prints. *)
Lemma frame_pass (t : Q) (keys : KeyStates) (sh : bool) (s : ViewState)
    (line : string) :
  let s0 := set_lastFrame t (set_deltaTime (t - lastFrame s) s) in
  printed line (snd (PrepareSceneView t keys sh s))
  = printed line (snd (ProcessKeyboardEvents keys s0)) /\
  fst (PrepareSceneView t keys sh s) = fst (ProcessKeyboardEvents keys s0).
Proof.
  unfold PrepareSceneView. cbn.
  destruct (ProcessKeyboardEvents keys _) as [s1 out].
  destruct sh; cbn; [|split; reflexivity].
  split; [|reflexivity].
  unfold printed. rewrite List.filter_app, length_app. cbn. lia.
Qed.

Lemma printed_app (line : string) (a b : list effect) :
  printed line (a ++ b) = (printed line a + printed line b)%nat.
Proof. unfold printed. rewrite List.filter_app, length_app. reflexivity. Qed.

Lemma effects_cons (e : Event) (es : list Event) (s : ViewState) :
  effects (run (e :: es) s)
  = snd (handle e s) ++ effects (run es (fst (handle e s))).
Proof. reflexivity. Qed.

(** How a run's count for either line splits at its first event. *)
Lemma printed_cons (line : string) (e : Event) (es : list Event)
    (s : ViewState) :
  printed line (effects (run (e :: es) s))
  = (printed line (snd (handle e s))
     + printed line (effects (run es (fst (handle e s)))))%nat.
Proof. rewrite effects_cons. apply printed_app. Qed.

(** While a key is held and its flag is set, a run prints nothing for
    it. *)
Lemma held_prints_nothing (es : list Event) :
  forall s,
    (held KEY_P es -> pKeyPressed s = true ->
     printed perspective_line (effects (run es s)) = 0%nat) /\
    (held KEY_O es -> oKeyPressed s = true ->
     printed orthographic_line (effects (run es s)) = 0%nat).
Proof.
  induction es as [|e es IH]; intros s; [split; reflexivity|].
  rewrite !printed_cons.
  split; intros Hd F; apply Forall_cons in Hd as [He Hd].
  - destruct e as [x0 y0|xo yo|t keys sh].
    + destruct (pointer_events_keep_flags (CursorPos x0 y0) s)
        as (-> & E & _).
      apply IH; [exact Hd|]. rewrite E, F. reflexivity.
    + destruct (pointer_events_keep_flags (Scroll xo yo) s) as (-> & E & _).
      apply IH; [exact Hd|]. rewrite E, F. reflexivity.
    + cbn [handle].
      destruct (frame_pass t keys sh s perspective_line) as (-> & ->).
      destruct (projection_keys_pass keys
                  (set_lastFrame t (set_deltaTime (t - lastFrame s) s)))
        as (-> & _ & K & _).
      cbn [pKeyPressed set_lastFrame set_deltaTime]. rewrite F, He.
      cbn [andb negb Nat.add]. apply IH; [exact Hd|]. rewrite K. exact He.
  - destruct e as [x0 y0|xo yo|t keys sh].
    + destruct (pointer_events_keep_flags (CursorPos x0 y0) s)
        as (-> & _ & E).
      apply IH; [exact Hd|]. rewrite E, F. reflexivity.
    + destruct (pointer_events_keep_flags (Scroll xo yo) s) as (-> & _ & E).
      apply IH; [exact Hd|]. rewrite E, F. reflexivity.
    + cbn [handle].
      destruct (frame_pass t keys sh s orthographic_line) as (-> & ->).
      destruct (projection_keys_pass keys
                  (set_lastFrame t (set_deltaTime (t - lastFrame s) s)))
        as (_ & -> & _ & K & _).
      cbn [oKeyPressed set_lastFrame set_deltaTime]. rewrite F, He.
      cbn [andb negb Nat.add]. apply IH; [exact Hd|]. rewrite K. exact He.
Qed.

Lemma held_prints_once (es : list Event) :
  forall s,
    (held KEY_P es ->
     (printed perspective_line (effects (run es s)) <= 1)%nat) /\
    (held KEY_O es ->
     (printed orthographic_line (effects (run es s)) <= 1)%nat).
Proof.
  induction es as [|e es IH]; intros s; [split; intros _; cbn; lia|].
  rewrite !printed_cons.
  split; intros Hd; pose proof Hd as Hd'; apply Forall_cons in Hd' as [He Ht].
  - destruct e as [x0 y0|xo yo|t keys sh].
    + destruct (pointer_events_keep_flags (CursorPos x0 y0) s) as (-> & _).
      apply IH, Ht.
    + destruct (pointer_events_keep_flags (Scroll xo yo) s) as (-> & _).
      apply IH, Ht.
    + cbn [handle].
      destruct (frame_pass t keys sh s perspective_line) as (-> & ->).
      destruct (projection_keys_pass keys
                  (set_lastFrame t (set_deltaTime (t - lastFrame s) s)))
        as (-> & _ & K & _).
      rewrite (proj1 (held_prints_nothing es _) Ht (eq_trans K He)).
      destruct (_ && _); lia.
  - destruct e as [x0 y0|xo yo|t keys sh].
    + destruct (pointer_events_keep_flags (CursorPos x0 y0) s) as (-> & _).
      apply IH, Ht.
    + destruct (pointer_events_keep_flags (Scroll xo yo) s) as (-> & _).
      apply IH, Ht.
    + cbn [handle].
      destruct (frame_pass t keys sh s orthographic_line) as (-> & ->).
      destruct (projection_keys_pass keys
                  (set_lastFrame t (set_deltaTime (t - lastFrame s) s)))
        as (_ & -> & _ & K & _).
      rewrite (proj2 (held_prints_nothing es _) Ht (eq_trans K He)).
      destruct (_ && _); lia.
Qed.

(** C7.  The projection keys act on the edge.  In one keyboard pass the
    switch to Perspective (mode set, line printed) happens exactly when P
    is down and its flag [pKeyPressed] is clear, that is, when P was up
    at the previous pass; the pass leaves each flag equal to the state of
    its own key, and O is handled the same way with [oKeyPressed].  So
    over any run of events during which P is down at every frame the
    switch to Perspective happens at most once, and not at all if the
    flag was already set when the run began (the later frames of a
    hold); likewise for O and Orthographic. *)
Theorem projection_keys_edge_triggered (keys : KeyStates) (s0 : ViewState)
    (es : list Event) (s : ViewState) :
  (let r := ProcessKeyboardEvents keys s0 in
   let p_edge := keys KEY_P && negb (pKeyPressed s0) in
   let o_edge := keys KEY_O && negb (oKeyPressed s0) in
   printed perspective_line (snd r) = (if p_edge then 1 else 0)%nat /\
   printed orthographic_line (snd r) = (if o_edge then 1 else 0)%nat /\
   pKeyPressed (fst r) = keys KEY_P /\
   oKeyPressed (fst r) = keys KEY_O /\
   orthographicProjection (fst r) =
     (if o_edge then true
      else if p_edge then false else orthographicProjection s0)) /\
  (held KEY_P es ->
   (printed perspective_line (effects (run es s)) <= 1)%nat /\
   (pKeyPressed s = true ->
    printed perspective_line (effects (run es s)) = 0%nat)) /\
  (held KEY_O es ->
   (printed orthographic_line (effects (run es s)) <= 1)%nat /\
   (oKeyPressed s = true ->
    printed orthographic_line (effects (run es s)) = 0%nat)).
Proof.
  split; [apply projection_keys_pass|].
  destruct (held_prints_once es s) as [P1 O1].
  destruct (held_prints_nothing es s) as [P0 O0].
  split; intros Hd; (split; [auto|intros F; auto]).
Qed.

(** ** Projection matrix *)

(** No handler writes [fov]: it is 45 in every state a run reaches. *)
Lemma fov_fixed (es : list Event) : fov (final es initial) = 45.0.
Proof.
  apply (final_invariant (fun s => fov s = 45.0)); [|reflexivity].
  intros [x0 y0|xo yo|t keys sh] s Fs; cbn [handle fst].
  - destruct (cursor_frame x0 y0 s) as (-> & _). exact Fs.
  - rewrite scroll_frame. exact Fs.
  - destruct (frame_frame t keys sh s) as (_ & -> & _). exact Fs.
Qed.

(** C3, as the code has it.  In every state reached from the initial
    one, the projection block builds, when [orthographicProjection] is
    set, an orthographic frustum symmetric about the view axis whose full
    height is 15 world units (half-height 7.5) and whose half-width is
    that half-height times the window's aspect ratio 1000/800 (9.375),
    with near plane 0.1 and far plane 100; otherwise a perspective
    frustum with the vertical field of view of 45 degrees in radians, the
    same aspect ratio, near 0.1 and far 100.  A frame hands this matrix,
    built from the state its keyboard pass leaves, to the shader. *)
Theorem projection_frustum (es : list Event) :
  let s := final es initial in
  aspect == 1.25 /\
  (orthographicProjection s = true ->
   symmetric_ortho (projection_matrix s) (7.5 * aspect) 7.5 0.1 100 /\
   symmetric_ortho (projection_matrix s) 9.375 (15 / 2) 0.1 100) /\
  (orthographicProjection s = false ->
   is_perspective (projection_matrix s) (radians 45) aspect 0.1 100) /\
  (forall t keys,
      let r := PrepareSceneView t keys true s in
      exists out view,
        snd r = out ++ [setMat4Value g_ViewName view;
                        setMat4Value g_ProjectionName
                          (projection_matrix (fst r));
                        setVec3Value "viewPosition" (cameraPos (fst r))]).
Proof.
  intros s. pose proof (fov_fixed es) as F. fold s in F.
  split; [reflexivity|]. split; [|split].
  - intros O. unfold projection_matrix. rewrite O.
    unfold symmetric_ortho, aspect. cbn. repeat split; reflexivity.
  - intros O. unfold projection_matrix. rewrite O, F.
    unfold is_perspective, aspect. repeat split; reflexivity.
  - intros t keys. unfold PrepareSceneView. cbn.
    destruct (ProcessKeyboardEvents keys _) as [s1 out]. cbn.
    eexists _, _. reflexivity.
Qed.

End Camera.

(** ** Runs of the camera on concrete inputs *)

Section Scenarios.
#[local] Existing Instance taylor_libm.

Lemma first_cursor_event_recomputes_front_witness :
  (forall a, a == 0 -> sin a == 0) /\
  ~ cameraFront (Mouse_Position_Callback 500 400 initial)
    ≡v cameraFront initial.
Proof.
  assert (S0 : forall a, a == 0 -> sin a == 0).
  { intros a E. cbn. rewrite Qred_correct, E. reflexivity. }
  split; [exact S0|].
  apply (first_cursor_event_recomputes_front (H := taylor_libm) 500 400 S0).
Defined.

Lemma cursor_move_turns_camera_witness :
  let s1 := Mouse_Position_Callback 500 400 initial in
  let s2 := Mouse_Position_Callback 600 400 s1 in
  firstMouse s1 = false /\ yaw s1 == -90 /\
  600 - lastX s1 == 100 /\ lastY s1 - 400 == 0 /\
  yaw s2 == yaw s1 + 10 /\ yaw s2 == -80 /\ lastX s2 = 600.
Proof.
  intros s1 s2.
  assert (F : firstMouse s1 = false) by reflexivity.
  assert (Y : yaw s1 == -90) by reflexivity.
  assert (X : 600 - lastX s1 == 100) by reflexivity.
  assert (Z : lastY s1 - 400 == 0) by reflexivity.
  destruct (cursor_move_turns_camera (H := taylor_libm) 600 400 s1 F)
    as (_ & _ & _ & LX & _ & K).
  destruct (K Y X Z) as (K1 & K2 & _).
  repeat split; assumption.
Defined.

(** C6.  The code at the failing input.  A frame 0.5 s after start, from
    the initial state, with W alone down and speed 2.5, moves the camera
    from (0, 3, 12) to (0, 2.75, 10.75): a step of squared length 1.625,
    while 1.25 times any unit vector has squared length 1.5625.  The step
    is 1.25 times the stored front (0, -0.2, -1), which is not normalised,
    so it is not 1.25 times the normalised front. *)
Lemma W_tick_is_not_a_unit_front_step :
  let s := initial in
  let s' := fst (PrepareSceneView 0.5 (keys_down [KEY_W]) true s) in
  deltaTime s' == 0.5 /\ movementSpeed s' == 2.5 /\
  cameraPos s' ≡v Vec3.mk 0 2.75 10.75 /\
  ~ exists n : vec3,
      dot n n == 1 /\ cameraPos s' ≡v (cameraPos s + 1.25 *~ n)%V.
Proof.
  cbv zeta.
  assert (P : cameraPos (fst (PrepareSceneView 0.5 (keys_down [KEY_W])
                                true initial))
              ≡v Vec3.mk 0 2.75 10.75).
  { vm_compute. repeat split; reflexivity. }
  split; [vm_compute; reflexivity|]. split; [vm_compute; reflexivity|].
  split; [exact P|].
  intros ([nx ny nz] & U & E). destruct P as (Px & Py & Pz).
  destruct E as (Ex & Ey & Ez). rewrite Px in Ex. rewrite Py in Ey.
  rewrite Pz in Ez. unfold dot in U. cbn in *.
  assert (Nx : nx == 0) by lra. assert (Ny : ny == -0.2) by lra.
  assert (Nz : nz == -1) by lra.
  rewrite Nx, Ny, Nz in U. vm_compute in U. discriminate U.
Qed.

Lemma keyboard_moves_camera_witness :
  let s := set_deltaTime 0.5
             (Mouse_Position_Callback 500 400 initial) in
  let keys := keys_down [KEY_W] in
  let s' := fst (ProcessKeyboardEvents keys s) in
  (deltaTime s == 0.5 /\ movementSpeed s == 2.5) /\
  cameraPos s' ≡v (cameraPos s + 1.25 *~ cameraFront s)%V /\
  (deltaTime initial == 0 /\
   cameraPos (fst (ProcessKeyboardEvents (keys_down [KEY_W; KEY_D; KEY_Q])
                     initial))
   ≡v cameraPos initial).
Proof.
  intros s keys s'.
  assert (D : deltaTime s == 0.5) by reflexivity.
  assert (M : movementSpeed s == 2.5) by reflexivity.
  assert (D0 : deltaTime initial == 0) by reflexivity.
  split; [split; assumption|]. split; [|split; [exact D0|]].
  - destruct (keyboard_moves_camera (H := taylor_libm) keys s)
      as (_ & _ & _ & _ & K).
    apply K; try reflexivity; assumption.
  - destruct (keyboard_moves_camera (H := taylor_libm)
                (keys_down [KEY_W; KEY_D; KEY_Q]) initial)
      as (_ & _ & _ & K & _).
    apply K, D0.
Defined.

Lemma projection_keys_edge_triggered_witness :
  let hold := [Frame 0 (keys_down [KEY_P]) true;
               CursorPos 500 400;
               Frame 1 (keys_down [KEY_P; KEY_W]) true;
               Frame 2 (keys_down [KEY_P]) true] in
  held KEY_P hold /\
  (printed perspective_line (effects (run hold initial)) <= 1)%nat.
Proof.
  intros hold.
  assert (Hd : held KEY_P hold).
  { repeat constructor. }
  split; [exact Hd|].
  destruct (projection_keys_edge_triggered (H := taylor_libm)
              (keys_down [KEY_P]) initial hold initial) as (_ & K & _).
  apply K, Hd.
Defined.

(** C3, as the spec has it, fails: after O is pressed the frustum's
    half-height is 7.5, neither 15 nor 15 times the aspect ratio. *)
Lemma ortho_half_height_is_not_15 :
  let s := final [Frame 0 (keys_down [KEY_O]) true] initial in
  orthographicProjection s = true /\
  (exists half_width,
      symmetric_ortho (projection_matrix s) half_width 7.5 0.1 100) /\
  ~ (exists half_width,
      symmetric_ortho (projection_matrix s) half_width (15 * aspect)
                      0.1 100) /\
  ~ (exists half_width,
      symmetric_ortho (projection_matrix s) half_width 15 0.1 100).
Proof.
  cbv zeta. split; [reflexivity|]. split; [|split].
  - exists 9.375. vm_compute. repeat split; reflexivity.
  - intros (hw & _ & _ & _ & T & _). vm_compute in T. discriminate T.
  - intros (hw & _ & _ & _ & T & _). vm_compute in T. discriminate T.
Qed.

Lemma projection_frustum_witness :
  let es := [Frame 0 (keys_down [KEY_O]) true; Scroll 0 1;
             Frame 1 (keys_down []) true] in
  let s := final es initial in
  orthographicProjection s = true /\
  symmetric_ortho (projection_matrix s) (7.5 * aspect) 7.5 0.1 100 /\
  orthographicProjection (final [CursorPos 500 400] initial) = false /\
  is_perspective (projection_matrix (final [CursorPos 500 400] initial))
                 (radians 45) aspect 0.1 100.
Proof.
  intros es s.
  assert (O : orthographicProjection s = true) by reflexivity.
  assert (P : orthographicProjection (final [CursorPos 500 400] initial)
              = false) by reflexivity.
  destruct (projection_frustum (H := taylor_libm) es) as (_ & K & _).
  destruct (projection_frustum (H := taylor_libm) [CursorPos 500 400])
    as (_ & _ & K' & _).
  destruct (K O) as [K1 _].
  split; [exact O|]. split; [exact K1|]. split; [exact P|exact (K' P)].
Defined.

Example scroll_up_once :
  movementSpeed (Mouse_Scroll_Callback 0 1 initial) == 3.
Proof. vm_compute. reflexivity. Qed.

Example scroll_up_twenty_times :
  movementSpeed (final (replicate 20 (Scroll 0 1)) initial) == 10.
Proof. vm_compute. reflexivity. Qed.

Example scroll_down_twenty_times :
  movementSpeed (final (replicate 20 (Scroll 0 (-1))) initial) == 0.1.
Proof. vm_compute. reflexivity. Qed.

Example look_far_up_then_far_down :
  pitch (final [CursorPos 500 400; CursorPos 500 (-2000)] initial) == 89 /\
  pitch (final [CursorPos 500 400; CursorPos 500 (-2000);
                CursorPos 500 9000] initial) == -89.
Proof. split; reflexivity. Qed.

Example drag_right_100_pixels :
  yaw (final [CursorPos 500 400; CursorPos 600 400] initial) == -80 /\
  pitch (final [CursorPos 500 400; CursorPos 600 400] initial) == 0.
Proof. split; reflexivity. Qed.

Example press_O_then_P :
  map (fun r => (orthographicProjection (fst r),
                 printed orthographic_line (snd r),
                 printed perspective_line (snd r)))
      (run [Frame 0 (keys_down [KEY_O]) true;
            Frame 1 (keys_down [KEY_O]) true;
            Frame 2 (keys_down [KEY_O; KEY_P]) true;
            Frame 3 (keys_down [KEY_P]) true;
            Frame 4 (keys_down []) true;
            Frame 5 (keys_down [KEY_P]) true] initial)
  = [(true, 1, 0); (true, 0, 0); (false, 0, 1); (false, 0, 0);
     (false, 0, 0); (false, 0, 1)]%nat.
Proof. vm_compute. reflexivity. Qed.

End Scenarios.

(** * Properties of the texture registry and the material table *)

Import SceneManager.

Section Registry.
Local Open Scope Z_scope.

Lemma at_index_in_bounds {A} (a : list A) (index : Z) :
  0 <= index < Z.of_nat (length a) ->
  exists v, a !! Z.to_nat index = Some v /\ at_index a index = Returns v.
Proof.
  intros B. unfold at_index.
  destruct (Z.ltb_spec index 0) as [L|_]; [lia|].
  destruct (lookup_lt_is_Some_2 a (Z.to_nat index)) as [v E]; [lia|].
  exists v. rewrite E. split; reflexivity.
Qed.

Lemma at_index_out_of_bounds {A} (a : list A) (index : Z) :
  index < 0 \/ Z.of_nat (length a) <= index ->
  at_index a index = Undefined (ArrayIndexOutOfBounds index).
Proof.
  intros B. unfold at_index.
  destruct (Z.ltb_spec index 0) as [L|L]; [reflexivity|].
  rewrite lookup_ge_None_2; [reflexivity|lia].
Qed.

Lemma CreateGLTexture_registers (stbi_load : string -> option Image)
    (textureID : Z) (filename tag : string) (s : SceneManager) :
  load_succeeds stbi_load filename ->
  (0 <= m_loadedTextures s < Z.of_nat (length (m_textureIDs s)) ->
   exists out, CreateGLTexture stbi_load textureID filename tag s
               = Returns (true, register textureID tag s, out)) /\
  (m_loadedTextures s < 0 \/
   Z.of_nat (length (m_textureIDs s)) <= m_loadedTextures s ->
   CreateGLTexture stbi_load textureID filename tag s
   = Undefined (ArrayIndexOutOfBounds (m_loadedTextures s))).
Proof.
  unfold load_succeeds, CreateGLTexture.
  destruct (stbi_load filename) as [image|]; [|intros []].
  intros Ch.
  assert (exists teximage,
    (if colorChannels image =? 3
     then Some [glTexImage2D GL_TEXTURE_2D 0 GL_RGB8 (width image)
                  (height image) 0 GL_RGB GL_UNSIGNED_BYTE]
     else if colorChannels image =? 4
          then Some [glTexImage2D GL_TEXTURE_2D 0 GL_RGBA8 (width image)
                  (height image) 0 GL_RGBA GL_UNSIGNED_BYTE]
          else None) = Some teximage) as [teximage ->].
  { destruct Ch as [-> | ->]; cbn; eexists; reflexivity. }
  split; intros B.
  - destruct (at_index_in_bounds (m_textureIDs s) (m_loadedTextures s) B)
      as (v & L & E).
    unfold store_index. rewrite E. cbn.
    unfold at_index.
    destruct (Z.ltb_spec (m_loadedTextures s) 0) as [?|_]; [lia|].
    rewrite list_lookup_insert_eq by lia. cbn.
    rewrite list_insert_insert_eq. eexists. reflexivity.
  - unfold store_index.
    rewrite (at_index_out_of_bounds _ _ B). reflexivity.
Qed.

(** C8.  Whenever [CreateGLTexture] fails, because the file does not
    decode or because the image has a channel count other than 3 and 4,
    it returns [false] and the manager it leaves is the one it found: no
    entry of [m_textureIDs] is written and [m_loadedTextures] keeps its
    value.  Conversely a [false] result only comes from these two
    failures. *)
Theorem CreateGLTexture_failure_is_atomic
    (stbi_load : string -> option Image) (textureID : Z)
    (filename tag : string) (s : SceneManager) :
  (load_fails stbi_load filename ->
   exists out,
     CreateGLTexture stbi_load textureID filename tag s
     = Returns (false, s, out)) /\
  (forall s' out,
      CreateGLTexture stbi_load textureID filename tag s
      = Returns (false, s', out) ->
      load_fails stbi_load filename /\
      m_textureIDs s' = m_textureIDs s /\
      m_loadedTextures s' = m_loadedTextures s /\ s' = s).
Proof.
  split.
  - unfold load_fails, CreateGLTexture.
    destruct (stbi_load filename) as [image|]; [|eexists; reflexivity].
    intros [N3 N4].
    apply Z.eqb_neq in N3, N4. rewrite N3, N4. eexists; reflexivity.
  - intros s' out. unfold load_fails, CreateGLTexture.
    destruct (stbi_load filename) as [image|].
    + destruct (Z.eqb_spec (colorChannels image) 3) as [E3|N3];
        [|destruct (Z.eqb_spec (colorChannels image) 4) as [E4|N4]].
      * unfold store_index.
        destruct (at_index (m_textureIDs s) (m_loadedTextures s)); cbn;
          [|discriminate].
        destruct (at_index _ _); cbn; discriminate.
      * unfold store_index.
        destruct (at_index (m_textureIDs s) (m_loadedTextures s)); cbn;
          [|discriminate].
        destruct (at_index _ _); cbn; discriminate.
      * intros [= <- _]. repeat split; assumption.
    + intros [= <- _]. repeat split.
Qed.

(** ** Lookups *)

Lemma FindTextureID_loop_absent (tag0 : string) (s : SceneManager)
    (todo : nat) :
  forall index textureID,
    0 <= index ->
    index + Z.of_nat todo <= Z.of_nat (length (m_textureIDs s)) ->
    (forall i t, (Z.to_nat index <= i < Z.to_nat index + todo)%nat ->
                 m_textureIDs s !! i = Some t -> tag t <> tag0) ->
    FindTextureID_loop todo index textureID tag0 s = Returns textureID /\
    FindTextureSlot_loop todo index textureID tag0 s = Returns textureID.
Proof.
  induction todo as [|todo IH]; intros index textureID I0 B A;
    [split; reflexivity|].
  destruct (at_index_in_bounds (m_textureIDs s) index) as (t & L & E);
    [lia|].
  assert (N : String.eqb (tag t) tag0 = false).
  { apply String.eqb_neq. apply (A (Z.to_nat index)); [lia|exact L]. }
  destruct (IH (index + 1) textureID) as [I1 I2]; [lia|lia| |].
  { intros i t' R. apply A. lia. }
  cbn. rewrite E. cbn. rewrite N. split; assumption.
Qed.

Lemma FindMaterial_loop_absent (tag0 : string) (material : OBJECT_MATERIAL)
    (ms : list OBJECT_MATERIAL) :
  Forall (fun m => mtag m <> tag0) ms ->
  FindMaterial_loop ms tag0 material = (false, material).
Proof.
  induction 1 as [|m ms N _ IH]; [reflexivity|].
  cbn. apply String.eqb_neq in N. rewrite N. exact IH.
Qed.

(** C9.  A tag with no matching entry resolves to the sentinel.  For a
    texture tag absent from the registered slots, [FindTextureID] and
    [FindTextureSlot] return -1, and [SetShaderTexture] hands that -1 to
    the sampler uniform without a check.  For a material tag absent from
    the material list, [FindMaterial] returns [false] and leaves the
    caller's material alone, and [SetShaderMaterial] sets nothing and
    reports nothing. *)
Theorem absent_tag_resolves_to_sentinel (tag0 : string)
    (material : OBJECT_MATERIAL) (s : SceneManager) :
  (well_formed s ->
   Forall (fun t => tag t <> tag0) (registered s) ->
   FindTextureID tag0 s = Returns (-1) /\
   FindTextureSlot tag0 s = Returns (-1) /\
   (m_pShaderManager s = true ->
    SetShaderTexture tag0 s
    = Returns [setIntValue g_UseTextureName 1;
               setSampler2DValue g_TextureValueName (-1)])) /\
  (Forall (fun m => mtag m <> tag0) (m_objectMaterials s) ->
   FindMaterial tag0 material s = (false, material) /\
   SetShaderMaterial tag0 material s = Returns []).
Proof.
  split.
  - intros [W0 W1] A.
    destruct (FindTextureID_loop_absent tag0 s
                (Z.to_nat (m_loadedTextures s)) 0 (-1)) as [I S];
      [lia|lia| |].
    { intros i t R L. unfold registered in A.
      apply (Forall_lookup_1 _ _ i t A).
      rewrite lookup_take_lt by lia. exact L. }
    split; [exact I|]. split; [exact S|].
    intros M. unfold SetShaderTexture. rewrite M.
    unfold FindTextureSlot in S |- *. rewrite S. reflexivity.
  - intros A.
    assert (F : FindMaterial tag0 material s = (false, material)).
    { unfold FindMaterial. destruct (_ =? _)%nat; [reflexivity|].
      apply FindMaterial_loop_absent, A. }
    split; [exact F|].
    unfold SetShaderMaterial. rewrite F.
    destruct (_ <? _)%nat; reflexivity.
Qed.

(** ** Capacity *)

Lemma load_all_in_bounds (stbi_load : string -> option Image)
    (loads : list (Z * (string * string))) :
  forall s,
    Forall (fun l => load_succeeds stbi_load (fst (snd l))) loads ->
    0 <= m_loadedTextures s ->
    m_loadedTextures s + Z.of_nat (length loads)
      <= Z.of_nat (length (m_textureIDs s)) ->
    exists s', load_all stbi_load loads s = Returns s' /\
               m_loadedTextures s'
               = m_loadedTextures s + Z.of_nat (length loads) /\
               length (m_textureIDs s') = length (m_textureIDs s).
Proof.
  induction loads as [|[textureID [filename tag0]] loads IH];
    intros s Ok C0 C1.
  - exists s. cbn. repeat split; lia.
  - apply Forall_cons in Ok as [Ok1 Ok]. cbn in Ok1, C1.
    destruct (CreateGLTexture_registers stbi_load textureID filename tag0 s
                Ok1) as [[out R] _]; [lia|].
    cbn [load_all]. rewrite R. cbn.
    destruct (IH (register textureID tag0 s) Ok) as (s' & L & N & K).
    + cbn. lia.
    + cbn. rewrite length_insert. lia.
    + exists s'. split; [exact L|]. cbn in N, K.
      rewrite length_insert in K. split; [|exact K].
      rewrite N. cbn [length]. lia.
Qed.

Lemma CreateGLTexture_fails (stbi_load : string -> option Image)
    (textureID : Z) (filename tag0 : string) (s : SceneManager) :
  load_fails stbi_load filename ->
  exists out,
    CreateGLTexture stbi_load textureID filename tag0 s
    = Returns (false, s, out).
Proof.
  unfold load_fails, CreateGLTexture.
  destruct (stbi_load filename) as [image|]; [|eexists; reflexivity].
  intros [N3 N4]. apply Z.eqb_neq in N3, N4. rewrite N3, N4.
  eexists; reflexivity.
Qed.

Lemma CreateGLTexture_cases (stbi_load : string -> option Image)
    (filename : string) :
  load_fails stbi_load filename \/ load_succeeds stbi_load filename.
Proof.
  unfold load_fails, load_succeeds.
  destruct (stbi_load filename) as [image|]; [|left; exact I].
  destruct (Z.eq_dec (colorChannels image) 3) as [E3|N3];
    [right; left; exact E3|].
  destruct (Z.eq_dec (colorChannels image) 4) as [E4|N4];
    [right; right; exact E4|].
  left. split; assumption.
Qed.

(** Loads that fit in the free slots all return, whatever the decoder
    answers; the eight loads of [PrepareScene] fit in a new manager. *)
Lemma load_all_fits (stbi_load : string -> option Image)
    (loads : list (Z * (string * string))) :
  forall s,
    0 <= m_loadedTextures s ->
    m_loadedTextures s + Z.of_nat (length loads)
      <= Z.of_nat (length (m_textureIDs s)) ->
    exists s', load_all stbi_load loads s = Returns s' /\
               m_loadedTextures s <= m_loadedTextures s'
                 <= m_loadedTextures s + Z.of_nat (length loads) /\
               length (m_textureIDs s') = length (m_textureIDs s).
Proof.
  induction loads as [|[textureID [filename tag0]] loads IH]; intros s C0 C1.
  - exists s. cbn. repeat split; lia.
  - cbn [length] in C1. cbn [load_all].
    destruct (CreateGLTexture_cases stbi_load filename) as [Fail|Ok].
    + destruct (CreateGLTexture_fails stbi_load textureID filename tag0 s
                  Fail) as [out ->].
      cbn. destruct (IH s) as (s' & L & N & K); [lia|lia|].
      exists s'. split; [exact L|]. split; [cbn [length]; lia|exact K].
    + destruct (CreateGLTexture_registers stbi_load textureID filename tag0 s
                  Ok) as [[out ->] _]; [lia|].
      cbn. destruct (IH (register textureID tag0 s)) as (s' & L & N & K).
      * cbn. lia.
      * cbn. rewrite length_insert. lia.
      * exists s'. split; [exact L|]. cbn in N, K.
        rewrite length_insert in K. split; [cbn [length]; lia|exact K].
Qed.

Lemma scene_textures_fit (stbi_load : string -> option Image)
    (names : list Z) (sh : bool) :
  exists s', load_all stbi_load (zip names scene_textures) (new sh)
             = Returns s' /\
             0 <= m_loadedTextures s' <= 8.
Proof.
  destruct (load_all_fits stbi_load (zip names scene_textures) (new sh))
    as (s' & L & N & _).
  - cbn. lia.
  - rewrite length_zip. cbn.
    assert ((length names `min` 8)%nat <= 8)%nat by lia. lia.
  - exists s'. split; [exact L|]. cbn in N. rewrite length_zip in N.
    cbn in N. lia.
Qed.

(** C10.  [CreateGLTexture] registers without a capacity check.  On a
    decode with 3 or 4 channels it writes the entry at index
    [m_loadedTextures] of the 16-slot array and increments the count;
    the write is inside the array exactly when fewer than 16 textures
    are registered.  With 16 registered the write is at index 16, past
    the end; so from a new manager 16 successful loads fill the array
    and a 17th indexes past its end. *)
Theorem CreateGLTexture_has_no_capacity_check
    (stbi_load : string -> option Image) (textureID : Z)
    (filename tag : string) (s : SceneManager)
    (decoded : load_succeeds stbi_load filename)
    (slots : length (m_textureIDs s) = MAX_TEXTURES) :
  MAX_TEXTURES = 16%nat /\
  (0 <= m_loadedTextures s < 16 ->
   exists out,
     CreateGLTexture stbi_load textureID filename tag s
     = Returns (true, register textureID tag s, out)) /\
  (16 <= m_loadedTextures s ->
   CreateGLTexture stbi_load textureID filename tag s
   = Undefined (ArrayIndexOutOfBounds (m_loadedTextures s))) /\
  (forall (sh : bool) (loads : list (Z * (string * string))),
      Forall (fun l => load_succeeds stbi_load (fst (snd l))) loads ->
      length loads = 16%nat ->
      (exists s16, load_all stbi_load loads (new sh) = Returns s16 /\
                   m_loadedTextures s16 = 16) /\
      load_all stbi_load (loads ++ [(textureID, (filename, tag))]) (new sh)
      = Undefined (ArrayIndexOutOfBounds 16)).
Proof.
  split; [reflexivity|].
  destruct (CreateGLTexture_registers stbi_load textureID filename tag s
              decoded) as [In Out].
  rewrite slots in In, Out. change (Z.of_nat MAX_TEXTURES) with 16 in *.
  split; [exact In|]. split; [intros B; apply Out; lia|].
  intros sh loads Ok Len.
  destruct (load_all_in_bounds stbi_load loads (new sh) Ok)
    as (s16 & L & N & K).
  { cbn. lia. }
  { cbn. lia. }
  cbn in N, K. rewrite Len in N.
  split; [exists s16; split; [exact L|exact N]|].
  clear In Out.
  assert (G : forall ls s0,
    load_all stbi_load ls s0 = Returns s16 ->
    load_all stbi_load (ls ++ [(textureID, (filename, tag))]) s0
    = Undefined (ArrayIndexOutOfBounds 16)).
  { induction ls as [|[i [f t]] ls IH]; intros s0 E.
    - cbn in E. injection E as ->. cbn.
      destruct (CreateGLTexture_registers stbi_load textureID filename tag
                  s16 decoded) as [_ Out].
      rewrite Out by (rewrite K, N; cbn; lia). rewrite N. reflexivity.
    - cbn in E |- *.
      destruct (CreateGLTexture stbi_load i f t s0) as [r|fl]; cbn in *;
        [apply IH, E|discriminate E]. }
  apply G, L.
Qed.

End Registry.

(** ** Runs of the registry on concrete inputs *)

Section RegistryScenarios.
Local Open Scope Z_scope.

Lemma CreateGLTexture_failure_is_atomic_witness :
  load_fails example_decoder "textures/grey.png" /\
  load_fails example_decoder "textures/none.jpg" /\
  (exists out,
      CreateGLTexture example_decoder 7 "textures/grey.png" "grey"
                      (new true)
      = Returns (false, new true, out)) /\
  m_loadedTextures (new true) = 0.
Proof.
  assert (G : load_fails example_decoder "textures/grey.png").
  { cbn. split; discriminate. }
  assert (N : load_fails example_decoder "textures/none.jpg").
  { exact I. }
  split; [exact G|]. split; [exact N|]. split; [|reflexivity].
  apply (CreateGLTexture_failure_is_atomic example_decoder 7
           "textures/grey.png" "grey" (new true)), G.
Defined.

Lemma absent_tag_resolves_to_sentinel_witness :
  let s := register 7 "plate" (new true) in
  well_formed s /\
  Forall (fun t => tag t <> "tablecloth"%string) (registered s) /\
  FindTextureSlot "tablecloth" s = Returns (-1) /\
  FindTextureSlot "plate" s = Returns 0 /\
  FindTextureID "plate" s = Returns 7.
Proof.
  intros s.
  assert (W : well_formed s).
  { split; apply Z.leb_le; reflexivity. }
  assert (A : Forall (fun t => tag t <> "tablecloth"%string) (registered s)).
  { repeat constructor. cbn. discriminate. }
  split; [exact W|]. split; [exact A|].
  split; [|split; reflexivity].
  destruct (absent_tag_resolves_to_sentinel "tablecloth"
              {| ambientColor := Vec3.mk 0 0 0; ambientStrength := 0;
                 diffuseColor := Vec3.mk 0 0 0;
                 specularColor := Vec3.mk 0 0 0;
                 shininess := 0; mtag := "" |} s) as [K _].
  apply K; assumption.
Defined.

Lemma CreateGLTexture_has_no_capacity_check_witness :
  load_succeeds example_decoder "textures/plate.jpg" /\
  length (m_textureIDs (new true)) = MAX_TEXTURES /\
  load_all example_decoder
    (replicate 17 (7, ("textures/plate.jpg", "plate"))) (new true)
  = Undefined (ArrayIndexOutOfBounds 16).
Proof.
  assert (D : load_succeeds example_decoder "textures/plate.jpg").
  { left. reflexivity. }
  assert (S : length (m_textureIDs (new true)) = MAX_TEXTURES)
    by reflexivity.
  split; [exact D|]. split; [exact S|].
  destruct (CreateGLTexture_has_no_capacity_check example_decoder 7
              "textures/plate.jpg" "plate" (new true) D S)
    as (_ & _ & _ & K).
  apply (K true (replicate 16 (7, ("textures/plate.jpg", "plate"))));
    [repeat constructor|reflexivity].
Defined.

Example load_plate_then_grey :
  match load_all example_decoder
          [(7, ("textures/plate.jpg", "plate"%string));
           (8, ("textures/grey.png", "grey"%string));
           (9, ("textures/none.jpg", "none"%string))] (new true) with
  | Returns s => m_loadedTextures s = 1 /\
                 registered s = [{| ID := 7; tag := "plate" |}]
  | Undefined _ => False
  end.
Proof. vm_compute. split; reflexivity. Qed.

End RegistryScenarios.

(** * Further properties of the camera/view controller *)

Section CameraMotion.
Context `{Libm}.

Ltac case_conditions :=
  repeat match goal with
         | |- context [if ?b then _ else _] => destruct b; cbn
         end.

(** ** Cursor samples add up *)






(** ** Orientation and its representation *)

Lemma keyboard_keeps_pointer (keys : KeyStates) (s : ViewState) :
  let s' := fst (ProcessKeyboardEvents keys s) in
  firstMouse s' = firstMouse s /\ lastX s' = lastX s /\ lastY s' = lastY s /\
  lastFrame s' = lastFrame s.
Proof.
  assert (M : let m := movement_keys keys s in
              firstMouse m = firstMouse s /\ lastX m = lastX s /\
              lastY m = lastY s /\ lastFrame m = lastFrame s).
  { unfold movement_keys; cbn. case_conditions; repeat split; reflexivity. }
  unfold ProcessKeyboardEvents, projection_keys. cbv zeta in M |- *.
  revert M. generalize (movement_keys keys s); intros m M.
  case_conditions; exact M.
Qed.

(** What a frame leaves alone, and what it does to the clock. *)
Lemma frame_keeps_orientation (t : Q) (keys : KeyStates) (sh : bool)
    (s : ViewState) :
  let s' := fst (PrepareSceneView t keys sh s) in
  yaw s' = yaw s /\ pitch s' = pitch s /\ cameraFront s' = cameraFront s /\
  cameraUp s' = cameraUp s /\ firstMouse s' = firstMouse s /\
  lastX s' = lastX s /\ lastY s' = lastY s /\ fov s' = fov s /\
  movementSpeed s' = movementSpeed s /\
  lastFrame s' = t /\ deltaTime s' = t - lastFrame s.
Proof.
  unfold PrepareSceneView. cbn.
  pose proof (keyboard_frame keys
                (set_lastFrame t (set_deltaTime (t - lastFrame s) s))) as K.
  pose proof (keyboard_keeps_pointer keys
                (set_lastFrame t (set_deltaTime (t - lastFrame s) s))) as K'.
  destruct (ProcessKeyboardEvents keys _) as [s1 out].
  cbn in K, K'. destruct K as (P & Y & F & M & CF & CU & D).
  destruct K' as (FM & LX & LY & LF).
  destruct sh; cbn; repeat split; assumption.
Qed.

(** X3.  The front vector is a function of the angles once the cursor has
    moved.  In every state reached from the initial one: if a cursor event
    has been handled ([firstMouse] is clear) the front is the normalised
    direction of the current yaw and pitch; if none has, yaw, pitch and
    front still have their initial values. *)
Theorem front_follows_angles (es : list Event) :
  let s := final es initial in
  (firstMouse s = false ->
   cameraFront s = normalize (direction_of (yaw s) (pitch s))) /\
  (firstMouse s = true ->
   yaw s = yaw initial /\ pitch s = pitch initial /\
   cameraFront s = cameraFront initial).
Proof.
  apply (final_invariant (fun s =>
    (firstMouse s = false ->
     cameraFront s = normalize (direction_of (yaw s) (pitch s))) /\
    (firstMouse s = true ->
     yaw s = yaw initial /\ pitch s = pitch initial /\
     cameraFront s = cameraFront initial))).
  - intros [x0 y0|xo yo|t keys sh] s [A B]; cbn [handle fst].
    + destruct (cursor_fields x0 y0 s) as (_ & _ & F & CF). cbv zeta in *.
      split; [intros _; exact CF|rewrite F; discriminate].
    + rewrite scroll_frame. cbn. split; assumption.
    + destruct (frame_keeps_orientation t keys sh s)
        as (-> & -> & -> & _ & -> & _). split; assumption.
  - split; [discriminate|]. intros _. repeat split; reflexivity.
Qed.

(** ** Which handler writes what *)

(** One event, field by field. *)
Lemma handler_frame (e : Event) (s : ViewState) :
  let s' := fst (handle e s) in
  fov s' = fov s /\ cameraUp s' = cameraUp s /\
  match e with
  | CursorPos _ _ =>
      cameraPos s' = cameraPos s /\ movementSpeed s' = movementSpeed s /\
      orthographicProjection s' = orthographicProjection s /\
      pKeyPressed s' = pKeyPressed s /\ oKeyPressed s' = oKeyPressed s /\
      deltaTime s' = deltaTime s /\ lastFrame s' = lastFrame s
  | Scroll _ _ => s' = set_movementSpeed (movementSpeed s') s
  | Frame _ _ _ =>
      yaw s' = yaw s /\ pitch s' = pitch s /\
      cameraFront s' = cameraFront s /\
      lastX s' = lastX s /\ lastY s' = lastY s /\
      firstMouse s' = firstMouse s /\ movementSpeed s' = movementSpeed s
  end.
Proof.
  destruct e as [x0 y0|xo yo|t keys sh]; cbn [handle fst]; cbv zeta.
  - unfold Mouse_Position_Callback.
    destruct (firstMouse s); cbn; case_Qltb; repeat split; reflexivity.
  - rewrite scroll_frame. repeat split; reflexivity.
  - destruct (frame_keeps_orientation t keys sh s)
      as (Y & P & CF & CU & FM & LX & LY & F & M & _).
    repeat split; assumption.
Qed.

Lemma up_is_fixed (es : list Event) :
  cameraUp (final es initial) = Vec3.mk 0.0 1.0 0.0.
Proof.
  apply (final_invariant (fun s => cameraUp s = Vec3.mk 0.0 1.0 0.0));
    [|reflexivity].
  intros e s U. destruct (handler_frame e s) as (_ & -> & _). exact U.
Qed.

(** X4.  Turning never moves the camera and moving never turns it.  A
    cursor event leaves the position, the speed, the projection mode, the
    key flags and the frame clock as they are; a scroll event writes
    [movementSpeed] and nothing else; a frame leaves the angles, the front,
    the stored cursor sample, [firstMouse] and the speed as they are.  No
    handler writes [fov] or [cameraUp], so in every state reached from the
    initial one the field of view is 45 and the up vector is (0, 1, 0). *)
Theorem handlers_write_disjoint_state (e : Event) (s : ViewState)
    (es : list Event) :
  let s' := fst (handle e s) in
  fov s' = fov s /\ cameraUp s' = cameraUp s /\
  match e with
  | CursorPos _ _ =>
      cameraPos s' = cameraPos s /\ movementSpeed s' = movementSpeed s /\
      orthographicProjection s' = orthographicProjection s /\
      pKeyPressed s' = pKeyPressed s /\ oKeyPressed s' = oKeyPressed s /\
      deltaTime s' = deltaTime s /\ lastFrame s' = lastFrame s
  | Scroll _ _ => s' = set_movementSpeed (movementSpeed s') s
  | Frame _ _ _ =>
      yaw s' = yaw s /\ pitch s' = pitch s /\
      cameraFront s' = cameraFront s /\
      lastX s' = lastX s /\ lastY s' = lastY s /\
      firstMouse s' = firstMouse s /\ movementSpeed s' = movementSpeed s
  end /\
  fov (final es initial) = 45.0 /\
  cameraUp (final es initial) = Vec3.mk 0.0 1.0 0.0.
Proof.
  cbv zeta. destruct (handler_frame e s) as (F & U & R).
  split; [exact F|]. split; [exact U|]. split; [exact R|].
  split.
  - apply (final_invariant (fun s => fov s = 45.0)); [|reflexivity].
    intros e' s' F'. destruct (handler_frame e' s') as (-> & _). exact F'.
  - apply (final_invariant (fun s => cameraUp s = Vec3.mk 0.0 1.0 0.0));
      [|reflexivity].
    intros e' s' U'. destruct (handler_frame e' s') as (_ & -> & _). exact U'.
Qed.

(** ** Scroll events add up *)



(** X6.  Scrolling is monotone: from a speed that is no greater, a
    vertical offset that is no greater gives a speed that is no greater.
    So a scroll up never slows a camera whose speed is at most 10 and a
    scroll down never speeds up one whose speed is at least 0.1; at the
    upper clamp a scroll up changes nothing. *)
Theorem scroll_is_monotone (x1 y1 x2 y2 : Q) (s1 s2 : ViewState) :
  (movementSpeed s1 <= movementSpeed s2 -> y1 <= y2 ->
   movementSpeed (Mouse_Scroll_Callback x1 y1 s1)
   <= movementSpeed (Mouse_Scroll_Callback x2 y2 s2)) /\
  (0 <= y1 -> movementSpeed s1 <= 10 ->
   movementSpeed s1 <= movementSpeed (Mouse_Scroll_Callback x1 y1 s1)) /\
  (y1 <= 0 -> 0.1 <= movementSpeed s1 ->
   movementSpeed (Mouse_Scroll_Callback x1 y1 s1) <= movementSpeed s1) /\
  (0 <= y1 -> movementSpeed s1 == 10 ->
   movementSpeed (Mouse_Scroll_Callback x1 y1 s1) == 10).
Proof.
  unfold Mouse_Scroll_Callback; cbn.
  repeat split; intros; case_Qltb; lra.
Qed.

(** ** Movement over several frames *)




(** X8.  In every state reached from the initial one the strafe keys A
    and D never change the camera's height, and the vertical keys Q and E
    change nothing but the height: one keyboard pass changes the height
    by [movementSpeed * deltaTime] times the vertical part of the front
    for W (minus that for S) plus that amount itself for Q (minus it for
    E), and no strafe term. *)
Theorem strafing_keeps_height (es : list Event) (keys : KeyStates) :
  let s := final es initial in
  let s' := fst (ProcessKeyboardEvents keys s) in
  let v := movementSpeed s * deltaTime s in
  let strafe := normalize (cross (cameraFront s) (cameraUp s)) in
  Vec3.y (cameraPos s')
  == Vec3.y (cameraPos s)
     + v * (down keys KEY_W - down keys KEY_S) * Vec3.y (cameraFront s)
     + v * (down keys KEY_Q - down keys KEY_E) /\
  Vec3.x (cameraPos s')
  == Vec3.x (cameraPos s)
     + v * (down keys KEY_W - down keys KEY_S) * Vec3.x (cameraFront s)
     + v * (down keys KEY_D - down keys KEY_A) * Vec3.x strafe /\
  Vec3.z (cameraPos s')
  == Vec3.z (cameraPos s)
     + v * (down keys KEY_W - down keys KEY_S) * Vec3.z (cameraFront s)
     + v * (down keys KEY_D - down keys KEY_A) * Vec3.z strafe.
Proof.
  intros s s' v strafe.
  pose proof (up_is_fixed es) as U. fold s in U.
  destruct (keyboard_displacement keys s) as (Gx & Gy & Gz).
  fold s' v strafe in Gx, Gy, Gz. subst strafe.
  rewrite U in *. cbn in Gx, Gy, Gz |- *.
  rewrite Gx, Gy, Gz. repeat split; ring.
Qed.

(** ** The escape key and the two mode keys *)

(** X9.  The escape key only requests the close.  A keyboard pass with
    escape down leaves the same state as the pass with escape up and the
    other keys equal, and has the same effects after one more in front:
    the close request.  The pass does not stop early. *)
Theorem escape_only_requests_close (keys keys' : KeyStates) (s : ViewState)
    (same : forall k, k <> KEY_ESCAPE -> keys' k = keys k)
    (is_down : keys KEY_ESCAPE = true) (is_up : keys' KEY_ESCAPE = false) :
  fst (ProcessKeyboardEvents keys s) = fst (ProcessKeyboardEvents keys' s) /\
  snd (ProcessKeyboardEvents keys s)
  = SetWindowShouldClose true :: snd (ProcessKeyboardEvents keys' s).
Proof.
  assert (M : movement_keys keys' s = movement_keys keys s).
  { unfold movement_keys.
    rewrite !same by discriminate. reflexivity. }
  assert (P : forall m, projection_keys keys' m = projection_keys keys m).
  { intros m. unfold projection_keys.
    rewrite !same by discriminate. reflexivity. }
  unfold ProcessKeyboardEvents. rewrite is_down, is_up, M, P.
  destruct (projection_keys keys (movement_keys keys s)) as [s1 out].
  split; reflexivity.
Qed.

(** X10.  When P and O both go down in the same pass, both switches
    happen, Perspective first: both lines are printed in that order and
    the mode the pass leaves is Orthographic. *)
Theorem both_mode_keys_in_one_pass (keys : KeyStates) (s : ViewState)
    (p_down : keys KEY_P = true) (o_down : keys KEY_O = true)
    (p_was_up : pKeyPressed s = false) (o_was_up : oKeyPressed s = false) :
  let r := ProcessKeyboardEvents keys s in
  orthographicProjection (fst r) = true /\
  pKeyPressed (fst r) = true /\ oKeyPressed (fst r) = true /\
  snd r = (if keys KEY_ESCAPE then [SetWindowShouldClose true] else [])
          ++ [Stdout perspective_line; Stdout orthographic_line].
Proof.
  assert (M : pKeyPressed (movement_keys keys s) = pKeyPressed s /\
              oKeyPressed (movement_keys keys s) = oKeyPressed s).
  { unfold movement_keys. case_conditions; split; reflexivity. }
  destruct M as [MP MO]. rewrite p_was_up in MP. rewrite o_was_up in MO.
  unfold ProcessKeyboardEvents, projection_keys. cbv zeta.
  revert MP MO. generalize (movement_keys keys s); intros m MP MO.
  rewrite p_down, o_down, MP. cbn. rewrite MO. cbn.
  repeat split; reflexivity.
Qed.

End CameraMotion.

(** * Further properties of the texture registry and the material table *)

Section RegistryLookups.
Local Open Scope Z_scope.

(** ** The lookups find the first match among the registered slots *)

Lemma find_loops_first_match (tag0 : string) (s : SceneManager)
    (todo : nat) :
  forall index missing,
    0 <= index ->
    index + Z.of_nat todo <= Z.of_nat (length (m_textureIDs s)) ->
    let found :=
      first_match tag0 index
        (take todo (drop (Z.to_nat index) (m_textureIDs s))) in
    FindTextureSlot_loop todo index missing tag0 s
    = Returns (match found with Some (i, _) => i | None => missing end) /\
    FindTextureID_loop todo index missing tag0 s
    = Returns (match found with
               | Some (_, t) => int_of_GLuint (ID t)
               | None => missing
               end).
Proof.
  induction todo as [|todo IH]; intros index missing I0 B;
    [split; reflexivity|].
  destruct (at_index_in_bounds (m_textureIDs s) index) as (t & L & E);
    [lia|].
  cbv zeta. rewrite (drop_S _ _ _ L).
  cbn [take first_match FindTextureSlot_loop FindTextureID_loop].
  rewrite E. cbn [mbind outcome_bind].
  destruct (String.eqb (tag t) tag0); [split; reflexivity|].
  destruct (IH (index + 1) missing) as [HS HI]; [lia|lia|].
  cbv zeta in HS, HI.
  replace (Z.to_nat (index + 1)) with (S (Z.to_nat index)) in HS, HI by lia.
  split; assumption.
Qed.

Lemma FindTextureSlot_first_match (tag0 : string) (s : SceneManager) :
  well_formed s ->
  FindTextureSlot tag0 s = Returns (slot_of tag0 (registered s)).
Proof.
  intros [W0 W1].
  destruct (find_loops_first_match tag0 s (Z.to_nat (m_loadedTextures s))
              0 (-1)) as [HS _]; [lia|lia|].
  cbv zeta in HS. change (Z.to_nat 0) with 0%nat in HS.
  rewrite drop_0 in HS. exact HS.
Qed.

Lemma FindTextureID_first_match (tag0 : string) (s : SceneManager) :
  well_formed s ->
  FindTextureID tag0 s = Returns (name_of tag0 (registered s)).
Proof.
  intros [W0 W1].
  destruct (find_loops_first_match tag0 s (Z.to_nat (m_loadedTextures s))
              0 (-1)) as [_ HI]; [lia|lia|].
  cbv zeta in HI. change (Z.to_nat 0) with 0%nat in HI.
  rewrite drop_0 in HI. exact HI.
Qed.

Lemma first_match_bounds (tag0 : string) (entries : list TEXTURE_INFO) :
  forall index i t,
    first_match tag0 index entries = Some (i, t) ->
    index <= i < index + Z.of_nat (length entries) /\
    entries !! Z.to_nat (i - index) = Some t /\ tag t = tag0 /\
    Forall (fun t' => tag t' <> tag0) (take (Z.to_nat (i - index)) entries).
Proof.
  induction entries as [|e entries IH]; intros index i t; [discriminate|].
  cbn [first_match]. destruct (String.eqb_spec (tag e) tag0) as [E|N].
  - intros [= <- <-]. rewrite Z.sub_diag. cbn.
    repeat split; try lia; try assumption. constructor.
  - intros M. destruct (IH _ _ _ M) as (B & L & T & A).
    cbn [length]. split; [lia|].
    replace (Z.to_nat (i - index)) with (S (Z.to_nat (i - (index + 1))))
      by lia.
    cbn. repeat split; try assumption. constructor; assumption.
Qed.

Lemma first_match_none (tag0 : string) (entries : list TEXTURE_INFO) :
  forall index,
    first_match tag0 index entries = None <->
    Forall (fun t => tag t <> tag0) entries.
Proof.
  induction entries as [|e entries IH]; intros index; cbn [first_match].
  - split; [constructor|reflexivity].
  - destruct (String.eqb_spec (tag e) tag0) as [E|N].
    + split; [discriminate|]. intros A. apply Forall_cons in A as [A _].
      contradiction.
    + rewrite IH. split; [intros A; constructor; assumption|].
      intros A. apply Forall_cons in A as [_ A]. exact A.
Qed.

(** X11.  On a manager whose count is within the array, both lookups
    return (they never read outside the array), and they agree with a
    first-match search of the registered slots: [FindTextureSlot] returns
    the index of the first slot carrying the tag and [FindTextureID] the
    OpenGL name stored in that same slot, each -1 when no registered slot
    carries the tag. *)
Theorem lookups_find_first_match (tag0 : string) (s : SceneManager)
    (wf : well_formed s) :
  FindTextureSlot tag0 s = Returns (slot_of tag0 (registered s)) /\
  FindTextureID tag0 s = Returns (name_of tag0 (registered s)) /\
  match first_match tag0 0 (registered s) with
  | Some (slot, t) =>
      slot_of tag0 (registered s) = slot /\
      name_of tag0 (registered s) = int_of_GLuint (ID t) /\
      m_textureIDs s !! Z.to_nat slot = Some t /\ tag t = tag0
  | None =>
      slot_of tag0 (registered s) = -1 /\ name_of tag0 (registered s) = -1
  end.
Proof.
  split; [apply FindTextureSlot_first_match, wf|].
  split; [apply FindTextureID_first_match, wf|].
  unfold slot_of, name_of.
  destruct (first_match tag0 0 (registered s)) as [[slot t]|] eqn:M;
    [|split; reflexivity].
  destruct (first_match_bounds _ _ _ _ _ M) as (B & L & T & _).
  rewrite Z.sub_0_r in L.
  assert (Len : length (registered s) = Z.to_nat (m_loadedTextures s)).
  { unfold registered. destruct wf. rewrite length_take. lia. }
  unfold registered in L. rewrite lookup_take_lt in L by lia.
  repeat split; assumption.
Qed.

(** What [slot_of] returns. *)
Lemma slot_of_sound (tag0 : string) (entries : list TEXTURE_INFO) :
  (slot_of tag0 entries = -1 /\
   Forall (fun t => tag t <> tag0) entries) \/
  (0 <= slot_of tag0 entries < Z.of_nat (length entries) /\
   (exists t, entries !! Z.to_nat (slot_of tag0 entries) = Some t /\
              tag t = tag0) /\
   Forall (fun t => tag t <> tag0)
          (take (Z.to_nat (slot_of tag0 entries)) entries)).
Proof.
  unfold slot_of.
  destruct (first_match tag0 0 entries) as [[i t]|] eqn:M.
  - right. destruct (first_match_bounds _ _ _ _ _ M) as (B & L & T & A).
    rewrite Z.sub_0_r in L, A.
    split; [lia|]. split; [exists t; split; assumption|exact A].
  - left. split; [reflexivity|]. apply (first_match_none tag0 _ 0), M.
Qed.

Lemma length_registered (s : SceneManager) :
  well_formed s ->
  length (registered s) = Z.to_nat (m_loadedTextures s).
Proof. intros [W0 W1]. unfold registered. rewrite length_take. lia. Qed.

(** X12.  What a lookup result means.  On a manager whose count is within
    the array, [FindTextureSlot] returns either -1, and then no registered
    slot carries the tag, or an index from 0 up to the count, excluded,
    and then that slot carries the tag and no earlier one does. *)
Theorem FindTextureSlot_is_sound (tag0 : string) (s : SceneManager)
    (wf : well_formed s) :
  exists slot,
    FindTextureSlot tag0 s = Returns slot /\
    ((slot = -1 /\ Forall (fun t => tag t <> tag0) (registered s)) \/
     (0 <= slot < m_loadedTextures s /\
      (exists t, m_textureIDs s !! Z.to_nat slot = Some t /\ tag t = tag0) /\
      Forall (fun t => tag t <> tag0) (take (Z.to_nat slot) (registered s)))).
Proof.
  exists (slot_of tag0 (registered s)).
  split; [apply FindTextureSlot_first_match, wf|].
  pose proof (length_registered s wf) as Len. destruct wf as [W0 W1].
  destruct (slot_of_sound tag0 (registered s))
    as [[E A]|(B & (t & L & T) & A)]; [left; split; assumption|].
  right. split; [lia|]. split; [|exact A].
  exists t. split; [|exact T].
  set (k := slot_of tag0 (registered s)) in *.
  unfold registered in L. rewrite lookup_take_lt in L by lia. exact L.
Qed.

(** ** Loads append to the registered slots *)

Lemma registered_register (textureID : Z) (tag0 : string) (s : SceneManager) :
  0 <= m_loadedTextures s < Z.of_nat (length (m_textureIDs s)) ->
  registered (register textureID tag0 s)
  = registered s ++ [{| ID := textureID; tag := tag0 |}] /\
  well_formed (register textureID tag0 s) /\
  length (m_textureIDs (register textureID tag0 s))
  = length (m_textureIDs s).
Proof.
  intros B. unfold registered, well_formed, register. cbn.
  rewrite length_insert. split; [|split; [lia|reflexivity]].
  replace (Z.to_nat (m_loadedTextures s + 1))
    with (S (Z.to_nat (m_loadedTextures s))) by lia.
  rewrite (take_S_r _ _ {| ID := textureID; tag := tag0 |})
    by (apply list_lookup_insert_eq; lia).
  rewrite take_insert_ge by lia. reflexivity.
Qed.

(** Every way [CreateGLTexture] can end. *)
Lemma CreateGLTexture_outcomes (stbi_load : string -> option Image)
    (textureID : Z) (filename tag0 : string) (s : SceneManager) :
  (decodes stbi_load filename = false /\
   exists out, CreateGLTexture stbi_load textureID filename tag0 s
               = Returns (false, s, out)) \/
  (decodes stbi_load filename = true /\
   0 <= m_loadedTextures s < Z.of_nat (length (m_textureIDs s)) /\
   exists out, CreateGLTexture stbi_load textureID filename tag0 s
               = Returns (true, register textureID tag0 s, out)) \/
  (decodes stbi_load filename = true /\
   (m_loadedTextures s < 0 \/
    Z.of_nat (length (m_textureIDs s)) <= m_loadedTextures s) /\
   CreateGLTexture stbi_load textureID filename tag0 s
   = Undefined (ArrayIndexOutOfBounds (m_loadedTextures s))).
Proof.
  destruct (CreateGLTexture_cases stbi_load filename) as [Fail|Ok].
  - left. split.
    + unfold load_fails in Fail. unfold decodes.
      destruct (stbi_load filename) as [image|]; [|reflexivity].
      destruct Fail as [N3 N4]. apply Z.eqb_neq in N3, N4.
      rewrite N3, N4. reflexivity.
    + apply CreateGLTexture_fails, Fail.
  - assert (D : decodes stbi_load filename = true).
    { unfold load_succeeds in Ok. unfold decodes.
      destruct (stbi_load filename) as [image|]; [|contradiction].
      destruct Ok as [-> | ->]; reflexivity. }
    destruct (CreateGLTexture_registers stbi_load textureID filename tag0 s
                Ok) as [In Out].
    destruct (Z.lt_ge_cases (m_loadedTextures s) 0) as [Neg|Pos];
      [right; right; split; [exact D|]; split; [lia|apply Out; lia]|].
    destruct (Z.lt_ge_cases (m_loadedTextures s)
                (Z.of_nat (length (m_textureIDs s)))) as [Room|Full].
    + right; left. split; [exact D|]. split; [lia|apply In; lia].
    + right; right. split; [exact D|]. split; [lia|apply Out; lia].
Qed.

Lemma returned_load_appends (stbi_load : string -> option Image)
    (textureID : Z) (filename tag0 : string) (s s' : SceneManager)
    (loaded : bool) (out : list effect) :
  well_formed s ->
  CreateGLTexture stbi_load textureID filename tag0 s
  = Returns (loaded, s', out) ->
  well_formed s' /\
  registered s'
  = registered s
    ++ (if loaded then [{| ID := textureID; tag := tag0 |}] else []).
Proof.
  intros wf returned.
  destruct (CreateGLTexture_outcomes stbi_load textureID filename tag0 s)
    as [(D & o & E)|[(D & B & o & E)|(D & B & E)]];
    rewrite E in returned; [| |discriminate returned];
    injection returned as <- <- <-.
  - rewrite app_nil_r. split; [exact wf|reflexivity].
  - destruct (registered_register textureID tag0 s B) as (R & W & _).
    split; assumption.
Qed.

(** X13.  A load only ever appends.  Whenever [CreateGLTexture] returns,
    on a manager whose count is within the array, the count is still
    within the array, the array has kept its length, and the registered
    slots are the ones before the call followed, when the result is
    [true], by one slot with the new name and tag; the result is [true]
    exactly when the file decodes to 3 or 4 channels. *)
Theorem CreateGLTexture_appends (stbi_load : string -> option Image)
    (textureID : Z) (filename tag0 : string) (s s' : SceneManager)
    (loaded : bool) (out : list effect)
    (wf : well_formed s)
    (returned : CreateGLTexture stbi_load textureID filename tag0 s
                = Returns (loaded, s', out)) :
  well_formed s' /\
  length (m_textureIDs s') = length (m_textureIDs s) /\
  loaded = decodes stbi_load filename /\
  registered s'
  = registered s
    ++ (if loaded then [{| ID := textureID; tag := tag0 |}] else []) /\
  m_objectMaterials s' = m_objectMaterials s /\
  m_pShaderManager s' = m_pShaderManager s.
Proof.
  destruct (CreateGLTexture_outcomes stbi_load textureID filename tag0 s)
    as [(D & o & E)|[(D & B & o & E)|(D & B & E)]];
    rewrite E in returned; [| |discriminate returned];
    injection returned as <- <- <-.
  - rewrite app_nil_r. repeat split; auto; apply wf.
  - destruct (registered_register textureID tag0 s B) as (R & W & L).
    repeat split; auto; apply W.
Qed.

Lemma first_match_app (tag0 : string) (l l' : list TEXTURE_INFO) :
  forall index,
    first_match tag0 index (l ++ l')
    = match first_match tag0 index l with
      | Some r => Some r
      | None => first_match tag0 (index + Z.of_nat (length l)) l'
      end.
Proof.
  induction l as [|e l IH]; intros index; cbn [app first_match length].
  - rewrite Z.add_0_r. reflexivity.
  - destruct (String.eqb (tag e) tag0); [reflexivity|].
    rewrite IH. replace (index + 1 + Z.of_nat (length l))
      with (index + Z.of_nat (S (length l))) by lia. reflexivity.
Qed.

(** X14.  A registered tag keeps what it resolves to.  If a tag resolves
    to a slot, then after any load that returns, whatever its file, name
    and tag (the same tag included), both lookups for the tag return what
    they returned before: the first registration of a tag wins and later
    loads never move it. *)
Theorem registered_tag_keeps_its_slot (stbi_load : string -> option Image)
    (textureID : Z) (filename tag0 tag1 : string) (s s' : SceneManager)
    (loaded : bool) (out : list effect) (slot : Z)
    (wf : well_formed s)
    (found : FindTextureSlot tag1 s = Returns slot)
    (is_slot : slot <> -1)
    (returned : CreateGLTexture stbi_load textureID filename tag0 s
                = Returns (loaded, s', out)) :
  FindTextureSlot tag1 s' = Returns slot /\
  FindTextureID tag1 s' = FindTextureID tag1 s.
Proof.
  destruct (returned_load_appends _ _ _ _ _ _ _ _ wf returned) as (W & R).
  rewrite (FindTextureSlot_first_match tag1 s wf) in found.
  injection found as F.
  rewrite (FindTextureSlot_first_match tag1 s' W),
    (FindTextureID_first_match tag1 s' W),
    (FindTextureID_first_match tag1 s wf), R.
  unfold slot_of, name_of in *.
  rewrite first_match_app.
  destruct (first_match tag1 0 (registered s)) as [[i t]|];
    [subst; split; reflexivity|lia].
Qed.

(** X15.  Registration and lookup round-trip.  After a load that succeeds
    for a tag no registered slot carries, [FindTextureSlot] returns for
    that tag the count before the load, that is, the slot just written,
    and [FindTextureID] returns the name stored there, as an [int]. *)
Theorem new_tag_gets_next_slot (stbi_load : string -> option Image)
    (textureID : Z) (filename tag0 : string) (s s' : SceneManager)
    (out : list effect)
    (wf : well_formed s)
    (absent : FindTextureSlot tag0 s = Returns (-1))
    (returned : CreateGLTexture stbi_load textureID filename tag0 s
                = Returns (true, s', out)) :
  FindTextureSlot tag0 s' = Returns (m_loadedTextures s) /\
  FindTextureID tag0 s' = Returns (int_of_GLuint textureID) /\
  m_loadedTextures s' = m_loadedTextures s + 1.
Proof.
  destruct (returned_load_appends _ _ _ _ _ _ _ _ wf returned) as (W & R).
  pose proof (FindTextureSlot_first_match tag0 s' W) as HS'.
  pose proof (FindTextureID_first_match tag0 s' W) as HI'.
  rewrite (FindTextureSlot_first_match tag0 s wf) in absent.
  injection absent as A.
  pose proof (length_registered s wf) as Len.
  pose proof (length_registered s' W) as Len'.
  assert (N : first_match tag0 0 (registered s) = None).
  { unfold slot_of in A.
    destruct (first_match tag0 0 (registered s)) as [[i t]|] eqn:M;
      [|reflexivity].
    destruct (first_match_bounds _ _ _ _ _ M) as (B & _). lia. }
  rewrite HS', HI'. unfold slot_of, name_of.
  rewrite R, first_match_app, N. cbn [first_match tag ID].
  rewrite String.eqb_refl. rewrite Len.
  rewrite R, length_app in Len'. cbn in Len'.
  destruct wf as [W0 _]. destruct W as [W0' _].
  repeat split; [f_equal; lia|lia].
Qed.

Lemma load_all_fit (stbi_load : string -> option Image)
    (loads : list (Z * (string * string))) :
  forall s,
    well_formed s ->
    m_loadedTextures s
    + Z.of_nat (length (registrations stbi_load loads))
    <= Z.of_nat (length (m_textureIDs s)) ->
    exists s', load_all stbi_load loads s = Returns s' /\
               well_formed s' /\
               registered s' = registered s ++ registrations stbi_load loads /\
               m_loadedTextures s'
               = m_loadedTextures s
                 + Z.of_nat (length (registrations stbi_load loads)) /\
               m_pShaderManager s' = m_pShaderManager s /\
               m_objectMaterials s' = m_objectMaterials s.
Proof.
  induction loads as [|[textureID [filename tag0]] loads IH]; intros s wf.
  - cbn. intros _. exists s. rewrite app_nil_r.
    repeat split; try apply wf. lia.
  - cbn [registrations load_all].
    destruct (CreateGLTexture_outcomes stbi_load textureID filename tag0 s)
      as [(D & o & E)|[(D & B & o & E)|(D & B & E)]]; rewrite D, E.
    + cbn. apply IH, wf.
    + cbn. destruct (registered_register textureID tag0 s B) as (R & W & L).
      intros Room. cbn [length] in Room.
      destruct (IH _ W) as (s' & Ld & W' & R' & C & Sh & Ms).
      { rewrite L. cbn. lia. }
      exists s'. split; [exact Ld|]. split; [exact W'|].
      rewrite R', R, <- app_assoc. cbn in C.
      repeat split; try assumption. cbn [length]. lia.
    + cbn. intros Room. cbn [length] in Room. destruct wf. lia.
Qed.

(** X16.  A sequence of loads registers exactly the files that decode, in
    order and without gaps.  From a manager whose count is within the
    array: if the files that decode to 3 or 4 channels fit in the free
    slots, the sequence returns and the registered slots are the earlier
    ones followed by one slot per such file, in load order (a failed load
    leaves no hole, so later textures move down a slot); if they do not
    fit, the sequence ends in a write at the index just past the array. *)
Theorem load_all_registers_what_decodes
    (stbi_load : string -> option Image)
    (loads : list (Z * (string * string))) (s : SceneManager)
    (wf : well_formed s) :
  let added := registrations stbi_load loads in
  let capacity := Z.of_nat (length (m_textureIDs s)) in
  (m_loadedTextures s + Z.of_nat (length added) <= capacity ->
   exists s', load_all stbi_load loads s = Returns s' /\
              well_formed s' /\
              registered s' = registered s ++ added /\
              m_loadedTextures s'
              = m_loadedTextures s + Z.of_nat (length added)) /\
  (capacity < m_loadedTextures s + Z.of_nat (length added) ->
   load_all stbi_load loads s = Undefined (ArrayIndexOutOfBounds capacity)).
Proof.
  cbv zeta. split.
  - intros Room.
    destruct (load_all_fit stbi_load loads s wf Room)
      as (s' & Ld & W & R & C & _).
    exists s'. repeat split; try assumption; apply W.
  - revert s wf.
    induction loads as [|[textureID [filename tag0]] loads IH]; intros s wf.
    + cbn. destruct wf. lia.
    + cbn [registrations load_all].
      destruct (CreateGLTexture_outcomes stbi_load textureID filename tag0 s)
        as [(D & o & E)|[(D & B & o & E)|(D & B & E)]]; rewrite D, E.
      * cbn. apply IH, wf.
      * cbn. destruct (registered_register textureID tag0 s B)
          as (_ & W & L).
        intros Full. cbn [length] in Full.
        rewrite <- L. apply (IH _ W). rewrite L. cbn. lia.
      * cbn. intros _. destruct wf. do 2 f_equal. lia.
Qed.

(** ** Loading, then looking up *)

Lemma length_registrations (stbi_load : string -> option Image)
    (loads : list (Z * (string * string))) :
  (length (registrations stbi_load loads) <= length loads)%nat.
Proof.
  induction loads as [|[textureID [filename tag0]] loads IH]; [reflexivity|].
  cbn [registrations]. destruct (decodes stbi_load filename); cbn; lia.
Qed.

Lemma registrations_tags (stbi_load : string -> option Image) (tag0 : string)
    (loads : list (Z * (string * string))) :
  Forall (fun load => snd (snd load) <> tag0) loads ->
  Forall (fun t => tag t <> tag0) (registrations stbi_load loads).
Proof.
  induction 1 as [|[textureID [filename tag1]] loads N _ IH];
    [constructor|].
  cbn [registrations]. destruct (decodes stbi_load filename);
    [constructor; [exact N|exact IH]|exact IH].
Qed.

Lemma first_match_registrations (stbi_load : string -> option Image)
    (tag0 filename : string) (textureID : Z)
    (loads : list (Z * (string * string))) :
  forall (k : nat) (index : Z),
    NoDup (map (fun load => snd (snd load)) loads) ->
    loads !! k = Some (textureID, (filename, tag0)) ->
    first_match tag0 index (registrations stbi_load loads)
    = if decodes stbi_load filename
      then Some (index
                 + Z.of_nat (length (registrations stbi_load (take k loads))),
                 {| ID := textureID; tag := tag0 |})
      else None.
Proof.
  induction loads as [|[id1 [file1 tag1]] loads IH]; intros k index ND L;
    [destruct k; discriminate|].
  apply NoDup_cons in ND as [Fresh ND].
  destruct k as [|k].
  - injection L as -> -> ->. cbn [registrations take length].
    assert (A : Forall (fun t => tag t <> tag0)
                  (registrations stbi_load loads)).
    { apply registrations_tags, Forall_forall. intros load I E.
      apply Fresh. cbn. rewrite <- E.
      apply (list_elem_of_fmap_2 (fun load => snd (snd load)) loads load I). }
    destruct (decodes stbi_load filename).
    + cbn [first_match tag]. rewrite String.eqb_refl. do 2 f_equal. lia.
    + apply first_match_none, A.
  - cbn in L.
    assert (N : tag1 <> tag0).
    { intros ->. apply Fresh.
      apply (list_elem_of_fmap_2 (fun load => snd (snd load)) loads _
               (list_elem_of_lookup_2 _ _ _ L)). }
    cbn [registrations take].
    destruct (decodes stbi_load file1).
    + cbn [first_match tag length]. apply String.eqb_neq in N. rewrite N.
      rewrite (IH k (index + 1) ND L).
      destruct (decodes stbi_load filename); [|reflexivity].
      do 2 f_equal. lia.
    + apply (IH k index ND L).
Qed.

(** X21.  Loading, then looking up.  From an empty registry with a slot
    for every load and pairwise distinct tags, the sequence of loads
    returns, and afterwards the tag of the [k]-th load resolves as follows:
    if its file decoded to 3 or 4 channels, [FindTextureSlot] returns the
    number of earlier loads that decoded (not [k]: failed loads take no
    slot) and [FindTextureID] the name [glGenTextures] handed out in that
    load, converted to [int]; if it did not, both return -1. *)
Theorem loaded_tag_resolves_to_its_texture
    (stbi_load : string -> option Image)
    (loads : list (Z * (string * string))) (s : SceneManager)
    (k : nat) (textureID : Z) (filename tag0 : string)
    (wf : well_formed s) (empty : m_loadedTextures s = 0)
    (room : (length loads <= length (m_textureIDs s))%nat)
    (distinct : NoDup (map (fun load => snd (snd load)) loads))
    (kth : loads !! k = Some (textureID, (filename, tag0))) :
  exists s',
    load_all stbi_load loads s = Returns s' /\
    FindTextureSlot tag0 s'
    = Returns (if decodes stbi_load filename
               then Z.of_nat (length (registrations stbi_load (take k loads)))
               else -1) /\
    FindTextureID tag0 s'
    = Returns (if decodes stbi_load filename
               then int_of_GLuint textureID
               else -1).
Proof.
  destruct (load_all_fit stbi_load loads s wf) as (s' & Ld & W & R & _).
  { pose proof (length_registrations stbi_load loads). lia. }
  exists s'. split; [exact Ld|].
  rewrite (FindTextureSlot_first_match tag0 s' W),
    (FindTextureID_first_match tag0 s' W), R.
  assert (E : registered s = [])
    by (unfold registered; rewrite empty; reflexivity).
  rewrite E. cbn [app].
  unfold slot_of, name_of.
  rewrite (first_match_registrations stbi_load tag0 filename textureID
             loads k 0 distinct kth).
  destruct (decodes stbi_load filename); split; reflexivity.
Qed.

(** ** Texture units and sampler indices *)

(** X17.  On a manager whose count is within the array, [BindGLTextures]
    returns, and for every registered slot [i], in increasing order and for
    no other slot, it selects texture unit [GL_TEXTURE0 + i] and binds the
    name stored in slot [i] to it.  For a tag that resolves to a slot, the
    index [SetShaderTexture] passes to the sampler is therefore the unit
    to which the tag's own texture was bound. *)
Theorem BindGLTextures_binds_slot_to_unit (s : SceneManager)
    (wf : well_formed s) :
  exists calls,
    BindGLTextures s = Returns calls /\
    length calls = (2 * length (registered s))%nat /\
    (forall (i : nat) (t : TEXTURE_INFO),
        registered s !! i = Some t ->
        calls !! (2 * i)%nat
        = Some (glActiveTexture (GL_TEXTURE0_plus (Z.of_nat i))) /\
        calls !! (2 * i + 1)%nat
        = Some (glBindTexture GL_TEXTURE_2D (ID t))) /\
    (forall tag0 slot,
        FindTextureSlot tag0 s = Returns slot -> slot <> -1 ->
        exists t,
          registered s !! Z.to_nat slot = Some t /\ tag t = tag0 /\
          calls !! (2 * Z.to_nat slot)%nat
          = Some (glActiveTexture (GL_TEXTURE0_plus slot)) /\
          calls !! (2 * Z.to_nat slot + 1)%nat
          = Some (glBindTexture GL_TEXTURE_2D (ID t))).
Proof.
  assert (G : forall todo index,
    0 <= index ->
    index + Z.of_nat todo <= Z.of_nat (length (m_textureIDs s)) ->
    exists calls,
      BindGLTextures_loop todo index s = Returns calls /\
      length calls = (2 * todo)%nat /\
      forall (i : nat) (t : TEXTURE_INFO),
        (i < todo)%nat ->
        m_textureIDs s !! (Z.to_nat index + i)%nat = Some t ->
        calls !! (2 * i)%nat
        = Some (glActiveTexture
                  (GL_TEXTURE0_plus (index + Z.of_nat i))) /\
        calls !! (2 * i + 1)%nat
        = Some (glBindTexture GL_TEXTURE_2D (ID t))).
  { induction todo as [|todo IH]; intros index I0 B.
    - exists []. repeat split; try reflexivity; lia.
    - destruct (at_index_in_bounds (m_textureIDs s) index) as (t & L & E);
        [lia|].
      destruct (IH (index + 1)) as (calls & R & Len & C); [lia|lia|].
      cbn [BindGLTextures_loop]. rewrite E. cbn [mbind outcome_bind].
      rewrite R. cbn [mbind outcome_bind].
      eexists. split; [reflexivity|]. split; [cbn; lia|].
      intros [|i] t' Lt Lk.
      + rewrite Nat.add_0_r in Lk. rewrite L in Lk. injection Lk as <-.
        cbn. rewrite Z.add_0_r. split; reflexivity.
      + replace (2 * S i)%nat with (S (S (2 * i))) by lia.
        replace (S (S (2 * i)) + 1)%nat with (S (S (2 * i + 1))) by lia.
        cbn [lookup list_lookup].
        replace (index + Z.of_nat (S i)) with (index + 1 + Z.of_nat i)
          by lia.
        apply C; [lia|].
        replace (Z.to_nat (index + 1) + i)%nat
          with (Z.to_nat index + S i)%nat by lia.
        exact Lk. }
  destruct wf as [W0 W1].
  assert (Len : length (registered s) = Z.to_nat (m_loadedTextures s)).
  { unfold registered. rewrite length_take. lia. }
  destruct (G (Z.to_nat (m_loadedTextures s)) 0) as (calls & R & L & C);
    [lia|lia|].
  exists calls. split; [exact R|]. split; [lia|].
  assert (K : forall (i : nat) (t : TEXTURE_INFO),
             registered s !! i = Some t ->
             calls !! (2 * i)%nat
             = Some (glActiveTexture (GL_TEXTURE0_plus (Z.of_nat i))) /\
             calls !! (2 * i + 1)%nat
             = Some (glBindTexture GL_TEXTURE_2D (ID t))).
  { intros i t Li.
    assert (Lt : (i < Z.to_nat (m_loadedTextures s))%nat).
    { rewrite <- Len. apply (lookup_lt_Some _ _ _ Li). }
    unfold registered in Li. rewrite lookup_take_lt in Li by lia.
    apply (C i t Lt). exact Li. }
  split; [exact K|].
  intros tag0 slot F N.
  rewrite (FindTextureSlot_first_match tag0 s (conj W0 W1)) in F.
  injection F as <-.
  destruct (slot_of_sound tag0 (registered s))
    as [[E _]|(B & (t & Lr & T) & _)]; [contradiction|].
  exists t.
  destruct (K _ _ Lr) as [K1 K2]. rewrite Z2Nat.id in K1 by lia.
  repeat split; assumption.
Qed.

(** X18.  The sampler index is -1 or a valid slot.  With a shader manager
    present and the count within the array, [SetShaderTexture] returns for
    every tag, switches texturing on, and passes to the sampler the result
    of the first-match search: -1, or an index below the number of
    registered textures.  Without a shader manager it does nothing. *)
Theorem SetShaderTexture_sampler_range (textureTag : string)
    (s : SceneManager) (wf : well_formed s) :
  (m_pShaderManager s = true ->
   SetShaderTexture textureTag s
   = Returns [setIntValue g_UseTextureName 1;
              setSampler2DValue g_TextureValueName
                (slot_of textureTag (registered s))] /\
   -1 <= slot_of textureTag (registered s) < m_loadedTextures s) /\
  (m_pShaderManager s = false -> SetShaderTexture textureTag s = Returns []).
Proof.
  split; intros M; unfold SetShaderTexture; rewrite M; [|reflexivity].
  rewrite (FindTextureSlot_first_match textureTag s wf).
  split; [reflexivity|].
  pose proof (length_registered s wf) as Len. destruct wf.
  destruct (slot_of_sound textureTag (registered s)) as [[E _]|(B & _)]; lia.
Qed.

End RegistryLookups.

(** * Properties of the scene set-up and of the draw sequence *)

Section Scene.
Local Open Scope Z_scope.

(** ** Materials *)

Lemma FindMaterial_loop_first (tag0 : string) (material m : OBJECT_MATERIAL)
    (earlier later : list OBJECT_MATERIAL) :
  Forall (fun m' => mtag m' <> tag0) earlier -> mtag m = tag0 ->
  FindMaterial_loop (earlier ++ m :: later) tag0 material
  = (true, {| ambientColor := ambientColor m;
              ambientStrength := ambientStrength m;
              diffuseColor := diffuseColor m;
              specularColor := specularColor m;
              shininess := shininess m;
              mtag := mtag material |}).
Proof.
  intros A T. induction A as [|e earlier N _ IH]; cbn.
  - apply String.eqb_eq in T. rewrite T. reflexivity.
  - apply String.eqb_neq in N. rewrite N. exact IH.
Qed.

(** X19.  The first definition of a material wins.  If the first entry of
    the material list tagged [tag0] is [m], then, whatever follows it in
    the list (later entries with the same tag included), [FindMaterial]
    returns [true] with the five values of [m] copied into the caller's
    material, whose own [tag] member is left as it was, and with a shader
    manager present [SetShaderMaterial] sets the five material uniforms
    to those values. *)
Theorem first_material_definition_wins (tag0 : string)
    (material m : OBJECT_MATERIAL) (earlier later : list OBJECT_MATERIAL)
    (s : SceneManager)
    (defined : m_objectMaterials s = earlier ++ m :: later)
    (first : Forall (fun m' => mtag m' <> tag0) earlier)
    (tagged : mtag m = tag0) :
  FindMaterial tag0 material s
  = (true, {| ambientColor := ambientColor m;
              ambientStrength := ambientStrength m;
              diffuseColor := diffuseColor m;
              specularColor := specularColor m;
              shininess := shininess m;
              mtag := mtag material |}) /\
  (m_pShaderManager s = true ->
   SetShaderMaterial tag0 material s
   = Returns
       [setVec3Value "material.ambientColor" (ambientColor m);
        setFloatValue "material.ambientStrength" (ambientStrength m);
        setVec3Value "material.diffuseColor" (diffuseColor m);
        setVec3Value "material.specularColor" (specularColor m);
        setFloatValue "material.shininess" (shininess m)]).
Proof.
  assert (F : FindMaterial tag0 material s
              = (true, {| ambientColor := ambientColor m;
                          ambientStrength := ambientStrength m;
                          diffuseColor := diffuseColor m;
                          specularColor := specularColor m;
                          shininess := shininess m;
                          mtag := mtag material |})).
  { unfold FindMaterial. rewrite defined.
    rewrite length_app. cbn [length].
    replace (length earlier + S (length later) =? 0)%nat with false
      by (symmetry; apply Nat.eqb_neq; lia).
    apply FindMaterial_loop_first; assumption. }
  split; [exact F|]. intros Sh.
  unfold SetShaderMaterial. rewrite F, Sh, defined, length_app. cbn [length].
  replace (0 <? length earlier + S (length later))%nat with true
    by (symmetry; apply Nat.ltb_lt; lia).
  reflexivity.
Qed.

(** X20.  [SetShaderMaterial] uses the shader manager without the null
    check its siblings make.  Without a shader manager, [SetShaderTexture],
    [SetTransformations], [SetShaderColor] and [SetTextureUVScale] return
    having done nothing, and so does [SetShaderMaterial] for a tag that is
    not defined; for a tag that is defined it dereferences the null
    pointer. *)
Theorem SetShaderMaterial_needs_shader_manager (tag0 : string)
    (material : OBJECT_MATERIAL) (s : SceneManager)
    (no_shader : m_pShaderManager s = false) :
  (Exists (fun m => mtag m = tag0) (m_objectMaterials s) ->
   SetShaderMaterial tag0 material s = Undefined NullPointerDereference) /\
  (Forall (fun m => mtag m <> tag0) (m_objectMaterials s) ->
   SetShaderMaterial tag0 material s = Returns []) /\
  SetShaderTexture tag0 s = Returns [] /\
  (forall scaleXYZ rx ry rz positionXYZ,
      SetTransformations scaleXYZ rx ry rz positionXYZ s = Returns []) /\
  (forall r g b a, SetShaderColor r g b a s = Returns []) /\
  (forall u v, SetTextureUVScale u v s = Returns []).
Proof.
  split; [|split; [|split; [|split; [|split]]]].
  - intros E.
    assert (exists earlier m later,
               m_objectMaterials s = earlier ++ m :: later /\
               Forall (fun m' => mtag m' <> tag0) earlier /\ mtag m = tag0)
      as (earlier & m & later & D & A & T).
    { induction E as [m l T|m l E IH].
      - exists [], m, l. repeat split; auto.
      - destruct (String.eqb_spec (mtag m) tag0) as [T|N].
        + exists [], m, l. repeat split; auto.
        + destruct IH as (earlier & m' & later & -> & A & T).
          exists (m :: earlier), m', later. repeat split; auto. }
    unfold SetShaderMaterial, FindMaterial. rewrite no_shader, D, length_app.
    cbn [length].
    replace (length earlier + S (length later) =? 0)%nat with false
      by (symmetry; apply Nat.eqb_neq; lia).
    rewrite (FindMaterial_loop_first tag0 material m earlier later A T).
    replace (0 <? length earlier + S (length later))%nat with true
      by (symmetry; apply Nat.ltb_lt; lia).
    reflexivity.
  - intros A. unfold SetShaderMaterial, FindMaterial.
    rewrite (FindMaterial_loop_absent tag0 material _ A).
    destruct (0 <? length (m_objectMaterials s))%nat,
      (length (m_objectMaterials s) =? 0)%nat; reflexivity.
  - unfold SetShaderTexture. rewrite no_shader. reflexivity.
  - intros. unfold SetTransformations. rewrite no_shader. reflexivity.
  - intros. unfold SetShaderColor. rewrite no_shader. reflexivity.
  - intros. unfold SetTextureUVScale. rewrite no_shader. reflexivity.
Qed.

(** ** The scene *)

Lemma texture_loops_return (s : SceneManager) (todo : nat) :
  forall index,
    0 <= index ->
    index + Z.of_nat todo <= Z.of_nat (length (m_textureIDs s)) ->
    DestroyGLTextures_loop todo index s
    = Returns (map (fun t => glDeleteTextures 1 (ID t))
                 (take todo (drop (Z.to_nat index) (m_textureIDs s)))) /\
    exists calls, BindGLTextures_loop todo index s = Returns calls.
Proof.
  induction todo as [|todo IH]; intros index I0 B.
  - split; [reflexivity|exists []; reflexivity].
  - destruct (at_index_in_bounds (m_textureIDs s) index) as (t & L & E);
      [lia|].
    destruct (IH (index + 1)) as (D & calls & R); [lia|lia|].
    cbn [DestroyGLTextures_loop BindGLTextures_loop].
    rewrite E, D, R. cbn [mbind outcome_bind].
    rewrite (drop_S _ _ _ L).
    replace (Z.to_nat (index + 1)) with (S (Z.to_nat index)) by lia.
    split; [reflexivity|eexists; reflexivity].
Qed.

(** X22.  On a manager whose count is within the array,
    [DestroyGLTextures] returns having deleted the names of the registered
    slots, each once and in slot order, and nothing else: the unused slots
    of the array, whose [ID] was never written, are not read. *)
Theorem DestroyGLTextures_deletes_registered (s : SceneManager)
    (wf : well_formed s) :
  DestroyGLTextures s
  = Returns (map (fun t => glDeleteTextures 1 (ID t)) (registered s)).
Proof.
  destruct wf as [W0 W1].
  destruct (texture_loops_return s (Z.to_nat (m_loadedTextures s)) 0)
    as [D _]; [lia|lia|].
  change (Z.to_nat 0) with 0%nat in D. rewrite drop_0 in D. exact D.
Qed.

Lemma PrepareScene_loads (stbi_load : string -> option Image)
    (glGenTextures : nat -> Z) (s : SceneManager) :
  match load_all stbi_load (scene_loads glGenTextures) s with
  | Returns s1 =>
      match BindGLTextures s1 with
      | Returns _ =>
          if m_pShaderManager s1
          then exists out,
                 PrepareScene stbi_load glGenTextures s
                 = Returns (DefineObjectMaterials s1, out)
          else PrepareScene stbi_load glGenTextures s
               = Undefined NullPointerDereference
      | Undefined f =>
          PrepareScene stbi_load glGenTextures s = Undefined f
      end
  | Undefined f => PrepareScene stbi_load glGenTextures s = Undefined f
  end.
Proof.
  unfold PrepareScene.
  cbv [scene_loads scene_textures imap compose]. cbn [load_all].
  repeat match goal with
         | |- context [CreateGLTexture ?a ?b ?c ?d ?e] =>
             destruct (CreateGLTexture a b c d e) as [?r|?f];
             cbn [mbind outcome_bind]; [|reflexivity]
         end.
  destruct (BindGLTextures _) as [bound|f]; cbn [mbind outcome_bind];
    [|reflexivity].
  unfold SetupSceneLights.
  match goal with
  | |- context [m_pShaderManager (DefineObjectMaterials ?x)] =>
      change (m_pShaderManager (DefineObjectMaterials x))
        with (m_pShaderManager x)
  end.
  destruct (m_pShaderManager _); cbn [mbind outcome_bind];
    [eexists|]; reflexivity.
Qed.

(** X23.  [PrepareScene] needs a shader manager.  On a manager with eight
    free slots: with a shader manager present it returns, the eight
    textures that decode are registered after the earlier ones in the
    order of the calls, and the eight materials are appended to the
    material list; without one it ends in a null-pointer dereference, in
    [SetupSceneLights], which (unlike the [Set...] methods of the class)
    uses the pointer unchecked. *)
Theorem PrepareScene_needs_shader_manager
    (stbi_load : string -> option Image) (glGenTextures : nat -> Z)
    (s : SceneManager) (wf : well_formed s)
    (room : m_loadedTextures s + 8 <= Z.of_nat (length (m_textureIDs s))) :
  (m_pShaderManager s = true ->
   exists s' out,
     PrepareScene stbi_load glGenTextures s = Returns (s', out) /\
     well_formed s' /\
     registered s'
     = registered s ++ registrations stbi_load (scene_loads glGenTextures) /\
     map mtag (m_objectMaterials s')
     = map mtag (m_objectMaterials s)
       ++ ["cake"; "frosting"; "berry"; "cream"; "plate"; "table"; "leaf";
           "caramel"]) /\
  (m_pShaderManager s = false ->
   PrepareScene stbi_load glGenTextures s = Undefined NullPointerDereference).
Proof.
  pose proof (PrepareScene_loads stbi_load glGenTextures s) as P.
  destruct (load_all_fit stbi_load (scene_loads glGenTextures) s wf)
    as (s1 & Ld & W & R & C & Sh & Ms).
  { pose proof (length_registrations stbi_load (scene_loads glGenTextures))
      as L.
    change (length (scene_loads glGenTextures)) with 8%nat in L. lia. }
  rewrite Ld in P.
  destruct (texture_loops_return s1 (Z.to_nat (m_loadedTextures s1)) 0)
    as [_ (calls & B)]; [lia|destruct W; lia|].
  unfold BindGLTextures in P. rewrite B, Sh in P.
  split; intros M; rewrite M in P; [|exact P].
  destruct P as (out & P).
  exists (DefineObjectMaterials s1), out.
  split; [exact P|]. split; [exact W|]. split; [exact R|].
  unfold DefineObjectMaterials, push_back. cbn. rewrite Ms.
  rewrite <- !app_assoc, map_app. reflexivity.
Qed.

Lemma SetShaderTexture_slot (textureTag : string) (s : SceneManager) :
  well_formed s -> m_pShaderManager s = true ->
  SetShaderTexture textureTag s
  = Returns [setIntValue g_UseTextureName 1;
             setSampler2DValue g_TextureValueName
               (slot_of textureTag (registered s))].
Proof.
  intros wf M. unfold SetShaderTexture. rewrite M.
  rewrite (FindTextureSlot_first_match textureTag s wf). reflexivity.
Qed.

Lemma RenderScene_frame (material : OBJECT_MATERIAL) (s : SceneManager) :
  well_formed s -> m_pShaderManager s = true ->
  m_objectMaterials s = m_objectMaterials (DefineObjectMaterials (new true)) ->
  exists frame,
    RenderScene material s = Returns frame /\
    length (draws frame) = 40%nat /\
    length (shininess_values frame) = 40%nat /\
    samplers frame
    = map (fun tag0 => slot_of tag0 (registered s)) texture_uses.
Proof.
  intros wf M D. unfold RenderScene.
  rewrite !(SetShaderTexture_slot _ s wf M).
  set (R := registered s). clearbody R.
  destruct s as [sh ids n ms]. cbn in M, D. subst sh ms.
  eexists. split.
  - lazy -[slot_of]. reflexivity.
  - repeat split; reflexivity.
Qed.

(** X24.  The scene as it is drawn.  For a freshly constructed manager with
    a shader manager, whatever the decoder answers and whatever names
    OpenGL hands out, [PrepareScene] returns and [RenderScene] on the
    resulting manager returns; the frame has 40 draws, each with its
    material found (40 shininess uniforms); the sampler index of each draw
    is the slot its tag has among the textures that decoded; and no draw
    gets the index -1 exactly when all eight texture files decode to 3 or
    4 channels. *)
Theorem scene_samplers (stbi_load : string -> option Image)
    (glGenTextures : nat -> Z) (material : OBJECT_MATERIAL) :
  exists s setup frame,
    PrepareScene stbi_load glGenTextures (new true) = Returns (s, setup) /\
    RenderScene material s = Returns frame /\
    length (draws frame) = 40%nat /\
    length (shininess_values frame) = 40%nat /\
    samplers frame
    = map (fun tag0 =>
             slot_of tag0 (registrations stbi_load (scene_loads glGenTextures)))
        texture_uses /\
    forallb (fun v => 0 <=? v) (samplers frame)
    = forallb (fun load => decodes stbi_load (fst load)) scene_textures.
Proof.
  assert (wf : well_formed (new true)) by (unfold well_formed; cbn; lia).
  pose proof (PrepareScene_loads stbi_load glGenTextures (new true)) as P.
  destruct (load_all_fit stbi_load (scene_loads glGenTextures) (new true) wf)
    as (s1 & Ld & W & R & C & Sh & Ms).
  { pose proof (length_registrations stbi_load (scene_loads glGenTextures))
      as L.
    change (length (scene_loads glGenTextures)) with 8%nat in L.
    cbn in *. lia. }
  rewrite Ld in P.
  destruct (texture_loops_return s1 (Z.to_nat (m_loadedTextures s1)) 0)
    as [_ (calls & B)]; [lia|destruct W; lia|].
  unfold BindGLTextures in P. rewrite B, Sh in P. cbn in P.
  destruct P as (setup & P).
  destruct (RenderScene_frame material (DefineObjectMaterials s1))
    as (frame & F & Dr & Sn & Sa).
  { exact W. }
  { exact Sh. }
  { unfold DefineObjectMaterials, push_back. cbn. rewrite Ms. reflexivity. }
  exists (DefineObjectMaterials s1), setup, frame.
  change (registered (DefineObjectMaterials s1)) with (registered s1) in Sa.
  rewrite R in Sa. cbn [registered new take Z.to_nat app] in Sa.
  repeat (split; [assumption|]).
  rewrite Sa.
  cbv [scene_loads scene_textures imap compose registrations forallb fst].
  repeat match goal with
         | |- context [decodes stbi_load ?f] => destruct (decodes stbi_load f)
         end; reflexivity.
Qed.

End Scene.


(** ** The camera properties on concrete runs *)

Section MotionScenarios.
#[local] Existing Instance taylor_libm.


Lemma front_follows_angles_witness :
  let moved := final [CursorPos 500 400; Scroll 0 1] initial in
  let still := final [Scroll 0 1] initial in
  firstMouse moved = false /\
  cameraFront moved = normalize (direction_of (yaw moved) (pitch moved)) /\
  firstMouse still = true /\
  cameraFront still = cameraFront initial.
Proof.
  intros moved still.
  assert (M : firstMouse moved = false) by reflexivity.
  assert (S0 : firstMouse still = true) by reflexivity.
  split; [exact M|]. split; [|split; [exact S0|]].
  - destruct (front_follows_angles (H := taylor_libm)
                [CursorPos 500 400; Scroll 0 1]) as [K _].
    apply K, M.
  - destruct (front_follows_angles (H := taylor_libm) [Scroll 0 1])
      as [_ K].
    apply K, S0.
Defined.


Lemma scroll_is_monotone_witness :
  let fast := set_movementSpeed 10 initial in
  (movementSpeed initial <= movementSpeed fast /\ 1 <= 2) /\
  movementSpeed (Mouse_Scroll_Callback 0 1 initial)
  <= movementSpeed (Mouse_Scroll_Callback 0 2 fast) /\
  (0 <= 1 /\ movementSpeed fast == 10) /\
  movementSpeed (Mouse_Scroll_Callback 0 1 fast) == 10.
Proof.
  intros fast.
  assert (L : movementSpeed initial <= movementSpeed fast) by (cbn; lra).
  assert (Y : 1 <= 2) by lra.
  assert (P : 0 <= 1) by lra.
  assert (T : movementSpeed fast == 10) by reflexivity.
  split; [split; assumption|]. split; [|split; [split; assumption|]].
  - destruct (scroll_is_monotone 0 1 0 2 initial fast) as (K & _).
    apply K; assumption.
  - destruct (scroll_is_monotone 0 1 0 2 fast fast) as (_ & _ & _ & K).
    apply K; assumption.
Defined.

Lemma escape_only_requests_close_witness :
  let keys := keys_down [KEY_ESCAPE; KEY_W] in
  let keys' := keys_down [KEY_W] in
  (forall k, k <> KEY_ESCAPE -> keys' k = keys k) /\
  keys KEY_ESCAPE = true /\ keys' KEY_ESCAPE = false /\
  fst (ProcessKeyboardEvents keys initial)
  = fst (ProcessKeyboardEvents keys' initial) /\
  snd (ProcessKeyboardEvents keys initial)
  = SetWindowShouldClose true :: snd (ProcessKeyboardEvents keys' initial).
Proof.
  intros keys keys'.
  assert (E : forall k, k <> KEY_ESCAPE -> keys' k = keys k).
  { intros k N. destruct k; try reflexivity. contradiction. }
  assert (D : keys KEY_ESCAPE = true) by reflexivity.
  assert (U : keys' KEY_ESCAPE = false) by reflexivity.
  split; [exact E|]. split; [exact D|]. split; [exact U|].
  apply (escape_only_requests_close (H := taylor_libm)
           keys keys' initial E D U).
Defined.

Lemma both_mode_keys_in_one_pass_witness :
  let keys := keys_down [KEY_P; KEY_O] in
  let r := ProcessKeyboardEvents keys initial in
  (keys KEY_P = true /\ keys KEY_O = true) /\
  (pKeyPressed initial = false /\ oKeyPressed initial = false) /\
  orthographicProjection (fst r) = true /\
  snd r = (if keys KEY_ESCAPE then [SetWindowShouldClose true] else [])
          ++ [Stdout perspective_line; Stdout orthographic_line].
Proof.
  intros keys r.
  assert (P : keys KEY_P = true) by reflexivity.
  assert (O : keys KEY_O = true) by reflexivity.
  assert (P0 : pKeyPressed initial = false) by reflexivity.
  assert (O0 : oKeyPressed initial = false) by reflexivity.
  split; [split; assumption|]. split; [split; assumption|].
  destruct (both_mode_keys_in_one_pass (H := taylor_libm)
              keys initial P O P0 O0) as (K1 & _ & _ & K2).
  split; [exact K1|exact K2].
Defined.

End MotionScenarios.

(** ** The registry and scene properties on concrete managers *)

Section SceneScenarios.
Local Open Scope Z_scope.

Lemma lookups_find_first_match_witness :
  let s := register 8 "plate" (register 7 "plate" (new true)) in
  well_formed s /\
  FindTextureSlot "plate" s = Returns (slot_of "plate" (registered s)) /\
  FindTextureID "plate" s = Returns (name_of "plate" (registered s)).
Proof.
  intros s.
  assert (W : well_formed s) by (split; apply Z.leb_le; reflexivity).
  split; [exact W|].
  destruct (lookups_find_first_match "plate" s W) as (K1 & K2 & _).
  split; [exact K1|exact K2].
Defined.

Lemma FindTextureSlot_is_sound_witness :
  let s := register 8 "cake" (register 7 "plate" (new true)) in
  well_formed s /\
  exists slot,
    FindTextureSlot "cake" s = Returns slot /\
    ((slot = -1 /\
      Forall (fun t => tag t <> "cake"%string) (registered s)) \/
     (0 <= slot < m_loadedTextures s /\
      (exists t, m_textureIDs s !! Z.to_nat slot = Some t /\
                 tag t = "cake"%string) /\
      Forall (fun t => tag t <> "cake"%string)
             (take (Z.to_nat slot) (registered s)))).
Proof.
  intros s.
  assert (W : well_formed s) by (split; apply Z.leb_le; reflexivity).
  split; [exact W|].
  apply (FindTextureSlot_is_sound "cake" s W).
Defined.

Lemma CreateGLTexture_appends_witness :
  let s := register 7 "plate" (new true) in
  let s' := register 8 "again" s in
  well_formed s /\
  (exists out,
      CreateGLTexture example_decoder 8 "textures/plate.jpg" "again" s
      = Returns (true, s', out)) /\
  registered s' = registered s ++ [{| ID := 8; tag := "again" |}].
Proof.
  intros s s'.
  assert (W : well_formed s) by (split; apply Z.leb_le; reflexivity).
  assert (R : exists out,
             CreateGLTexture example_decoder 8 "textures/plate.jpg" "again" s
             = Returns (true, s', out)) by (eexists; reflexivity).
  split; [exact W|]. split; [exact R|].
  destruct R as (out & R).
  destruct (CreateGLTexture_appends example_decoder 8 "textures/plate.jpg"
              "again" s s' true out W R) as (_ & _ & _ & K & _).
  exact K.
Defined.

Lemma registered_tag_keeps_its_slot_witness :
  let s := register 7 "plate" (new true) in
  let s' := register 8 "plate" s in
  well_formed s /\
  FindTextureSlot "plate" s = Returns 0 /\
  (exists out,
      CreateGLTexture example_decoder 8 "textures/plate.jpg" "plate" s
      = Returns (true, s', out)) /\
  FindTextureSlot "plate" s' = Returns 0 /\
  FindTextureID "plate" s' = FindTextureID "plate" s.
Proof.
  intros s s'.
  assert (W : well_formed s) by (split; apply Z.leb_le; reflexivity).
  assert (F : FindTextureSlot "plate" s = Returns 0) by reflexivity.
  assert (N : 0 <> -1) by discriminate.
  assert (R : exists out,
             CreateGLTexture example_decoder 8 "textures/plate.jpg" "plate" s
             = Returns (true, s', out)) by (eexists; reflexivity).
  split; [exact W|]. split; [exact F|]. split; [exact R|].
  destruct R as (out & R).
  apply (registered_tag_keeps_its_slot example_decoder 8
           "textures/plate.jpg" "plate" "plate" s s' true out 0 W F N R).
Defined.

Lemma new_tag_gets_next_slot_witness :
  let s := register 7 "plate" (new true) in
  let s' := register 8 "again" s in
  well_formed s /\
  FindTextureSlot "again" s = Returns (-1) /\
  (exists out,
      CreateGLTexture example_decoder 8 "textures/plate.jpg" "again" s
      = Returns (true, s', out)) /\
  FindTextureSlot "again" s' = Returns (m_loadedTextures s) /\
  FindTextureID "again" s' = Returns (int_of_GLuint 8) /\
  m_loadedTextures s' = m_loadedTextures s + 1.
Proof.
  intros s s'.
  assert (W : well_formed s) by (split; apply Z.leb_le; reflexivity).
  assert (A : FindTextureSlot "again" s = Returns (-1)) by reflexivity.
  assert (R : exists out,
             CreateGLTexture example_decoder 8 "textures/plate.jpg" "again" s
             = Returns (true, s', out)) by (eexists; reflexivity).
  split; [exact W|]. split; [exact A|]. split; [exact R|].
  destruct R as (out & R).
  apply (new_tag_gets_next_slot example_decoder 8 "textures/plate.jpg"
           "again" s s' out W A R).
Defined.

Lemma load_all_registers_what_decodes_witness :
  let loads := [(7, ("textures/plate.jpg", "plate"%string));
                (8, ("textures/grey.png", "grey"%string));
                (9, ("textures/plate.jpg", "again"%string))] in
  let plates := replicate 17 (7, ("textures/plate.jpg", "plate"%string)) in
  well_formed (new true) /\
  (m_loadedTextures (new true)
   + Z.of_nat (length (registrations example_decoder loads))
   <= Z.of_nat (length (m_textureIDs (new true))) /\
   exists s', load_all example_decoder loads (new true) = Returns s' /\
              registered s'
              = registered (new true)
                ++ registrations example_decoder loads) /\
  (Z.of_nat (length (m_textureIDs (new true)))
   < m_loadedTextures (new true)
     + Z.of_nat (length (registrations example_decoder plates)) /\
   load_all example_decoder plates (new true)
   = Undefined
       (ArrayIndexOutOfBounds (Z.of_nat (length (m_textureIDs (new true)))))).
Proof.
  intros loads plates.
  assert (W : well_formed (new true)) by (split; apply Z.leb_le; reflexivity).
  assert (Room : m_loadedTextures (new true)
                 + Z.of_nat (length (registrations example_decoder loads))
                 <= Z.of_nat (length (m_textureIDs (new true))))
    by (apply Z.leb_le; reflexivity).
  assert (Full : Z.of_nat (length (m_textureIDs (new true)))
                 < m_loadedTextures (new true)
                   + Z.of_nat (length (registrations example_decoder plates)))
    by (apply Z.ltb_lt; reflexivity).
  split; [exact W|]. split; split; try assumption.
  - destruct (load_all_registers_what_decodes example_decoder loads
                (new true) W) as [K _].
    destruct (K Room) as (s' & Ld & _ & R & _).
    exists s'. split; assumption.
  - destruct (load_all_registers_what_decodes example_decoder plates
                (new true) W) as [_ K].
    apply K, Full.
Defined.

Lemma loaded_tag_resolves_to_its_texture_witness :
  let loads := [(7, ("textures/plate.jpg", "plate"%string));
                (8, ("textures/grey.png", "grey"%string));
                (9, ("textures/plate.jpg", "again"%string))] in
  well_formed (new true) /\
  m_loadedTextures (new true) = 0 /\
  (length loads <= length (m_textureIDs (new true)))%nat /\
  NoDup (map (fun load => snd (snd load)) loads) /\
  loads !! 2%nat = Some (9, ("textures/plate.jpg", "again"%string)) /\
  exists s',
    load_all example_decoder loads (new true) = Returns s' /\
    FindTextureSlot "again" s' = Returns 1 /\
    FindTextureID "again" s' = Returns 9.
Proof.
  intros loads.
  assert (W : well_formed (new true)) by (split; apply Z.leb_le; reflexivity).
  assert (E : m_loadedTextures (new true) = 0) by reflexivity.
  assert (Room : (length loads <= length (m_textureIDs (new true)))%nat)
    by (apply Nat.leb_le; reflexivity).
  assert (D : NoDup (map (fun load => snd (snd load)) loads)).
  { refine (bool_decide_unpack _ _). vm_compute. exact I. }
  assert (L : loads !! 2%nat
              = Some (9, ("textures/plate.jpg", "again"%string)))
    by reflexivity.
  repeat (split; [assumption|]).
  destruct (loaded_tag_resolves_to_its_texture example_decoder loads
              (new true) 2 9 "textures/plate.jpg" "again" W E Room D L)
    as (s' & Ld & FS & FI).
  exists s'. split; [exact Ld|]. split; [exact FS|exact FI].
Defined.

Lemma BindGLTextures_binds_slot_to_unit_witness :
  let s := register 8 "cake" (register 7 "plate" (new true)) in
  well_formed s /\
  exists calls,
    BindGLTextures s = Returns calls /\
    length calls = (2 * length (registered s))%nat.
Proof.
  intros s.
  assert (W : well_formed s) by (split; apply Z.leb_le; reflexivity).
  split; [exact W|].
  destruct (BindGLTextures_binds_slot_to_unit s W) as (calls & B & L & _).
  exists calls. split; [exact B|exact L].
Defined.

Lemma SetShaderTexture_sampler_range_witness :
  let s := register 8 "cake" (register 7 "plate" (new true)) in
  well_formed s /\ m_pShaderManager s = true /\
  SetShaderTexture "cake" s
  = Returns [setIntValue g_UseTextureName 1;
             setSampler2DValue g_TextureValueName
               (slot_of "cake" (registered s))] /\
  -1 <= slot_of "cake" (registered s) < m_loadedTextures s.
Proof.
  intros s.
  assert (W : well_formed s) by (split; apply Z.leb_le; reflexivity).
  assert (M : m_pShaderManager s = true) by reflexivity.
  split; [exact W|]. split; [exact M|].
  destruct (SetShaderTexture_sampler_range "cake" s W) as [K _].
  apply K, M.
Defined.

Lemma first_material_definition_wins_witness :
  let s := DefineObjectMaterials (DefineObjectMaterials (new true)) in
  let blank := {| ambientColor := Vec3.mk 0 0 0; ambientStrength := 0;
                  diffuseColor := Vec3.mk 0 0 0;
                  specularColor := Vec3.mk 0 0 0;
                  shininess := 0; mtag := "" |} in
  let frosting := {| ambientColor := Vec3.mk 0.15 0.15 0.12;
                     ambientStrength := 0.3;
                     diffuseColor := Vec3.mk 0.9 0.9 0.8;
                     specularColor := Vec3.mk 0.4 0.4 0.4;
                     shininess := 16.0;
                     mtag := "frosting" |} in
  let earlier := take 1 (m_objectMaterials s) in
  let later := drop 2 (m_objectMaterials s) in
  m_objectMaterials s = earlier ++ frosting :: later /\
  Forall (fun m' => mtag m' <> "frosting"%string) earlier /\
  Exists (fun m' => mtag m' = "frosting"%string) later /\
  FindMaterial "frosting" blank s
  = (true, {| ambientColor := ambientColor frosting;
              ambientStrength := ambientStrength frosting;
              diffuseColor := diffuseColor frosting;
              specularColor := specularColor frosting;
              shininess := shininess frosting;
              mtag := mtag blank |}).
Proof.
  intros s blank frosting earlier later.
  assert (D : m_objectMaterials s = earlier ++ frosting :: later)
    by reflexivity.
  assert (A : Forall (fun m' => mtag m' <> "frosting"%string) earlier).
  { repeat constructor. cbn. discriminate. }
  assert (T : mtag frosting = "frosting"%string) by reflexivity.
  assert (E : Exists (fun m' => mtag m' = "frosting"%string) later).
  { do 7 apply Exists_cons_tl. apply Exists_cons_hd. reflexivity. }
  split; [exact D|]. split; [exact A|]. split; [exact E|].
  destruct (first_material_definition_wins "frosting" blank frosting
              earlier later s D A T) as [K _].
  exact K.
Defined.

Lemma SetShaderMaterial_needs_shader_manager_witness :
  let s := DefineObjectMaterials (new false) in
  let blank := {| ambientColor := Vec3.mk 0 0 0; ambientStrength := 0;
                  diffuseColor := Vec3.mk 0 0 0;
                  specularColor := Vec3.mk 0 0 0;
                  shininess := 0; mtag := "" |} in
  m_pShaderManager s = false /\
  Exists (fun m => mtag m = "cake"%string) (m_objectMaterials s) /\
  SetShaderMaterial "cake" blank s = Undefined NullPointerDereference /\
  Forall (fun m => mtag m <> "glass"%string) (m_objectMaterials s) /\
  SetShaderMaterial "glass" blank s = Returns [].
Proof.
  intros s blank.
  assert (N : m_pShaderManager s = false) by reflexivity.
  assert (E : Exists (fun m => mtag m = "cake"%string) (m_objectMaterials s)).
  { apply Exists_cons_hd. reflexivity. }
  assert (A : Forall (fun m => mtag m <> "glass"%string)
                (m_objectMaterials s)).
  { repeat (constructor; [cbn; discriminate|]). constructor. }
  destruct (SetShaderMaterial_needs_shader_manager "cake" blank s N)
    as (K & _).
  destruct (SetShaderMaterial_needs_shader_manager "glass" blank s N)
    as (_ & K' & _).
  split; [exact N|]. split; [exact E|]. split; [apply K, E|].
  split; [exact A|apply K', A].
Defined.

Lemma DestroyGLTextures_deletes_registered_witness :
  let s := register 8 "cake" (register 7 "plate" (new true)) in
  well_formed s /\
  DestroyGLTextures s
  = Returns (map (fun t => glDeleteTextures 1 (ID t)) (registered s)).
Proof.
  intros s.
  assert (W : well_formed s) by (split; apply Z.leb_le; reflexivity).
  split; [exact W|].
  apply (DestroyGLTextures_deletes_registered s W).
Defined.

Lemma PrepareScene_needs_shader_manager_witness :
  let names := fun k : nat => Z.of_nat k + 1 in
  (well_formed (new true) /\
   m_loadedTextures (new true) + 8
   <= Z.of_nat (length (m_textureIDs (new true))) /\
   m_pShaderManager (new true) = true) /\
  (exists s' out,
      PrepareScene example_decoder names (new true) = Returns (s', out) /\
      registered s'
      = registered (new true)
        ++ registrations example_decoder (scene_loads names)) /\
  (well_formed (new false) /\
   m_loadedTextures (new false) + 8
   <= Z.of_nat (length (m_textureIDs (new false))) /\
   m_pShaderManager (new false) = false) /\
  PrepareScene example_decoder names (new false)
  = Undefined NullPointerDereference.
Proof.
  intros names.
  assert (W : forall b, well_formed (new b))
    by (intros b; split; apply Z.leb_le; reflexivity).
  assert (Room : forall b, m_loadedTextures (new b) + 8
                           <= Z.of_nat (length (m_textureIDs (new b))))
    by (intros b; apply Z.leb_le; reflexivity).
  split; [repeat split; try apply W; try apply Room|].
  split; [|split; [repeat split; try apply W; try apply Room|]].
  - destruct (PrepareScene_needs_shader_manager example_decoder names
                (new true) (W true) (Room true)) as [K _].
    destruct (K eq_refl) as (s' & out & P & _ & R & _).
    exists s', out. split; [exact P|exact R].
  - destruct (PrepareScene_needs_shader_manager example_decoder names
                (new false) (W false) (Room false)) as [_ K].
    apply K. reflexivity.
Defined.

End SceneScenarios.
